(** * Debug-session orchestration layer: the two debugger adapters

  A shallow embedding of [backend/services/debuggers/nodeDebugger.js]
  (the message-protocol adapter) and
  [backend/services/debuggers/javaDebugger.js] (the REPL adapter).

  Both classes are event driven: a method call, a line read from the
  debugger, an inbound socket message or an expired timer runs one
  handler to completion.  Each adapter is therefore embedded as a state
  record together with one transition function per handler; promise
  continuations are defunctionalised (the [waiter] and [cont] types) and
  run inside the step that settles their promise.  Time is counted in
  milliseconds; one [Tick] advances the clock by one millisecond and
  fires the timers that fall due. *)

From Stdlib Require Import ZArith Lia String Ascii List Bool.
From stdpp Require Import base gmap strings list pretty.

Local Open Scope Z_scope.
Local Open Scope string_scope.
Local Open Scope list_scope.

(** ** Text primitives of the host language used by the adapters *)

Module Text.

Definition chars (s : string) : list ascii := list_ascii_of_string s.
Definition text (l : list ascii) : string := string_of_list_ascii l.

Definition code (c : ascii) : nat := nat_of_ascii c.

Definition between (lo hi : nat) (c : ascii) : bool :=
  (lo <=? code c)%nat && (code c <=? hi)%nat.

(** [\s] and the characters removed by [trim], restricted to ASCII. *)
Definition is_space (c : ascii) : bool := between 9 13 c || (code c =? 32)%nat.
(** Line terminators, which [.] does not match. *)
Definition is_line_terminator (c : ascii) : bool :=
  (code c =? 10)%nat || (code c =? 13)%nat.
(** [\d] *)
Definition is_digit (c : ascii) : bool := between 48 57 c.
(** [\w] *)
Definition is_word (c : ascii) : bool :=
  is_digit c || between 65 90 c || between 97 122 c || (code c =? 95)%nat.

Fixpoint prefix_of (p l : list ascii) : bool :=
  match p, l with
  | [], _ => true
  | _ :: _, [] => false
  | a :: p', b :: l' => Ascii.eqb a b && prefix_of p' l'
  end.

Fixpoint infix_of (p l : list ascii) : bool :=
  prefix_of p l || match l with [] => false | _ :: l' => infix_of p l' end.

(** [hay.includes(needle)], [s.startsWith(p)], [s.endsWith(p)] *)
Definition includes (needle hay : string) : bool := infix_of (chars needle) (chars hay).
Definition startsWith (p s : string) : bool := prefix_of (chars p) (chars s).
Definition endsWith (p s : string) : bool := prefix_of (rev (chars p)) (rev (chars s)).

Fixpoint span (f : ascii -> bool) (l : list ascii) : list ascii * list ascii :=
  match l with
  | [] => ([], [])
  | c :: l' => if f c then let '(a, b) := span f l' in (c :: a, b) else ([], l)
  end.

Definition skip (f : ascii -> bool) (l : list ascii) : list ascii := snd (span f l).

Definition trim_chars (l : list ascii) : list ascii :=
  rev (skip is_space (rev (skip is_space l))).

(** [s.trim()] *)
Definition trim (s : string) : string := text (trim_chars (chars s)).

Definition digit_value (c : ascii) : Z := Z.of_nat (code c) - 48.

(** [parseInt(ds, 10)] on a string of decimal digits (exact for the
    values a double represents exactly). *)
Definition parseInt (ds : list ascii) : Z :=
  fold_left (fun acc c => 10 * acc + digit_value c) ds 0.

(** [/line=(\d+)/]: the digits captured at the leftmost match. *)
Fixpoint match_line (l : list ascii) : option (list ascii) :=
  match l with
  | [] => None
  | _ :: l' =>
      let here :=
        if prefix_of (chars "line=") l
        then match fst (span is_digit (drop 5 l)) with
             | [] => None
             | ds => Some ds
             end
        else None in
      match here with
      | Some ds => Some ds
      | None => match_line l'
      end
  end.

(** The tail [\s*(.+)$] of the assignment pattern, applied to what
    follows the [=] sign: the greedy [\s*] gives characters back only
    when nothing would be left for [.+]. *)
Definition assignment_value (rest : list ascii) : option (list ascii) :=
  match skip is_space rest with
  | [] => match last (A := ascii) rest with
          | Some c => if is_line_terminator c then None else Some [c]
          | None => None
          end
  | body => if forallb (fun c => negb (is_line_terminator c)) body
            then Some body else None
  end.

(** [/^\s*(\w+)\s*=\s*(.+)$/]: both captured groups. *)
Definition match_assignment (l : list ascii) : option (list ascii * list ascii) :=
  let '(name, l1) := span is_word (skip is_space l) in
  match name with
  | [] => None
  | _ =>
      match skip is_space l1 with
      | c :: rest =>
          if Ascii.eqb c "="%char
          then match assignment_value rest with
               | Some v => Some (name, v)
               | None => None
               end
          else None
      | [] => None
      end
  end.

(** One attempt of
    [/Debugger listening on (ws:\/\/[^:]+:(\d+)\/[^)]+)/] at the head of
    [l]: the captured endpoint and the captured port digits. *)
Definition listening_here (l : list ascii) : option (list ascii * list ascii) :=
  let lead := chars "Debugger listening on " in
  let scheme := chars "ws://" in
  if prefix_of (lead ++ scheme) l then
    let l0 := drop (length (lead ++ scheme)) l in
    let '(host, l1) := span (fun c => negb (Ascii.eqb c ":"%char)) l0 in
    match host, l1 with
    | _ :: _, _ :: l2 =>
        let '(digits, l3) := span is_digit l2 in
        match digits, l3 with
        | _ :: _, c :: l4 =>
            if Ascii.eqb c "/"%char then
              match fst (span (fun c => negb (Ascii.eqb c ")"%char)) l4) with
              | [] => None
              | path =>
                  Some (scheme ++ host ++ chars ":" ++ digits ++ chars "/" ++ path,
                        digits)
              end
            else None
        | _, _ => None
        end
    | _, _ => None
    end
  else None.

Fixpoint match_listening (l : list ascii) : option (list ascii * list ascii) :=
  match listening_here l with
  | Some m => Some m
  | None => match l with [] => None | _ :: l' => match_listening l' end
  end.

(** *** [isNaN] on strings: the StringNumericLiteral grammar *)

Definition is_sign (c : ascii) : bool := Ascii.eqb c "+"%char || Ascii.eqb c "-"%char.
Definition is_e (c : ascii) : bool := Ascii.eqb c "e"%char || Ascii.eqb c "E"%char.

Definition all_nonempty (f : ascii -> bool) (l : list ascii) : bool :=
  match l with [] => false | _ => forallb f l end.

Definition exponent_ok (l : list ascii) : bool :=
  match l with
  | [] => true
  | c :: l1 =>
      is_e c &&
      match l1 with
      | s :: l2 => if is_sign s then all_nonempty is_digit l2
                   else all_nonempty is_digit l1
      | [] => false
      end
  end.

Definition unsigned_decimal (l : list ascii) : bool :=
  if String.eqb (text l) "Infinity" then true else
  let '(int, l1) := span is_digit l in
  match l1 with
  | c :: l2 =>
      if Ascii.eqb c "."%char then
        let '(frac, l3) := span is_digit l2 in
        match int, frac with
        | [], [] => false
        | _, _ => exponent_ok l3
        end
      else match int with [] => false | _ => exponent_ok l1 end
  | [] => match int with [] => false | _ => true end
  end.

Definition is_hex (c : ascii) : bool :=
  is_digit c || between 65 70 c || between 97 102 c.

Definition radix_literal (l : list ascii) : bool :=
  match l with
  | z :: r :: ds =>
      Ascii.eqb z "0"%char &&
      (if Ascii.eqb r "x"%char || Ascii.eqb r "X"%char then all_nonempty is_hex ds
       else if Ascii.eqb r "o"%char || Ascii.eqb r "O"%char then all_nonempty (between 48 55) ds
       else if Ascii.eqb r "b"%char || Ascii.eqb r "B"%char then all_nonempty (between 48 49) ds
       else false)
  | _ => false
  end.

(** [!isNaN(s)] for a string [s]: [Number(s)] is a number exactly when
    the trimmed string is empty or a StrNumericLiteral. *)
Definition is_numeric (s : string) : bool :=
  match trim_chars (chars s) with
  | [] => true
  | c :: l =>
      radix_literal (c :: l)
      || (if is_sign c then unsigned_decimal l else unsigned_decimal (c :: l))
  end.

(** [path.basename(p, ext)] for a POSIX path without trailing
    separators: empty when the path is the extension itself, otherwise
    the last component, without [ext] when the component ends with it
    and is longer. *)
Fixpoint last_component (acc l : list ascii) : list ascii :=
  match l with
  | [] => acc
  | c :: l' => if Ascii.eqb c "/"%char then last_component [] l'
               else last_component (acc ++ [c]) l'
  end.

Definition basename (p ext : string) : string :=
  let base := last_component [] (chars p) in
  let e := chars ext in
  if String.eqb p ext then EmptyString
  else if prefix_of (rev e) (rev base) && (length e <? length base)%nat
  then text (take (length base - length e) base)
  else text base.

End Text.


(** ** Exceptions of the host language

  A call that can raise is a state transformer returning [Ok] or
  [Thrown]; [try_catch] is the [try { } catch (err) { }] statement. *)

Module Js.

Inductive res (A : Type) : Type :=
| Ok (a : A)
| Thrown (e : string).
Arguments Ok {A} a.
Arguments Thrown {A} e.

Definition M (S A : Type) : Type := S -> res A * S.

Definition ret {S A} (a : A) : M S A := fun s => (Ok a, s).
Definition throw {S A} (e : string) : M S A := fun s => (Thrown e, s).
Definition bind {S A B} (m : M S A) (k : A -> M S B) : M S B :=
  fun s => match m s with
           | (Ok a, s1) => k a s1
           | (Thrown e, s1) => (Thrown e, s1)
           end.
Definition try_catch {S A} (body : M S A) (handler : string -> M S A) : M S A :=
  fun s => match body s with
           | (Ok a, s1) => (Ok a, s1)
           | (Thrown e, s1) => handler e s1
           end.
Definition lift {S} (f : S -> S) : M S unit := fun s => (Ok tt, f s).
(** The value of an awaited promise: its result, or its rejection raised. *)
Definition await {S A} (settled : res A) : M S A := fun s => (settled, s).


(** The line feed that ends a command written to a process. *)
Definition nl : string := String (ascii_of_nat 10) EmptyString.
(** The double quote character. *)
Definition dquote : string := String (ascii_of_nat 34) EmptyString.

End Js.

Declare Scope js_scope.
Notation "m1 ;; m2" := (Js.bind m1 (fun _ => m2))
(at level 100, m2 at level 200, right associativity) : js_scope.
Notation "x <- m1 ;; m2" := (Js.bind m1 (fun x => m2))
(at level 100, m1 at next level, m2 at level 200, right associativity) : js_scope.
Local Open Scope js_scope.

(** ** The REPL adapter: [javaDebugger.js] *)

Module Java.
Import Js.

(** An entry of [this.variables]. *)
Record variable := { value : string; type : string }.

(** Payloads handed to [_notifyListeners].  A snapshot is passed by
    reference: [variables] is the address of the object in [heap]. *)
Inductive event :=
| breakpointHit (line : Z) (variables : nat)
| stepComplete (line : Z) (variables : nat)
| variablesUpdated (variables : nat)
| output (type message : string).

(** What was written to the standard input of the debugger process: the
    time of the write, whether [_processNextCommand] issued it, the text. *)
Record written := { at_time : Z; from_queue : bool; data : string }.

(** The [jdb] child process and the [readline] interface on its output. *)
Record process := { alive : bool; stdin : list written }.
Record reader := { closed : bool }.

(** Who awaits a queued command: the [resolve]/[reject] pair stored in a
    queue entry, identified by the [await] it continues. *)
Inductive waiter :=
| StartBreak
| StartRun
| SetBreakpoint (line : Z)
| Continue
| StepOver
| StepInto.

Record queued := { command : string; awaiting : waiter }.

Inductive operation :=
| OpStart
| OpSetBreakpoint (line : Z)
| OpContinue
| OpStepOver
| OpStepInto
| OpStop.

(** The callbacks handed to [setTimeout]. *)
Inductive timer :=
| SendDone (w : waiter)       (* [_sendCommand]: setTimeout(resolve, 100), from the queue *)
| Settled (w : waiter)        (* [_processNextCommand]: setTimeout(r, 500) *)
| ClearFlag                   (* [_processNextCommand], finally: 100 *)
| LocalsSent (hit : bool)     (* [_sendCommand('locals')]: setTimeout(resolve, 100) *)
| LocalsSettled (hit : bool)  (* [_getVariables]: setTimeout(resolve, 1000) *)
| ProcessNext                 (* line handler: setTimeout(_processNextCommand, 100) *)
| InitTimeout                 (* [start]: 3000 *)
| Kill.                       (* [stop]: 500 *)

(** The fields of a [JavaDebugger], together with the clock and pending
    timers of the event loop, the running [javac] with its captured
    output, the list of spawned command lines, the objects allocated for
    [this.variables], and the settled public calls.
    [raises_on_closed] fixes the behaviour of the host: whether writing
    to, or killing, a process that has exited raises. *)
Record state := {
  raises_on_closed : bool;
  clock : Z;
  timers : list (Z * timer);
  javac : option (string * string);
  spawned : list (list string);
  debugProcess : option process;
  rl : option reader;
  initListener : bool;
  heap : list (gmap string variable);
  variables : nat;
  breakpoints : gmap Z bool;
  currentLine : Z;
  className : option string;
  filePath : option string;
  isRunning : bool;
  commandQueue : list queued;
  processingCommand : bool;
  emitted : list event;
  completed : list (operation * res (option bool))
}.

Definition set_raises_on_closed v (s : state) : state :=
  Build_state v (clock s) (timers s) (javac s) (spawned s) (debugProcess s) (rl s) (initListener s)
    (heap s) (variables s) (breakpoints s) (currentLine s) (className s) (filePath s) (isRunning s)
    (commandQueue s) (processingCommand s) (emitted s) (completed s).
Definition set_clock v (s : state) : state :=
  Build_state (raises_on_closed s) v (timers s) (javac s) (spawned s) (debugProcess s) (rl s)
    (initListener s) (heap s) (variables s) (breakpoints s) (currentLine s) (className s)
    (filePath s) (isRunning s) (commandQueue s) (processingCommand s) (emitted s) (completed s).
Definition set_timers v (s : state) : state :=
  Build_state (raises_on_closed s) (clock s) v (javac s) (spawned s) (debugProcess s) (rl s)
    (initListener s) (heap s) (variables s) (breakpoints s) (currentLine s) (className s)
    (filePath s) (isRunning s) (commandQueue s) (processingCommand s) (emitted s) (completed s).
Definition set_javac v (s : state) : state :=
  Build_state (raises_on_closed s) (clock s) (timers s) v (spawned s) (debugProcess s) (rl s)
    (initListener s) (heap s) (variables s) (breakpoints s) (currentLine s) (className s)
    (filePath s) (isRunning s) (commandQueue s) (processingCommand s) (emitted s) (completed s).
Definition set_spawned v (s : state) : state :=
  Build_state (raises_on_closed s) (clock s) (timers s) (javac s) v (debugProcess s) (rl s)
    (initListener s) (heap s) (variables s) (breakpoints s) (currentLine s) (className s)
    (filePath s) (isRunning s) (commandQueue s) (processingCommand s) (emitted s) (completed s).
Definition set_debugProcess v (s : state) : state :=
  Build_state (raises_on_closed s) (clock s) (timers s) (javac s) (spawned s) v (rl s)
    (initListener s) (heap s) (variables s) (breakpoints s) (currentLine s) (className s)
    (filePath s) (isRunning s) (commandQueue s) (processingCommand s) (emitted s) (completed s).
Definition set_rl v (s : state) : state :=
  Build_state (raises_on_closed s) (clock s) (timers s) (javac s) (spawned s) (debugProcess s) v
    (initListener s) (heap s) (variables s) (breakpoints s) (currentLine s) (className s)
    (filePath s) (isRunning s) (commandQueue s) (processingCommand s) (emitted s) (completed s).
Definition set_initListener v (s : state) : state :=
  Build_state (raises_on_closed s) (clock s) (timers s) (javac s) (spawned s) (debugProcess s)
    (rl s) v (heap s) (variables s) (breakpoints s) (currentLine s) (className s) (filePath s)
    (isRunning s) (commandQueue s) (processingCommand s) (emitted s) (completed s).
Definition set_heap v (s : state) : state :=
  Build_state (raises_on_closed s) (clock s) (timers s) (javac s) (spawned s) (debugProcess s)
    (rl s) (initListener s) v (variables s) (breakpoints s) (currentLine s) (className s)
    (filePath s) (isRunning s) (commandQueue s) (processingCommand s) (emitted s) (completed s).
Definition set_variables v (s : state) : state :=
  Build_state (raises_on_closed s) (clock s) (timers s) (javac s) (spawned s) (debugProcess s)
    (rl s) (initListener s) (heap s) v (breakpoints s) (currentLine s) (className s) (filePath s)
    (isRunning s) (commandQueue s) (processingCommand s) (emitted s) (completed s).
Definition set_breakpoints v (s : state) : state :=
  Build_state (raises_on_closed s) (clock s) (timers s) (javac s) (spawned s) (debugProcess s)
    (rl s) (initListener s) (heap s) (variables s) v (currentLine s) (className s) (filePath s)
    (isRunning s) (commandQueue s) (processingCommand s) (emitted s) (completed s).
Definition set_currentLine v (s : state) : state :=
  Build_state (raises_on_closed s) (clock s) (timers s) (javac s) (spawned s) (debugProcess s)
    (rl s) (initListener s) (heap s) (variables s) (breakpoints s) v (className s) (filePath s)
    (isRunning s) (commandQueue s) (processingCommand s) (emitted s) (completed s).
Definition set_className v (s : state) : state :=
  Build_state (raises_on_closed s) (clock s) (timers s) (javac s) (spawned s) (debugProcess s)
    (rl s) (initListener s) (heap s) (variables s) (breakpoints s) (currentLine s) v (filePath s)
    (isRunning s) (commandQueue s) (processingCommand s) (emitted s) (completed s).
Definition set_filePath v (s : state) : state :=
  Build_state (raises_on_closed s) (clock s) (timers s) (javac s) (spawned s) (debugProcess s)
    (rl s) (initListener s) (heap s) (variables s) (breakpoints s) (currentLine s) (className s) v
    (isRunning s) (commandQueue s) (processingCommand s) (emitted s) (completed s).
Definition set_isRunning v (s : state) : state :=
  Build_state (raises_on_closed s) (clock s) (timers s) (javac s) (spawned s) (debugProcess s)
    (rl s) (initListener s) (heap s) (variables s) (breakpoints s) (currentLine s) (className s)
    (filePath s) v (commandQueue s) (processingCommand s) (emitted s) (completed s).
Definition set_commandQueue v (s : state) : state :=
  Build_state (raises_on_closed s) (clock s) (timers s) (javac s) (spawned s) (debugProcess s)
    (rl s) (initListener s) (heap s) (variables s) (breakpoints s) (currentLine s) (className s)
    (filePath s) (isRunning s) v (processingCommand s) (emitted s) (completed s).
Definition set_processingCommand v (s : state) : state :=
  Build_state (raises_on_closed s) (clock s) (timers s) (javac s) (spawned s) (debugProcess s)
    (rl s) (initListener s) (heap s) (variables s) (breakpoints s) (currentLine s) (className s)
    (filePath s) (isRunning s) (commandQueue s) v (emitted s) (completed s).
Definition set_emitted v (s : state) : state :=
  Build_state (raises_on_closed s) (clock s) (timers s) (javac s) (spawned s) (debugProcess s)
    (rl s) (initListener s) (heap s) (variables s) (breakpoints s) (currentLine s) (className s)
    (filePath s) (isRunning s) (commandQueue s) (processingCommand s) v (completed s).
Definition set_completed v (s : state) : state :=
  Build_state (raises_on_closed s) (clock s) (timers s) (javac s) (spawned s) (debugProcess s)
    (rl s) (initListener s) (heap s) (variables s) (breakpoints s) (currentLine s) (className s)
    (filePath s) (isRunning s) (commandQueue s) (processingCommand s) (emitted s) v.

(** [new JavaDebugger()] *)
Definition new (raises : bool) : state :=
  {| raises_on_closed := raises; clock := 0; timers := []; javac := None;
     spawned := []; debugProcess := None; rl := None; initListener := false;
     heap := [∅]; variables := 0%nat; breakpoints := ∅; currentLine := 0;
     className := None; filePath := None; isRunning := false;
     commandQueue := []; processingCommand := false; emitted := [];
     completed := [] |}.

(** [setTimeout(callback, delay)] *)
Definition schedule (delay : Z) (t : timer) (s : state) : state :=
  set_timers (timers s ++ [(clock s + delay, t)]) s.

(** [_notifyListeners(event, data)] *)
Definition _notifyListeners (e : event) (s : state) : state :=
  set_emitted (emitted s ++ [e]) s.

Definition complete (op : operation) (r : res (option bool)) (s : state) : state :=
  set_completed (completed s ++ [(op, r)]) s.

(** Run the rest of an [async] method and settle its promise. *)
Definition finish (op : operation) (m : M state (option bool)) (s : state) : state :=
  let '(r, s1) := m s in complete op r s1.

(** [this.debugProcess.stdin.write(text)] *)
Definition write (queue : bool) (text : string) : M state unit := fun s =>
  match debugProcess s with
  | None => (Thrown "TypeError: Cannot read properties of null", s)
  | Some p =>
      if alive p then
        (Ok tt, set_debugProcess
                  (Some {| alive := true;
                           stdin := stdin p ++ [{| at_time := clock s; from_queue := queue;
                                                   data := text |}] |}) s)
      else if raises_on_closed s then (Thrown "write after end", s)
      else (Ok tt, s)
  end.

(** [this.debugProcess.kill()] *)
Definition kill : M state unit := fun s =>
  match debugProcess s with
  | None => (Thrown "TypeError: Cannot read properties of null", s)
  | Some p =>
      if alive p then (Ok tt, set_debugProcess (Some {| alive := false; stdin := stdin p |}) s)
      else if raises_on_closed s then (Thrown "kill ESRCH", s)
      else (Ok tt, s)
  end.

(** [this.rl.close()]: closing a closed interface does nothing. *)
Definition close_rl (s : state) : state :=
  set_rl (Some {| closed := true |}) s.

Definition stop : M state unit :=
  (fun s => match debugProcess s with
            | Some _ =>
                (try_catch (write false ("quit" +:+ nl)) (fun _ => ret tt) ;;
                 lift (schedule 500 Kill)) s
            | None => ret tt s
            end) ;;
  (fun s => match rl s with
            | Some _ => lift close_rl s
            | None => ret tt s
            end) ;;
  lift (set_isRunning false).

(** The [catch] block of [start]: [this.stop(); throw err]. *)
Definition start_catch (err : string) : M state (option bool) :=
  stop ;; throw err.

(** [setBreakpoint] from its [await] on: the rest of the [try] block and
    the [catch]. *)
Definition setBreakpoint_rest (line : Z) (awaited : res unit) : M state (option bool) :=
  try_catch
    (await awaited ;;
     lift (fun s => set_breakpoints (<[line := true]> (breakpoints s)) s) ;;
     ret (Some true))
    (fun _ => ret (Some false)).

(** [continue], [stepOver] and [stepInto] from their [await] on. *)
Definition resume_rest (awaited : res unit) : M state (option bool) :=
  try_catch (await awaited ;; ret (Some true)) (fun _ => ret (Some false)).

(** The [reject] of a queue entry. *)
Definition reject (w : waiter) (err : string) (s : state) : state :=
  match w with
  | StartBreak | StartRun => finish OpStart (start_catch err) s
  | SetBreakpoint line => finish (OpSetBreakpoint line) (setBreakpoint_rest line (Thrown err)) s
  | Continue => finish OpContinue (resume_rest (Thrown err)) s
  | StepOver => finish OpStepOver (resume_rest (Thrown err)) s
  | StepInto => finish OpStepInto (resume_rest (Thrown err)) s
  end.

(** [_sendCommand(command)]: write the command, resolve 100 ms later. *)
Definition _sendCommand (queue : bool) (command : string) (sent : timer) : M state unit :=
  write queue (command +:+ nl) ;; lift (schedule 100 sent).

(** [_processNextCommand()].  The promise chain started here continues
    in the timers [SendDone], [Settled] and [ClearFlag]; when the write
    raises, the chain goes straight to [catch(reject)] and [finally].
    [_sendCommand] is [async], so the outer [catch] is never entered. *)
Definition _processNextCommand (s : state) : state :=
  match commandQueue s with
  | [] => s
  | q :: rest =>
      if processingCommand s then s
      else
        let s1 := set_commandQueue rest (set_processingCommand true s) in
        match _sendCommand true (command q) (SendDone (awaiting q)) s1 with
        | (Ok _, s2) => s2
        | (Thrown err, s2) => schedule 100 ClearFlag (reject (awaiting q) err s2)
        end
  end.

(** [_queueCommand(command)] *)
Definition _queueCommand (cmd : string) (w : waiter) (s : state) : state :=
  let s1 := set_commandQueue (commandQueue s ++ [{| command := cmd; awaiting := w |}]) s in
  if processingCommand s1 then s1 else _processNextCommand s1.

(** The [resolve] of a queue entry. *)
Definition resolve (w : waiter) (s : state) : state :=
  match w with
  | StartBreak => _queueCommand "run" StartRun s
  | StartRun => finish OpStart (lift (set_isRunning true) ;; ret (Some true)) s
  | SetBreakpoint line => finish (OpSetBreakpoint line) (setBreakpoint_rest line (Ok tt)) s
  | Continue => finish OpContinue (resume_rest (Ok tt)) s
  | StepOver => finish OpStepOver (resume_rest (Ok tt)) s
  | StepInto => finish OpStepInto (resume_rest (Ok tt)) s
  end.

Definition show_name (c : option string) : string :=
  match c with Some n => n | None => "null" end.

(** [_inferType(value)] *)
Definition _inferType (v : string) : string :=
  if String.eqb v "null" then "null"
  else if String.eqb v "true" || String.eqb v "false" then "boolean"
  else if Text.is_numeric v then "number"
  else if Text.startsWith dquote v && Text.endsWith dquote v then "string"
  else if Text.includes "@" v then "object"
  else "unknown".

(** [this.variables = {}]: a fresh object. *)
Definition reset_variables (s : state) : state :=
  set_variables (length (heap s)) (set_heap (heap s ++ [∅]) s).

(** [this.variables[name] = entry] *)
Definition store_variable (name : string) (entry : variable) (s : state) : state :=
  set_heap (alter (fun o => <[name := entry]> o) (variables s) (heap s)) s.

(** [getVariables()] returns the reference; [snapshot] reads it. *)
Definition getVariables (s : state) : nat := variables s.
Definition deref (s : state) (ref : nat) : gmap string variable :=
  default ∅ (heap s !! ref).
Definition snapshot (s : state) : gmap string variable := deref s (getVariables s).

(** [_getVariables()], up to its first suspension.  When the write
    raises the promise rejects and the caller's [then] never runs. *)
Definition _getVariables (hit : bool) (s : state) : state :=
  snd (_sendCommand false "locals" (LocalsSent hit) (reset_variables s)).

(** [_getVariables()] after its 1000 ms wait, followed by the [then]
    callback of the line handler. *)
Definition landed (hit : bool) (s : state) : state :=
  let s1 := _notifyListeners (variablesUpdated (variables s)) s in
  let s2 := _notifyListeners
              (if hit then breakpointHit (currentLine s1) (variables s1)
               else stepComplete (currentLine s1) (variables s1)) s1 in
  schedule 100 ProcessNext (set_processingCommand false s2).

(** [start], after the initialisation wait. *)
Definition start_initialized (s : state) : state :=
  _queueCommand ("stop in " +:+ show_name (className s) +:+ ".main") StartBreak s.

(** The ['line'] listener of [_setupEventHandlers], one definition per
    [if] statement of its body. *)
Definition on_landing (line : string) (s : state) : state :=
  let hit := Text.includes "Breakpoint hit:" line in
  if hit || Text.includes "Step completed:" line then
    match Text.match_line (Text.chars line) with
    | Some ds => _getVariables hit (set_currentLine (Text.parseInt ds) s)
    | None => s
    end
  else s.

Definition on_assignment (line : string) (s : state) : state :=
  match Text.match_assignment (Text.chars line) with
  | Some (name, v) =>
      let varValue := Text.trim (Text.text v) in
      store_variable (Text.text name)
        {| value := varValue; type := _inferType varValue |} s
  | None => s
  end.

Definition on_exit (line : string) (s : state) : state :=
  if Text.includes "The application exited" line then
    _processNextCommand
      (set_processingCommand false
         (set_isRunning false
            (_notifyListeners (output "info" "Program execution completed") s)))
  else s.

Definition on_error (line : string) (s : state) : state :=
  if Text.includes "Exception occurred" line || Text.startsWith "ERROR:" line then
    _processNextCommand
      (set_processingCommand false (_notifyListeners (output "error" line) s))
  else s.

(** The listener [onInitialized] of [start], while it is registered. *)
Definition on_initialized (line : string) (s : state) : state :=
  if initListener s && Text.includes "Initializing jdb" line
  then start_initialized (set_initListener false s)
  else s.

(** The listeners of ['line'], in the order of their registration. *)
Definition on_line (line : string) (s : state) : state :=
  on_initialized line
    (on_error line (on_exit line (on_assignment line (on_landing line s)))).

(** [start(filePath, className)] up to [await this._compile()]. *)
Definition start (path : string) (name : option string) (s : state) : state :=
  let cls := match name with
             | Some n => if String.eqb n EmptyString then Text.basename path ".java" else n
             | None => Text.basename path ".java"
             end in
  let s1 := set_className (Some cls) (set_filePath (Some path) s) in
  set_javac (Some (EmptyString, EmptyString))
    (set_spawned (spawned s1 ++ [["javac"; "-g"; path]]) s1).

(** [start] after a successful compilation, up to the wait for the
    initialisation line. *)
Definition start_compiled (s : state) : state :=
  let s1 := set_spawned (spawned s ++ [["jdb"; show_name (className s)]]) s in
  let s2 := set_debugProcess (Some {| alive := true; stdin := [] |}) s1 in
  let s3 := set_rl (Some {| closed := false |}) s2 in
  schedule 3000 InitTimeout (set_initListener true s3).

(** The ['close'] listener of [_compile]. *)
Definition javac_close (exit : option Z) (s : state) : state :=
  match javac s with
  | None => s
  | Some (out, err) =>
      let s1 := set_javac None s in
      match exit with
      | Some 0 => start_compiled s1
      | _ => finish OpStart (start_catch ("Compilation failed: " +:+ err)) s1
      end
  end.

Definition setBreakpoint (line : Z) (s : state) : state :=
  match breakpoints s !! line with
  | Some _ => complete (OpSetBreakpoint line) (Ok (Some true)) s
  | None =>
      _queueCommand ("stop at " +:+ show_name (className s) +:+ ":" +:+ pretty line)
        (SetBreakpoint line) s
  end.

Definition continue (s : state) : state := _queueCommand "cont" Continue s.
Definition stepOver (s : state) : state := _queueCommand "next" StepOver s.
Definition stepInto (s : state) : state := _queueCommand "step" StepInto s.

(** A timer callback. *)
Definition fire (t : timer) (s : state) : state :=
  match t with
  | SendDone w => schedule 500 (Settled w) s
  | Settled w => schedule 100 ClearFlag (resolve w s)
  | ClearFlag => _processNextCommand (set_processingCommand false s)
  | LocalsSent hit => schedule 1000 (LocalsSettled hit) s
  | LocalsSettled hit => landed hit s
  | ProcessNext => _processNextCommand s
  | InitTimeout =>
      if initListener s then start_initialized (set_initListener false s) else s
  | Kill => snd (try_catch kill (fun _ => ret tt) s)
  end.

Definition due (t : Z) (e : Z * timer) : bool := Z.leb (fst e) t.

(** One millisecond passes. *)
Definition tick (s : state) : state :=
  let t := clock s + 1 in
  fold_left (fun s e => fire (snd e) s)
    (List.filter (due t) (timers s))
    (set_timers (List.filter (fun e => negb (due t e)) (timers s)) (set_clock t s)).

(** What the event loop can run. *)
Inductive input :=
| CallStart (filePath : string) (className : option string)
| JavacStdout (data : string)
| JavacStderr (data : string)
| JavacClose (exit : option Z)
| Line (line : string)
| JdbStderr (data : string)
| JdbClose
| CallSetBreakpoint (line : Z)
| CallContinue
| CallStepOver
| CallStepInto
| CallStop
| Tick.

Definition listening (s : state) : bool :=
  match rl s with Some r => negb (closed r) | None => false end.

Definition step (s : state) (i : input) : state :=
  match i with
  | CallStart path name => start path name s
  | JavacStdout d =>
      match javac s with
      | Some (out, err) => set_javac (Some (out +:+ d, err)) s
      | None => s
      end
  | JavacStderr d =>
      match javac s with
      | Some (out, err) => set_javac (Some (out, err +:+ d)) s
      | None => s
      end
  | JavacClose exit => javac_close exit s
  | Line line => if listening s then on_line line s else s
  | JdbStderr d =>
      match debugProcess s with
      | Some _ => _notifyListeners (output "error" (Text.trim d)) s
      | None => s
      end
  | JdbClose =>
      match debugProcess s with
      | Some p =>
          set_isRunning false
            (set_debugProcess (Some {| alive := false; stdin := stdin p |}) s)
      | None => s
      end
  | CallSetBreakpoint line => setBreakpoint line s
  | CallContinue => continue s
  | CallStepOver => stepOver s
  | CallStepInto => stepInto s
  | CallStop => finish OpStop (stop ;; ret None) s
  | Tick => tick s
  end.

Definition run (s : state) (l : list input) : state := fold_left step l s.

Definition ticks (n : nat) : list input := repeat Tick n.

End Java.

(** ** The message-protocol adapter: [nodeDebugger.js] *)

Module Node.
Import Js.

(** The primitive values that occur in inspector messages. *)
Inductive jsval :=
| JUndefined
| JString (s : string)
| JNumber (n : Z)
| JBool (b : bool).

Definition truthy (v : jsval) : bool :=
  match v with
  | JUndefined => false
  | JString s => negb (String.eqb s EmptyString)
  | JNumber n => negb (Z.eqb n 0)
  | JBool b => b
  end.

(** [a || b] *)
Definition or_else (a b : jsval) : jsval := if truthy a then a else b.

(** String conversion, as in a template literal. *)
Definition to_string (v : jsval) : string :=
  match v with
  | JUndefined => "undefined"
  | JString s => s
  | JNumber n => pretty n
  | JBool true => "true"
  | JBool false => "false"
  end.

(** A remote object: [{type, value, description}]. *)
Record remote := { ro_type : string; ro_value : jsval; ro_description : option string }.

Definition description (v : remote) : jsval :=
  match ro_description v with Some d => JString d | None => JUndefined end.

(** [_formatValue(value)] *)
Definition _formatValue (v : remote) : jsval :=
  let t := ro_type v in
  if String.eqb t "undefined" then JString "undefined"
  else if String.eqb t "null" then JString "null"
  else if String.eqb t "string" then JString (dquote +:+ to_string (ro_value v) +:+ dquote)
  else if String.eqb t "number" || String.eqb t "boolean" then ro_value v
  else if String.eqb t "object" then or_else (description v) (JString "[object]")
  else if String.eqb t "function" then JString "[function]"
  else or_else (description v) (or_else (ro_value v) (JString t)).

(** An entry of [this.variables]. *)
Record variable := { value : jsval; type : string }.

(** Inbound messages: [{id?, method?, params?, result?, error?}]. *)
Record property := { name : string; prop_value : option remote }.
Record scope := { scope_type : string; objectId : string }.
Record frame := { lineNumber : Z; scopeChain : list scope }.

Inductive payload :=
| NoResult                                   (* no [result] field, or [null] *)
| PropertyList (props : list property)       (* an array of property descriptors *)
| BreakpointSet (breakpointId : option string)
| OtherObject.                               (* any other object *)

Inductive parameters :=
| NoParams
| PausedParams (reason : string) (callFrames : list frame)
| ConsoleParams (kind : string) (args : list remote).

Record message := {
  msg_id : option Z;
  msg_method : option string;
  msg_error : option string;       (* [error.message] *)
  msg_result : payload;
  msg_params : parameters
}.

(** Outbound requests: [{id, method, params}]. *)
Inductive arguments :=
| NoArguments
| ScriptSourceArgs (scriptId : string)
| GetPropertiesArgs (objectId : string) (ownProperties : bool)
| BreakpointByUrlArgs (lineNumber : Z) (urlRegex : string) (columnNumber : Z).

Record request := { req_id : Z; req_method : string; req_params : arguments }.

(** The WebSocket client and the child process. *)
Inductive readyState := CONNECTING | OPEN | CLOSING | CLOSED.
Record socket := { url : string; ready : readyState; sent : list request }.
Record process := { alive : bool }.

Inductive event :=
| breakpointHit (line : Z) (variables : nat)
| stepComplete (line : Z) (variables : nat)
| variablesUpdated (variables : nat)
| output (kind : string) (message : string).

Inductive operation :=
| OpStart
| OpSetBreakpoint (line : Z)
| OpContinue
| OpStepOver
| OpStepInto
| OpStop.

(** The [{resolve, reject}] pair of a pending request, identified by the
    [await] it continues.  [Abandoned] is the pair of a promise that is
    settled already. *)
Inductive cont :=
| AwaitRuntimeEnable
| AwaitDebuggerEnable
| AwaitIsolateId
| AwaitScriptSource
| AwaitSetBreakpoint (line : Z)
| AwaitResume
| AwaitStepOver
| AwaitStepInto
| AwaitProperties (reason : string) (rest : list scope)
| Abandoned.

Inductive timer :=
| StartWait                                  (* [start]: 1000 *)
| RequestTimeout (id : Z) (method : string). (* [_sendMessage]: 5000 *)

(** The fields of a [NodeDebugger] ([messageQueue] is never used),
    together with the clock and pending timers of the event loop, the
    spawned command lines, the objects allocated for [this.variables],
    whether the promise of [_connectToInspector] is still pending, and
    the settled public calls. *)
Record state := {
  raises_on_closed : bool;
  clock : Z;
  timers : list (Z * timer);
  spawned : list (list string);
  debugProcess : option process;
  debuggerClient : option socket;
  connecting : bool;
  port : Z;
  heap : list (gmap string variable);
  variables : nat;
  breakpoints : gmap Z (option string);
  currentLine : Z;
  isRunning : bool;
  scriptId : option string;
  connected : bool;
  messageId : Z;
  pendingRequests : gmap Z cont;
  emitted : list event;
  completed : list (operation * res (option bool))
}.

Definition set_raises_on_closed v (s : state) : state :=
  Build_state v (clock s) (timers s) (spawned s) (debugProcess s) (debuggerClient s) (connecting s)
    (port s) (heap s) (variables s) (breakpoints s) (currentLine s) (isRunning s) (scriptId s)
    (connected s) (messageId s) (pendingRequests s) (emitted s) (completed s).
Definition set_clock v (s : state) : state :=
  Build_state (raises_on_closed s) v (timers s) (spawned s) (debugProcess s) (debuggerClient s)
    (connecting s) (port s) (heap s) (variables s) (breakpoints s) (currentLine s) (isRunning s)
    (scriptId s) (connected s) (messageId s) (pendingRequests s) (emitted s) (completed s).
Definition set_timers v (s : state) : state :=
  Build_state (raises_on_closed s) (clock s) v (spawned s) (debugProcess s) (debuggerClient s)
    (connecting s) (port s) (heap s) (variables s) (breakpoints s) (currentLine s) (isRunning s)
    (scriptId s) (connected s) (messageId s) (pendingRequests s) (emitted s) (completed s).
Definition set_spawned v (s : state) : state :=
  Build_state (raises_on_closed s) (clock s) (timers s) v (debugProcess s) (debuggerClient s)
    (connecting s) (port s) (heap s) (variables s) (breakpoints s) (currentLine s) (isRunning s)
    (scriptId s) (connected s) (messageId s) (pendingRequests s) (emitted s) (completed s).
Definition set_debugProcess v (s : state) : state :=
  Build_state (raises_on_closed s) (clock s) (timers s) (spawned s) v (debuggerClient s)
    (connecting s) (port s) (heap s) (variables s) (breakpoints s) (currentLine s) (isRunning s)
    (scriptId s) (connected s) (messageId s) (pendingRequests s) (emitted s) (completed s).
Definition set_debuggerClient v (s : state) : state :=
  Build_state (raises_on_closed s) (clock s) (timers s) (spawned s) (debugProcess s) v
    (connecting s) (port s) (heap s) (variables s) (breakpoints s) (currentLine s) (isRunning s)
    (scriptId s) (connected s) (messageId s) (pendingRequests s) (emitted s) (completed s).
Definition set_connecting v (s : state) : state :=
  Build_state (raises_on_closed s) (clock s) (timers s) (spawned s) (debugProcess s)
    (debuggerClient s) v (port s) (heap s) (variables s) (breakpoints s) (currentLine s)
    (isRunning s) (scriptId s) (connected s) (messageId s) (pendingRequests s) (emitted s)
    (completed s).
Definition set_port v (s : state) : state :=
  Build_state (raises_on_closed s) (clock s) (timers s) (spawned s) (debugProcess s)
    (debuggerClient s) (connecting s) v (heap s) (variables s) (breakpoints s) (currentLine s)
    (isRunning s) (scriptId s) (connected s) (messageId s) (pendingRequests s) (emitted s)
    (completed s).
Definition set_heap v (s : state) : state :=
  Build_state (raises_on_closed s) (clock s) (timers s) (spawned s) (debugProcess s)
    (debuggerClient s) (connecting s) (port s) v (variables s) (breakpoints s) (currentLine s)
    (isRunning s) (scriptId s) (connected s) (messageId s) (pendingRequests s) (emitted s)
    (completed s).
Definition set_variables v (s : state) : state :=
  Build_state (raises_on_closed s) (clock s) (timers s) (spawned s) (debugProcess s)
    (debuggerClient s) (connecting s) (port s) (heap s) v (breakpoints s) (currentLine s)
    (isRunning s) (scriptId s) (connected s) (messageId s) (pendingRequests s) (emitted s)
    (completed s).
Definition set_breakpoints v (s : state) : state :=
  Build_state (raises_on_closed s) (clock s) (timers s) (spawned s) (debugProcess s)
    (debuggerClient s) (connecting s) (port s) (heap s) (variables s) v (currentLine s)
    (isRunning s) (scriptId s) (connected s) (messageId s) (pendingRequests s) (emitted s)
    (completed s).
Definition set_currentLine v (s : state) : state :=
  Build_state (raises_on_closed s) (clock s) (timers s) (spawned s) (debugProcess s)
    (debuggerClient s) (connecting s) (port s) (heap s) (variables s) (breakpoints s) v
    (isRunning s) (scriptId s) (connected s) (messageId s) (pendingRequests s) (emitted s)
    (completed s).
Definition set_isRunning v (s : state) : state :=
  Build_state (raises_on_closed s) (clock s) (timers s) (spawned s) (debugProcess s)
    (debuggerClient s) (connecting s) (port s) (heap s) (variables s) (breakpoints s)
    (currentLine s) v (scriptId s) (connected s) (messageId s) (pendingRequests s) (emitted s)
    (completed s).
Definition set_scriptId v (s : state) : state :=
  Build_state (raises_on_closed s) (clock s) (timers s) (spawned s) (debugProcess s)
    (debuggerClient s) (connecting s) (port s) (heap s) (variables s) (breakpoints s)
    (currentLine s) (isRunning s) v (connected s) (messageId s) (pendingRequests s) (emitted s)
    (completed s).
Definition set_connected v (s : state) : state :=
  Build_state (raises_on_closed s) (clock s) (timers s) (spawned s) (debugProcess s)
    (debuggerClient s) (connecting s) (port s) (heap s) (variables s) (breakpoints s)
    (currentLine s) (isRunning s) (scriptId s) v (messageId s) (pendingRequests s) (emitted s)
    (completed s).
Definition set_messageId v (s : state) : state :=
  Build_state (raises_on_closed s) (clock s) (timers s) (spawned s) (debugProcess s)
    (debuggerClient s) (connecting s) (port s) (heap s) (variables s) (breakpoints s)
    (currentLine s) (isRunning s) (scriptId s) (connected s) v (pendingRequests s) (emitted s)
    (completed s).
Definition set_pendingRequests v (s : state) : state :=
  Build_state (raises_on_closed s) (clock s) (timers s) (spawned s) (debugProcess s)
    (debuggerClient s) (connecting s) (port s) (heap s) (variables s) (breakpoints s)
    (currentLine s) (isRunning s) (scriptId s) (connected s) (messageId s) v (emitted s)
    (completed s).
Definition set_emitted v (s : state) : state :=
  Build_state (raises_on_closed s) (clock s) (timers s) (spawned s) (debugProcess s)
    (debuggerClient s) (connecting s) (port s) (heap s) (variables s) (breakpoints s)
    (currentLine s) (isRunning s) (scriptId s) (connected s) (messageId s) (pendingRequests s) v
    (completed s).
Definition set_completed v (s : state) : state :=
  Build_state (raises_on_closed s) (clock s) (timers s) (spawned s) (debugProcess s)
    (debuggerClient s) (connecting s) (port s) (heap s) (variables s) (breakpoints s)
    (currentLine s) (isRunning s) (scriptId s) (connected s) (messageId s) (pendingRequests s)
    (emitted s) v.

(** [new NodeDebugger()] *)
Definition new (raises : bool) : state :=
  {| raises_on_closed := raises; clock := 0; timers := []; spawned := [];
     debugProcess := None; debuggerClient := None; connecting := false;
     port := 9229; heap := [∅]; variables := 0%nat; breakpoints := ∅;
     currentLine := 0; isRunning := false; scriptId := None;
     connected := false; messageId := 1; pendingRequests := ∅;
     emitted := []; completed := [] |}.

Definition schedule (delay : Z) (t : timer) (s : state) : state :=
  set_timers (timers s ++ [(clock s + delay, t)]) s.

Definition _notifyListeners (e : event) (s : state) : state :=
  set_emitted (emitted s ++ [e]) s.

Definition complete (op : operation) (r : res (option bool)) (s : state) : state :=
  set_completed (completed s ++ [(op, r)]) s.

Definition finish (op : operation) (m : M state (option bool)) (s : state) : state :=
  let '(r, s1) := m s in complete op r s1.

(** [this.debuggerClient.close()] *)
Definition close : M state unit := fun s =>
  match debuggerClient s with
  | None => (Thrown "TypeError: Cannot read properties of null", s)
  | Some c =>
      match ready c with
      | CONNECTING | OPEN =>
          (Ok tt, set_debuggerClient (Some {| url := url c; ready := CLOSING; sent := sent c |}) s)
      | CLOSING | CLOSED =>
          if raises_on_closed s then (Thrown "WebSocket is already closed", s)
          else (Ok tt, s)
      end
  end.

(** [this.debugProcess.kill()] *)
Definition kill : M state unit := fun s =>
  match debugProcess s with
  | None => (Thrown "TypeError: Cannot read properties of null", s)
  | Some p =>
      if alive p then (Ok tt, set_debugProcess (Some {| alive := false |}) s)
      else if raises_on_closed s then (Thrown "kill ESRCH", s)
      else (Ok tt, s)
  end.

Definition stop : M state unit :=
  (fun s => match debuggerClient s with
            | Some _ =>
                if connected s then try_catch close (fun _ => ret tt) s else ret tt s
            | None => ret tt s
            end) ;;
  (fun s => match debugProcess s with
            | Some _ => try_catch kill (fun _ => ret tt) s
            | None => ret tt s
            end) ;;
  lift (set_isRunning false).

(** The [catch] block of [start]: [this.stop(); throw err]. *)
Definition start_catch (err : string) : M state (option bool) :=
  stop ;; throw err.

(** Settling the promise of [_connectToInspector], which [start] awaits;
    a settled promise ignores later calls. *)
Definition connect_reject (err : string) (s : state) : state :=
  if connecting s then finish OpStart (start_catch err) (set_connecting false s) else s.
Definition connect_resolve (s : state) : state :=
  if connecting s then finish OpStart (ret (Some true)) (set_connecting false s) else s.

(** [setBreakpoint] from its [await] on: the rest of the [try] block and
    the [catch]. *)
Definition setBreakpoint_rest (line : Z) (awaited : res message) : M state (option bool) :=
  try_catch
    (msg <- await awaited ;;
     match msg_result msg with
     | NoResult => throw "TypeError: Cannot read properties of undefined"
     | BreakpointSet b =>
         lift (fun s => set_breakpoints (<[line := b]> (breakpoints s)) s) ;; ret (Some true)
     | PropertyList _ | OtherObject =>
         lift (fun s => set_breakpoints (<[line := None]> (breakpoints s)) s) ;; ret (Some true)
     end)
    (fun _ => ret (Some false)).

(** [continue], [stepOver] and [stepInto] from their [await] on. *)
Definition resume_rest (awaited : res message) : M state (option bool) :=
  try_catch (await awaited ;; ret (Some true)) (fun _ => ret (Some false)).

(** The [reject] of a pending request. *)
Definition reject (k : cont) (err : string) (s : state) : state :=
  match k with
  | AwaitRuntimeEnable | AwaitDebuggerEnable | AwaitIsolateId | AwaitScriptSource =>
      connect_reject err s
  | AwaitSetBreakpoint line =>
      finish (OpSetBreakpoint line) (setBreakpoint_rest line (Thrown err)) s
  | AwaitResume => finish OpContinue (resume_rest (Thrown err)) s
  | AwaitStepOver => finish OpStepOver (resume_rest (Thrown err)) s
  | AwaitStepInto => finish OpStepInto (resume_rest (Thrown err)) s
  | AwaitProperties _ _ => s
  | Abandoned => s
  end.

(** [this.debuggerClient.send(text)].  A client that is still
    connecting raises; a closing or closed one drops the frame, or
    raises on a host that raises on closed resources. *)
Definition send (rq : request) : M state unit := fun s =>
  match debuggerClient s with
  | None => (Thrown "TypeError: Cannot read properties of null", s)
  | Some c =>
      match ready c with
      | OPEN =>
          (Ok tt, set_debuggerClient
                    (Some {| url := url c; ready := OPEN; sent := sent c ++ [rq] |}) s)
      | CONNECTING => (Thrown "WebSocket is not open: readyState 0 (CONNECTING)", s)
      | CLOSING | CLOSED =>
          if raises_on_closed s then (Thrown "WebSocket is not open", s)
          else (Ok tt, s)
      end
  end.

(** [_sendMessage(method, params)], with the continuation of the
    caller.  When [send] raises inside the promise executor the promise
    rejects at once; the entry already stored under the id then holds
    the callbacks of a settled promise, and no timeout is scheduled. *)
Definition _sendMessage (method : string) (args : arguments) (k : cont) (s : state) : state :=
  if negb (connected s) then reject k "Not connected to debugger" s
  else
    let id := messageId s in
    let s1 := set_messageId (id + 1) s in
    let s2 := set_pendingRequests (<[id := k]> (pendingRequests s1)) s1 in
    match send {| req_id := id; req_method := method; req_params := args |} s2 with
    | (Ok _, s3) => schedule 5000 (RequestTimeout id method) s3
    | (Thrown err, s3) =>
        reject k err (set_pendingRequests (<[id := Abandoned]> (pendingRequests s3)) s3)
    end.

(** [this.variables = {}]: a fresh object. *)
Definition reset_variables (s : state) : state :=
  set_variables (length (heap s)) (set_heap (heap s ++ [∅]) s).

(** [this.variables[name] = entry] *)
Definition store_variable (n : string) (entry : variable) (s : state) : state :=
  set_heap (alter (fun o => <[n := entry]> o) (variables s) (heap s)) s.

Definition getVariables (s : state) : nat := variables s.
Definition deref (s : state) (ref : nat) : gmap string variable :=
  default ∅ (heap s !! ref).
Definition snapshot (s : state) : gmap string variable := deref s (getVariables s).

(** The body of the inner loop of [_updateVariables]. *)
Definition store_property (s : state) (p : property) : state :=
  match prop_value p with
  | Some v =>
      if negb (Text.startsWith "__" (name p))
      then store_variable (name p) {| value := _formatValue v; type := ro_type v |} s
      else s
  | None => s
  end.

(** The end of [_handlePaused], after [_updateVariables] has returned. *)
Definition notify_pause (reason : string) (s : state) : state :=
  if String.eqb reason "other" || String.eqb reason "ambiguous"
  then _notifyListeners (stepComplete (currentLine s) (variables s)) s
  else if String.eqb reason "breakpoint"
  then _notifyListeners (breakpointHit (currentLine s) (variables s)) s
  else s.

Definition wanted (sc : scope) : bool :=
  String.eqb (scope_type sc) "local" || String.eqb (scope_type sc) "global".

(** The outer loop of [_updateVariables] over the scopes still to visit,
    up to the next request, followed by the end of [_handlePaused]. *)
Fixpoint _updateVariables (reason : string) (scopes : list scope) (s : state) : state :=
  match scopes with
  | [] => notify_pause reason (_notifyListeners (variablesUpdated (variables s)) s)
  | sc :: rest =>
      if wanted sc
      then _sendMessage "Runtime.getProperties" (GetPropertiesArgs (objectId sc) true)
             (AwaitProperties reason rest) s
      else _updateVariables reason rest s
  end.

(** The [resolve] of a pending request. *)
Definition resolve (k : cont) (msg : message) (s : state) : state :=
  match k with
  | AwaitRuntimeEnable => _sendMessage "Debugger.enable" NoArguments AwaitDebuggerEnable s
  | AwaitDebuggerEnable => _sendMessage "Runtime.getIsolateId" NoArguments AwaitIsolateId s
  | AwaitIsolateId =>
      match msg_result msg with
      | NoResult => connect_reject "TypeError: Cannot read properties of undefined" s
      | _ => _sendMessage "Debugger.getScriptSource" (ScriptSourceArgs "1") AwaitScriptSource s
      end
  | AwaitScriptSource => connect_resolve (set_scriptId (Some "1") s)
  | AwaitSetBreakpoint line =>
      finish (OpSetBreakpoint line) (setBreakpoint_rest line (Ok msg)) s
  | AwaitResume => finish OpContinue (resume_rest (Ok msg)) s
  | AwaitStepOver => finish OpStepOver (resume_rest (Ok msg)) s
  | AwaitStepInto => finish OpStepInto (resume_rest (Ok msg)) s
  | AwaitProperties reason rest =>
      match msg_result msg with
      | PropertyList props => _updateVariables reason rest (fold_left store_property props s)
      | _ => s
      end
  | Abandoned => s
  end.

(** [_handlePaused(params)] up to its first suspension. *)
Definition _handlePaused (reason : string) (callFrames : list frame) (s : state) : state :=
  match callFrames with
  | [] => s
  | topFrame :: _ =>
      _updateVariables reason (scopeChain topFrame)
        (reset_variables (set_currentLine (lineNumber topFrame + 1) s))
  end.

(** [[...].join(' ')] of formatted values. *)
Definition join_item (v : jsval) : string :=
  match v with JUndefined => EmptyString | _ => to_string v end.
Fixpoint join (l : list jsval) : string :=
  match l with
  | [] => EmptyString
  | [v] => join_item v
  | v :: l' => join_item v +:+ " " +:+ join l'
  end.

Definition _handleConsoleOutput (kind : string) (args : list remote) (s : state) : state :=
  _notifyListeners (output kind (join (map _formatValue args))) s.

(** The pending entry a message answers: [message.id &&
    this.pendingRequests.has(message.id)]. *)
Definition answered (msg : message) (s : state) : option (Z * cont) :=
  match msg_id msg with
  | Some i => if Z.eqb i 0 then None
              else match pendingRequests s !! i with
                   | Some k => Some (i, k)
                   | None => None
                   end
  | None => None
  end.

Definition _handleMessage (msg : message) (s : state) : state :=
  match answered msg s with
  | Some (i, k) =>
      let s1 := set_pendingRequests (delete i (pendingRequests s)) s in
      match msg_error msg with
      | Some err => reject k err s1
      | None => resolve k msg s1
      end
  | None =>
      match msg_method msg with
      | Some m =>
          if String.eqb m "Debugger.paused" then
            match msg_params msg with
            | PausedParams reason frames => _handlePaused reason frames s
            | _ => s
            end
          else if String.eqb m "Runtime.consoleAPICalled" then
            match msg_params msg with
            | ConsoleParams kind args => _handleConsoleOutput kind args s
            | _ => s
            end
          else s
      | None => s
      end
  end.

(** [start(filePath)] up to its 1000 ms wait. *)
Definition start (path : string) (s : state) : state :=
  let s1 := set_spawned (spawned s ++ [["node"; "--inspect-brk"; path]]) s in
  schedule 1000 StartWait (set_debugProcess (Some {| alive := true |}) s1).

Definition inspector_url (s : state) : string :=
  "ws://localhost:" +:+ pretty (port s) +:+ "/ws".

(** [_connectToInspector()] up to the creation of the client. *)
Definition _connectToInspector (s : state) : state :=
  set_connecting true
    (set_debuggerClient (Some {| url := inspector_url s; ready := CONNECTING; sent := [] |}) s).

(** The ['data'] listener on the diagnostic stream of the process. *)
Definition on_stderr (data : string) (s : state) : state :=
  let out := Text.trim data in
  let s1 := match Text.match_listening (Text.chars out) with
            | Some (_, digits) => set_port (Text.parseInt digits) s
            | None => s
            end in
  _notifyListeners (output "stderr" out) s1.

Definition set_ready (r : readyState) (s : state) : state :=
  match debuggerClient s with
  | Some c => set_debuggerClient (Some {| url := url c; ready := r; sent := sent c |}) s
  | None => s
  end.

(** The ['open'] listener, up to its first suspension. *)
Definition on_open (s : state) : state :=
  _sendMessage "Runtime.enable" NoArguments AwaitRuntimeEnable (set_connected true s).

Definition setBreakpoint (line : Z) (s : state) : state :=
  match breakpoints s !! line with
  | Some _ => complete (OpSetBreakpoint line) (Ok (Some true)) s
  | None =>
      _sendMessage "Debugger.setBreakpointByUrl" (BreakpointByUrlArgs (line - 1) ".*" 0)
        (AwaitSetBreakpoint line) s
  end.

Definition continue (s : state) : state :=
  _sendMessage "Debugger.resume" NoArguments AwaitResume s.
Definition stepOver (s : state) : state :=
  _sendMessage "Debugger.stepOver" NoArguments AwaitStepOver s.
Definition stepInto (s : state) : state :=
  _sendMessage "Debugger.stepInto" NoArguments AwaitStepInto s.

(** A timer callback. *)
Definition fire (t : timer) (s : state) : state :=
  match t with
  | StartWait => _connectToInspector s
  | RequestTimeout i method =>
      match pendingRequests s !! i with
      | Some k =>
          reject k ("Request timed out: " +:+ method)
            (set_pendingRequests (delete i (pendingRequests s)) s)
      | None => s
      end
  end.

Definition due (t : Z) (e : Z * timer) : bool := Z.leb (fst e) t.

(** One millisecond passes. *)
Definition tick (s : state) : state :=
  let t := clock s + 1 in
  fold_left (fun s e => fire (snd e) s)
    (List.filter (due t) (timers s))
    (set_timers (List.filter (fun e => negb (due t e)) (timers s)) (set_clock t s)).

(** What the event loop can run.  [WsMessage None] is a frame that
    [JSON.parse] rejects; ['open'] is emitted for a client that is still
    connecting. *)
Inductive input :=
| CallStart (filePath : string)
| ProcStdout (data : string)
| ProcStderr (data : string)
| ProcExit
| WsOpen
| WsMessage (data : option message)
| WsError (err : string)
| WsClose
| CallSetBreakpoint (line : Z)
| CallContinue
| CallStepOver
| CallStepInto
| CallStop
| Tick.

Definition step (s : state) (i : input) : state :=
  match i with
  | CallStart path => start path s
  | ProcStdout d =>
      match debugProcess s with
      | Some _ => _notifyListeners (output "stdout" (Text.trim d)) s
      | None => s
      end
  | ProcStderr d =>
      match debugProcess s with
      | Some _ => on_stderr d s
      | None => s
      end
  | ProcExit =>
      match debugProcess s with
      | Some _ => set_debugProcess (Some {| alive := false |}) s
      | None => s
      end
  | WsOpen =>
      match debuggerClient s with
      | Some c => match ready c with
                  | CONNECTING => on_open (set_ready OPEN s)
                  | _ => s
                  end
      | None => s
      end
  | WsMessage data =>
      match debuggerClient s, data with
      | Some _, Some msg => _handleMessage msg s
      | _, _ => s
      end
  | WsError err =>
      match debuggerClient s with
      | Some _ => connect_reject err (set_ready CLOSING s)
      | None => s
      end
  | WsClose =>
      match debuggerClient s with
      | Some _ => set_connected false (set_ready CLOSED s)
      | None => s
      end
  | CallSetBreakpoint line => setBreakpoint line s
  | CallContinue => continue s
  | CallStepOver => stepOver s
  | CallStepInto => stepInto s
  | CallStop => finish OpStop (stop ;; ret None) s
  | Tick => tick s
  end.

Definition run (s : state) (l : list input) : state := fold_left step l s.

Definition ticks (n : nat) : list input := repeat Tick n.

End Node.

(** ** The debug routes: [debugRoutes.js]

The helpers with which the routes name the file of a session and the
class handed to the REPL adapter. *)

Module Routes.
Import Text.

(** [getFileExtension(language)] *)
Definition getFileExtension (language : string) : string :=
  if String.eqb language "javascript" then "js"
  else if String.eqb language "python" then "py"
  else if String.eqb language "java" then "java"
  else if String.eqb language "cpp" then "cpp"
  else "txt".

(** A literal of a pattern at the head of [l]: what follows it. *)
Definition literal (p : string) (l : list ascii) : option (list ascii) :=
  if prefix_of (chars p) l then Some (drop (length (chars p)) l) else None.

(** [\s+] at the head of [l]: what follows it. *)
Definition spaces (l : list ascii) : option (list ascii) :=
  match l with
  | c :: l' => if is_space c then Some (skip is_space l') else None
  | [] => None
  end.

(** [(\w+)] at the head of [l], taken greedily: the word and what
    follows it. *)
Definition word (l : list ascii) : option (list ascii * list ascii) :=
  match span is_word l with
  | ([], _) => None
  | (w, rest) => Some (w, rest)
  end.

(** The leftmost position at which a pattern matches. *)
Fixpoint first_match {A} (here : list ascii -> option A) (l : list ascii) : option A :=
  match here l with
  | Some a => Some a
  | None => match l with [] => None | _ :: l' => first_match here l' end
  end.

(** [/class\s+(\w+)/] at the head of [l]. *)
Definition class_here (l : list ascii) : option (list ascii * list ascii) :=
  match literal "class" l with
  | Some l1 => match spaces l1 with
               | Some l2 => word l2
               | None => None
               end
  | None => None
  end.

(** [/public\s+class\s+(\w+)/] at the head of [l]. *)
Definition public_class_here (l : list ascii) : option (list ascii) :=
  match literal "public" l with
  | Some l1 => match spaces l1 with
               | Some l2 => option_map fst (class_here l2)
               | None => None
               end
  | None => None
  end.

(** [/public\s+static\s+void\s+main/] at the head of [l]. *)
Definition main_here (l : list ascii) : option unit :=
  match literal "public" l with
  | Some l1 =>
      match spaces l1 with
      | Some l2 =>
          match literal "static" l2 with
          | Some l3 =>
              match spaces l3 with
              | Some l4 =>
                  match literal "void" l4 with
                  | Some l5 =>
                      match spaces l5 with
                      | Some l6 => option_map (fun _ => tt) (literal "main" l6)
                      | None => None
                      end
                  | None => None
                  end
              | None => None
              end
          | None => None
          end
      | None => None
      end
  | None => None
  end.

(** [[\s\S]*public\s+static\s+void\s+main] matches somewhere in [l]. *)
Definition has_main (l : list ascii) : bool :=
  match first_match main_here l with Some _ => true | None => false end.

(** The longest prefix of the word [w], of at most [k] characters,
    after which the declaration of [main] is still found: what [(\w+)]
    captures when [[\s\S]*public...] has to match behind it. *)
Fixpoint longest_before_main (k : nat) (w rest : list ascii) : option (list ascii) :=
  match k with
  | O => None
  | S k' =>
      if has_main (drop k w ++ rest) then Some (take k w)
      else longest_before_main k' w rest
  end.

(** [/class\s+(\w+)[\s\S]*public\s+static\s+void\s+main/] at the head
    of [l]. *)
Definition class_with_main_here (l : list ascii) : option (list ascii) :=
  match class_here l with
  | Some (w, rest) => longest_before_main (length w) w rest
  | None => None
  end.

(** [extractJavaClassName(code)]: [None] is [null]. *)
Definition extractJavaClassName (code : string) : option string :=
  match first_match public_class_here (chars code) with
  | Some w => Some (text w)
  | None =>
      match first_match class_with_main_here (chars code) with
      | Some w => Some (text w)
      | None => option_map (fun m => text (fst m)) (first_match class_here (chars code))
      end
  end.

(** The name of the file that [POST /start] writes the code to. *)
Definition fileName (language code sessionId : string) : string :=
  if String.eqb language "java"
  then match extractJavaClassName code with
       | Some n => if String.eqb n EmptyString then sessionId else n
       | None => sessionId
       end +:+ "." +:+ getFileExtension language
  else sessionId +:+ "." +:+ getFileExtension language.

End Routes.

Import Js.

(** * Vocabulary of the statements *)

Section RequestsTerms.

Import Node.

(** A request sent over an established connection. *)
Definition requested (method : string) (args : arguments) (k : cont) (c : socket)
    (s : state) : state :=
  schedule 5000 (RequestTimeout (messageId s) method)
    (set_debuggerClient
       (Some {| url := url c; ready := OPEN;
                sent := sent c ++ [{| req_id := messageId s; req_method := method;
                                      req_params := args |}] |})
       (set_pendingRequests (<[messageId s := k]> (pendingRequests s))
          (set_messageId (messageId s + 1) s))).

End RequestsTerms.

Section JavaCompileTerms.

Import Java.

(** The captured diagnostic output: the chunks of the compiler's error
    stream, in order. *)
Fixpoint captured (chunks : list (bool * string)) : string :=
  match chunks with
  | [] => EmptyString
  | (true, d) :: rest => d +:+ captured rest
  | (false, _) :: rest => captured rest
  end.

Definition javac_output (c : bool * string) : input :=
  if fst c then JavacStderr (snd c) else JavacStdout (snd c).

End JavaCompileTerms.

Section JavaSnapshotTerms.

Import Java.

(** [this.variables] and the objects it may refer to are left alone. *)
Definition same_store (s s' : state) : Prop :=
  heap s' = heap s /\ variables s' = variables s.

(** Whether the dump-locals command is in flight: written by
    [_getVariables] and its wait not yet over. *)
Definition dump_in_flight (s : state) : bool :=
  existsb (fun e => match snd e with
                    | LocalsSent _ | LocalsSettled _ => true
                    | _ => false
                    end) (timers s).

(** The sentence of the specification on captured assignment lines. *)
Definition captured_only_during_dump : Prop :=
  forall (l : list input) (line : string),
    let s := run (new false) l in
    dump_in_flight s = false ->
    is_Some (Text.match_assignment (Text.chars line)) ->
    snapshot (step s (Line line)) = snapshot s.

Definition idle_session : list input :=
  [CallStart "/tmp/Main.java" None; JavacClose (Some 0)].

End JavaSnapshotTerms.

Section NodeConnectTerms.

Import Node.

(** The port after a chunk of the diagnostic stream. *)
Definition announced (p : Z) (chunk : string) : Z :=
  match Text.match_listening (Text.chars (Text.trim chunk)) with
  | Some (_, digits) => Text.parseInt digits
  | None => p
  end.

(** Inputs during the wait of [start]: diagnostic output and time. *)
Definition passive (i : input) : bool :=
  match i with ProcStderr _ | Tick => true | _ => false end.

Fixpoint port_after (p : Z) (l : list input) : Z :=
  match l with
  | [] => p
  | ProcStderr d :: l' => port_after (announced p d) l'
  | _ :: l' => port_after p l'
  end.

Fixpoint elapsed (l : list input) : Z :=
  match l with
  | [] => 0
  | Tick :: l' => 1 + elapsed l'
  | _ :: l' => elapsed l'
  end.

(** The specification's sentence: the client is created for the
    endpoint that the announcement line carries. *)
Definition connects_to_announced_endpoint : Prop :=
  forall (chunk : string) (endpoint digits : list ascii) (l : list input) (c : socket),
    Text.match_listening (Text.chars (Text.trim chunk)) = Some (endpoint, digits) ->
    debuggerClient (run (new false) ([CallStart "/tmp/a.js"; ProcStderr chunk] ++ l)) = Some c ->
    url c = Text.text endpoint.

End NodeConnectTerms.

Section SessionsTerms.

(** A REPL session whose [start()] has returned long ago. *)
Definition java_session : list Java.input :=
  [Java.CallStart "/tmp/Main.java" None; Java.JavacClose (Some 0);
   Java.Line "Initializing jdb ..."] ++ Java.ticks 3000.

End SessionsTerms.

Section BreakpointsTerms.

(** The reply of the inspector to request [i]. *)
Definition reply (i : Z) (r : Node.payload) : Node.input :=
  Node.WsMessage (Some {| Node.msg_id := Some i; Node.msg_method := None;
                          Node.msg_error := None; Node.msg_result := r;
                          Node.msg_params := Node.NoParams |}).

Definition node_requests (s : Node.state) : list Node.request :=
  match Node.debuggerClient s with Some c => Node.sent c | None => [] end.

Definition java_input (s : Java.state) : list Java.written :=
  match Java.debugProcess s with Some p => Java.stdin p | None => [] end.

(** A REPL adapter at rest: a live debugger, nothing queued or in
    flight, no timer pending. *)
Definition at_rest (s : Java.state) : Prop :=
  (exists p, Java.debugProcess s = Some p /\ Java.alive p = true)
  /\ Java.commandQueue s = [] /\ Java.processingCommand s = false
  /\ Java.timers s = [].

(** The first call on an adapter at rest: the command is written at
    once, and the await settles 600 ms later. *)
Definition java_sent (s : Java.state) (p : Java.process) (line : Z) : Java.state :=
  Java.set_timers [(Java.clock s + 100, Java.SendDone (Java.SetBreakpoint line))]
    (Java.set_debugProcess
       (Some {| Java.alive := true;
                Java.stdin := Java.stdin p ++
                  [{| Java.at_time := Java.clock s; Java.from_queue := true;
                      Java.data := ("stop at " +:+ Java.show_name (Java.className s)
                                    +:+ ":" +:+ pretty line) +:+ nl |}] |})
       (Java.set_processingCommand true s)).

Definition java_settled (s : Java.state) (p : Java.process) (line : Z) : Java.state :=
  Java.set_timers [(Java.clock s + 700, Java.ClearFlag)]
    (Java.set_completed (Java.completed s ++ [(Java.OpSetBreakpoint line, Ok (Some true))])
       (Java.set_breakpoints (<[line := true]> (Java.breakpoints s))
          (Java.set_clock (Java.clock s + 600) (java_sent s p line)))).

End BreakpointsTerms.

Section StoppingTerms.

Definition node_process_gone (s : Node.state) : Prop :=
  match Node.debugProcess s with Some p => Node.alive p = false | None => True end.

(** No connection is open: there is no client, or it is not in the
    OPEN state. *)
Definition node_connection_closed (s : Node.state) : Prop :=
  match Node.debuggerClient s with Some c => Node.ready c <> Node.OPEN | None => True end.

Definition java_process_gone (s : Java.state) : Prop :=
  match Java.debugProcess s with Some p => Java.alive p = false | None => True end.

Definition java_reader_closed (s : Java.state) : Prop :=
  match Java.rl s with Some r => Java.closed r = true | None => True end.

Definition is_kill (e : Z * Java.timer) : bool :=
  match snd e with Java.Kill => true | _ => false end.

(** What can be told of a REPL adapter apart from how often the quit
    line was written and the kill scheduled: every field, with the
    process reduced to whether it is alive and the timers to the other
    callbacks and whether a kill is pending. *)
Definition java_observation (s : Java.state) :=
  (Java.raises_on_closed s, Java.clock s,
   List.filter (fun e => negb (is_kill e)) (Java.timers s), existsb is_kill (Java.timers s),
   Java.javac s, Java.spawned s, option_map Java.alive (Java.debugProcess s), Java.rl s,
   Java.initListener s, Java.heap s, Java.variables s, Java.breakpoints s,
   Java.currentLine s, Java.className s, Java.filePath s, Java.isRunning s,
   Java.commandQueue s, Java.processingCommand s, Java.emitted s, Java.completed s).

End StoppingTerms.

Section PausesTerms.

Import Node.

(** The pause event [Debugger.paused]. *)
Definition paused (reason : string) (frames : list frame) : input :=
  WsMessage (Some {| msg_id := None; msg_method := Some "Debugger.paused";
                     msg_error := None; msg_result := NoResult;
                     msg_params := PausedParams reason frames |}).

Definition answer_properties (i : Z) (props : list property) : input :=
  WsMessage (Some {| msg_id := Some i; msg_method := None; msg_error := None;
                     msg_result := PropertyList props; msg_params := NoParams |}).

(** The inspector answers the property requests of a pause one after
    the other: each reply carries the id of the latest request. *)
Fixpoint answer (replies : list (list property)) (s : state) : state :=
  match replies with
  | [] => s
  | props :: rest => answer rest (step s (answer_properties (messageId s - 1) props))
  end.

(** What a completed pause materialises: the properties of its local and
    global scopes, in order, folded into an empty object. *)
Definition add_property (m : gmap string variable) (p : property) : gmap string variable :=
  match prop_value p with
  | Some v =>
      if negb (Text.startsWith "__" (name p))
      then <[name p := {| value := _formatValue v; type := ro_type v |}]> m
      else m
  | None => m
  end.

Definition materialized (replies : list (list property)) : gmap string variable :=
  fold_left add_property (concat replies) ∅.

(** The events that end the handling of a pause. *)
Definition pause_events (reason : string) (line : Z) (ref : nat) : list event :=
  variablesUpdated ref ::
  (if String.eqb reason "other" || String.eqb reason "ambiguous" then [stepComplete line ref]
   else if String.eqb reason "breakpoint" then [breakpointHit line ref]
   else []).

Definition wanted_count (scopes : list scope) : nat :=
  length (List.filter wanted scopes).

(** The part of the state a pause relies on. *)
Record refreshing (ref : nat) (acc : gmap string variable) (out : list event)
    (line : Z) (old : list (gmap string variable)) (s : state) : Prop := {
  rf_connected : connected s = true;
  rf_client : exists c, debuggerClient s = Some c /\ ready c = OPEN;
  rf_id : 0 < messageId s;
  rf_ref : variables s = ref;
  rf_heap : heap s = old ++ [acc];
  rf_len : length old = ref;
  rf_out : emitted s = out;
  rf_line : currentLine s = line
}.

(** The snapshots handed to listeners with [variablesUpdated] so far,
    as they read now. *)
Definition delivered (s : state) : list (gmap string variable) :=
  omap (fun e => match e with
                 | variablesUpdated ref => Some (deref s ref)
                 | _ => None
                 end) (emitted s).

(** The specification's sentence: what [getVariables()] returns is at
    every moment the initial empty snapshot or the snapshot of a
    completed pause. *)
Definition snapshot_always_complete : Prop :=
  forall l : list input,
    let s := run (new false) l in
    snapshot s = ∅ \/ In (snapshot s) (delivered s).

Definition number (n : string) (z : Z) : property :=
  {| name := n;
     prop_value := Some {| ro_type := "number"; ro_value := JNumber z;
                           ro_description := None |} |}.

Definition ok_message (i : Z) : message :=
  {| msg_id := Some i; msg_method := None; msg_error := None;
     msg_result := OtherObject; msg_params := NoParams |}.

Definition ok_reply (i : Z) : input := WsMessage (Some (ok_message i)).

(** A session whose [start()] has returned. *)
Definition connected_session : list input :=
  CallStart "/tmp/a.js" :: ticks 1000 ++ [WsOpen; ok_reply 1; ok_reply 2; ok_reply 3; ok_reply 4].

(** The client of that session: open, with the four requests of the
    handshake sent. *)
Definition open_socket : socket :=
  default {| url := EmptyString; ready := CLOSED; sent := [] |}
    (debuggerClient (run (new false) connected_session)).

(** A pause in a frame with a local and a global scope, and the reply
    for the local scope only. *)
Definition half_refreshed : list input :=
  connected_session ++
  [paused "breakpoint"
     [{| lineNumber := 1;
         scopeChain := [{| scope_type := "local"; objectId := "1" |};
                        {| scope_type := "global"; objectId := "2" |}] |}];
   answer_properties 5 [number "i" 0]].

End PausesTerms.

Section CorrelationTerms.

Import Node.

(** The effect of the adapter's own code on the request table: ids only
    go up, entries below the next id stay as they are, new entries lie
    between the old and the new next id. *)
Record grows (s s' : state) : Prop := {
  g_id : messageId s <= messageId s';
  g_keep : forall j, j < messageId s -> pendingRequests s' !! j = pendingRequests s !! j;
  g_new : forall j, messageId s' <= j -> pendingRequests s !! j = None ->
                    pendingRequests s' !! j = None
}.

Definition same_table (s s' : state) : Prop :=
  messageId s' = messageId s /\ pendingRequests s' = pendingRequests s.

(** Every pending id is positive and below the next id. *)
Definition fresh (s : state) : Prop :=
  0 < messageId s
  /\ forall j k, pendingRequests s !! j = Some k -> 0 < j < messageId s.

Definition settle (k : cont) (msg : message) (s : state) : state :=
  match msg_error msg with
  | Some err => reject k err s
  | None => resolve k msg s
  end.


End CorrelationTerms.

Section PropagationTerms.



End PropagationTerms.

Section OrderingTerms.

Import Java.

(** The times at which [_processNextCommand] wrote a command to the
    debugger process, oldest first. *)
Definition queue_writes (s : state) : list Z :=
  match debugProcess s with
  | Some p => map at_time (List.filter from_queue (stdin p))
  | None => []
  end.

(** Any two entries are at least [gap] apart, in order. *)
Definition spaced (gap : Z) (l : list Z) : Prop :=
  forall (i j : nat) (a b : Z),
    (i < j)%nat -> l !! i = Some a -> l !! j = Some b -> a + gap <= b.

(** The timers of the promise chain of [_processNextCommand], and the
    timers of [_getVariables]. *)
Definition chain (e : Z * timer) : bool :=
  match snd e with SendDone _ | Settled _ | ClearFlag => true | _ => false end.
Definition refresh (e : Z * timer) : bool :=
  match snd e with LocalsSent _ | LocalsSettled _ => true | _ => false end.

(** The time at which a chain timer will have cleared the flag. *)
Definition release (e : Z * timer) : Z :=
  match snd e with
  | SendDone _ => fst e + 600
  | Settled _ => fst e + 100
  | _ => fst e
  end.

(** A line that is no landing, no exit marker and no error marker. *)
Definition unremarkable (line : string) : bool :=
  negb (Text.includes "Breakpoint hit:" line || Text.includes "Step completed:" line
        || Text.includes "The application exited" line
        || Text.includes "Exception occurred" line || Text.startsWith "ERROR:" line).

Definition benign (i : input) : bool :=
  match i with Line line => unremarkable line | _ => true end.

(** The sentence of the specification, with the settle window of 600 ms
    (100 ms after the write, then 500 ms). *)
Definition settle_window_respected : Prop :=
  forall (l : list input), spaced 600 (queue_writes (run (new false) l)).

(** The invariant: [pend] are the timers due at the current tick that
    have not run yet. *)
Record ordered (pend : list (Z * timer)) (s : state) : Prop := {
  o_spaced : spaced 700 (queue_writes s);
  o_refresh : Forall (fun e => refresh e = false) (pend ++ timers s);
  o_count : length (List.filter chain (pend ++ timers s)) =
            if processingCommand s then 1%nat else 0%nat;
  o_busy : forall e, In e (pend ++ timers s) -> chain e = true ->
           Forall (fun w => w + 700 <= release e) (queue_writes s);
  o_idle : processingCommand s = false ->
           Forall (fun w => w + 700 <= clock s) (queue_writes s)
}.

(** Effects that do not concern the ordering: the queue writes, the
    flag and the clock stay, and timers outside the chain may be added. *)
Record harmless (s s' : state) : Prop := {
  h_writes : queue_writes s' = queue_writes s;
  h_flag : processingCommand s' = processingCommand s;
  h_clock : clock s' = clock s;
  h_timers : exists extra, timers s' = timers s ++ extra
             /\ Forall (fun e => chain e = false /\ refresh e = false) extra
}.

(** A started session, a first command, a second one behind it, and an
    error line 10 ms later. *)
Definition early_dispatch : list input :=
  [CallStart "/tmp/Main.java" None; JavacClose (Some 0); Line "Initializing jdb ..."]
  ++ ticks 1500 ++ [CallContinue; CallStepOver] ++ ticks 10 ++ [Line "ERROR: no such thread"].

End OrderingTerms.

Section NodeRequestsTerms.

Import Node.

Definition error_message (i : Z) (e : string) : message :=
  {| msg_id := Some i; msg_method := None; msg_error := Some e;
     msg_result := NoResult; msg_params := NoParams |}.

(** The inspector rejects request [i]. *)
Definition error_reply (i : Z) (e : string) : input :=
  WsMessage (Some (error_message i e)).

(** The request that [setBreakpoint(line)] sends under id [i]. *)
Definition breakpoint_request (i line : Z) : request :=
  {| req_id := i; req_method := "Debugger.setBreakpointByUrl";
     req_params := BreakpointByUrlArgs (line - 1) ".*" 0 |}.

End NodeRequestsTerms.

Section NodeRepliesTerms.

Import Node.

(** The public operations that send one request, with the operation,
    the continuation and the request of each. *)
Definition control (i : input) : option (operation * cont * string * arguments) :=
  match i with
  | CallSetBreakpoint line =>
      Some (OpSetBreakpoint line, AwaitSetBreakpoint line, "Debugger.setBreakpointByUrl",
            BreakpointByUrlArgs (line - 1) ".*" 0)
  | CallContinue => Some (OpContinue, AwaitResume, "Debugger.resume", NoArguments)
  | CallStepOver => Some (OpStepOver, AwaitStepOver, "Debugger.stepOver", NoArguments)
  | CallStepInto => Some (OpStepInto, AwaitStepInto, "Debugger.stepInto", NoArguments)
  | _ => None
  end.

(** [setBreakpoint] sends a request only for a line without breakpoint. *)
Definition sends_request (s : state) (i : input) : Prop :=
  match i with
  | CallSetBreakpoint line => breakpoints s !! line = None
  | _ => True
  end.

End NodeRepliesTerms.

Section NodeHandshakeTerms.

Import Node.

(** The state once the request sent under [messageId s] has been
    answered and its entry taken from the table. *)
Definition acknowledged (method : string) (args : arguments) (k : cont) (c : socket)
    (s : state) : state :=
  set_pendingRequests
    (delete (messageId s) (pendingRequests (requested method args k c s)))
    (requested method args k c s).

(** A client after one more request. *)
Definition with_request (c : socket) (rq : request) : socket :=
  {| url := url c; ready := OPEN; sent := sent c ++ [rq] |}.

Definition plain (i : Z) (method : string) : request :=
  {| req_id := i; req_method := method; req_params := NoArguments |}.

(** The four requests of the handshake, from id [m] on. *)
Definition handshake_requests (m : Z) : list request :=
  [plain m "Runtime.enable"; plain (m + 1) "Debugger.enable";
   plain (m + 2) "Runtime.getIsolateId";
   {| req_id := m + 3; req_method := "Debugger.getScriptSource";
      req_params := ScriptSourceArgs "1" |}].

(** The inspector accepts the first [n] requests of the handshake. *)
Definition accepted (m : Z) (n : nat) : list input :=
  map (fun j => ok_reply (m + Z.of_nat j)) (seq 0 n).

(** The adapter between two requests of a connected session: the
    client is open with [snt] sent and the next id is [m]; [s0] gives
    the fields that requests and replies leave alone. *)
Record between (s0 : state) (u : string) (snt : list request) (m : Z) (s : state) : Prop := {
  bt_connected : connected s = true;
  bt_client : debuggerClient s = Some {| url := u; ready := OPEN; sent := snt |};
  bt_id : messageId s = m;
  bt_completed : completed s = completed s0;
  bt_connecting : connecting s = connecting s0;
  bt_scriptId : scriptId s = scriptId s0;
  bt_isRunning : isRunning s = isRunning s0;
  bt_process : debugProcess s = debugProcess s0
}.

End NodeHandshakeTerms.

Section JavaLandingTerms.

Import Java.










End JavaLandingTerms.

Section JavaControlTerms.

Import Java.

(** [continue], [stepOver] and [stepInto]: the operation, the entry of
    the queue and the command of each. *)
Definition java_control (i : input) : option (operation * waiter * string) :=
  match i with
  | CallContinue => Some (OpContinue, Continue, "cont")
  | CallStepOver => Some (OpStepOver, StepOver, "next")
  | CallStepInto => Some (OpStepInto, StepInto, "step")
  | _ => None
  end.

(** A command written by [_processNextCommand] at time [t]. *)
Definition command_written (t : Z) (cmd : string) : written :=
  {| at_time := t; from_queue := true; data := cmd +:+ nl |}.

(** The adapter [e] milliseconds after a command was taken from the
    queue and written, with [t] the next timer of its promise chain. *)
Definition in_flight (s : state) (p : process) (cmd : string) (e : Z) (t : Z * timer)
    : state :=
  set_timers [t]
    (set_clock (clock s + e)
       (set_debugProcess
          (Some {| alive := true; stdin := stdin p ++ [command_written (clock s) cmd] |})
          (set_processingCommand true s))).

(** The state in which the awaited command has settled. *)
Definition settled (s : state) (p : process) (cmd : string) (op : operation) : state :=
  complete op (Ok (Some true)) (in_flight s p cmd 600 (clock s + 700, ClearFlag)).

End JavaControlTerms.

Section JavaStartTerms.

Import Java.

(** The class name [start(filePath, className)] settles on. *)
Definition started_class (path : string) (cls : option string) : string :=
  match cls with
  | Some n => if String.eqb n EmptyString then Text.basename path ".java" else n
  | None => Text.basename path ".java"
  end.

(** The first command of [start]. *)
Definition stop_in_main (path : string) (cls : option string) : string :=
  "stop in " +:+ started_class path cls +:+ ".main".

(** The banner of the debugger, and nothing else. *)
Definition banner (line : string) : Prop :=
  Text.includes "Initializing jdb" line = true
  /\ unremarkable line = true
  /\ Text.match_assignment (Text.chars line) = None.

(** [start] after a successful compilation, [t] milliseconds later. *)
Definition compiled (raises : bool) (path : string) (cls : option string) (t : nat)
    : state :=
  run (new raises) (CallStart path cls :: JavacClose (Some 0) :: ticks t).

End JavaStartTerms.

Section JavaEntriesTerms.

Import Java.

(** An entry as the line handler stores it: the name is a non-empty
    word and the type is the one inferred from the value. *)
Definition java_entry_ok (name : string) (e : variable) : Prop :=
  (exists w, name = Text.text w /\ w <> [] /\ forallb Text.is_word w = true)
  /\ type e = _inferType (value e).

Definition java_heap_ok (s : state) : Prop :=
  Forall (map_Forall java_entry_ok) (heap s).

End JavaEntriesTerms.

Section NodeEntriesTerms.

Import Node.

(** An entry as [_updateVariables] stores it: the name does not start
    with two underscores, and value and type are those of one remote
    object. *)
Definition node_entry_ok (n : string) (e : variable) : Prop :=
  Text.startsWith "__" n = false
  /\ exists v, e = {| value := _formatValue v; type := ro_type v |}.

Definition node_heap_ok (s : state) : Prop :=
  Forall (map_Forall node_entry_ok) (heap s).

End NodeEntriesTerms.

Section RouteNamesTerms.

(** Non-empty and made of word characters only. *)
Definition is_name (w : list ascii) : Prop := w <> [] /\ forallb Text.is_word w = true.

End RouteNamesTerms.

(** * Proof tactics *)

Ltac java_defs :=
  repeat progress unfold Java.javac_close, Java.finish, Java.start_catch, Java.stop, Java.complete,
    Java.close_rl, Java.schedule, Java.write, Java.kill, Java._notifyListeners,
    Java.reject, Java.resolve, Java._queueCommand, Java._processNextCommand,
    Java._sendCommand, Java.setBreakpoint_rest, Java.resume_rest,
    Java.start_initialized, Java.start_compiled, Java.reset_variables,
    Java.store_variable, Java._getVariables, Java.landed, Java.start,
    Java.setBreakpoint, Java.continue, Java.stepOver, Java.stepInto,
    Js.bind, Js.try_catch, Js.ret, Js.throw, Js.lift, Js.await in *.

Ltac crunch := repeat (simpl in *; simplify_eq; try case_match).


Ltac node_defs :=
  repeat progress unfold Node.finish, Node.start_catch, Node.stop, Node.complete,
    Node.schedule, Node.close, Node.kill, Node._notifyListeners, Node.reject,
    Node.connect_reject, Node.connect_resolve, Node._sendMessage, Node.send,
    Node.setBreakpoint_rest, Node.resume_rest, Node.reset_variables,
    Node.store_variable, Node.notify_pause, Node.start, Node._connectToInspector,
    Node.on_stderr, Node.set_ready, Node.on_open, Node.setBreakpoint, Node.continue,
    Node.stepOver, Node.stepInto, Node._handleConsoleOutput,
    Js.bind, Js.try_catch, Js.ret, Js.throw, Js.lift, Js.await in *.

(** Reduce field accesses and updates only: [*_fields] where a field of
    an updated state is read, [*_compute] on states given field by field. *)
Ltac java_fields :=
  cbn [Java.raises_on_closed Java.clock Java.timers Java.javac Java.spawned Java.debugProcess
    Java.rl Java.initListener Java.heap Java.variables Java.breakpoints Java.currentLine
    Java.className Java.filePath Java.isRunning Java.commandQueue Java.processingCommand
    Java.emitted Java.completed Java.set_raises_on_closed Java.set_clock Java.set_timers
    Java.set_javac Java.set_spawned Java.set_debugProcess Java.set_rl Java.set_initListener
    Java.set_heap Java.set_variables Java.set_breakpoints Java.set_currentLine Java.set_className
    Java.set_filePath Java.set_isRunning Java.set_commandQueue Java.set_processingCommand
    Java.set_emitted Java.set_completed
    Java.alive Java.stdin Java.closed fst snd] in *.

Ltac java_compute :=
  cbv beta iota delta [Java.raises_on_closed Java.clock Java.timers Java.javac Java.spawned
    Java.debugProcess Java.rl Java.initListener Java.heap Java.variables Java.breakpoints
    Java.currentLine Java.className Java.filePath Java.isRunning Java.commandQueue
    Java.processingCommand Java.emitted Java.completed Java.set_raises_on_closed Java.set_clock
    Java.set_timers Java.set_javac Java.set_spawned Java.set_debugProcess Java.set_rl
    Java.set_initListener Java.set_heap Java.set_variables Java.set_breakpoints
    Java.set_currentLine Java.set_className Java.set_filePath Java.set_isRunning
    Java.set_commandQueue Java.set_processingCommand Java.set_emitted Java.set_completed
    Java.alive Java.stdin Java.closed fst snd] in *.

Ltac node_fields :=
  cbn [Node.raises_on_closed Node.clock Node.timers Node.spawned Node.debugProcess
    Node.debuggerClient Node.connecting Node.port Node.heap Node.variables Node.breakpoints
    Node.currentLine Node.isRunning Node.scriptId Node.connected Node.messageId
    Node.pendingRequests Node.emitted Node.completed Node.set_raises_on_closed Node.set_clock
    Node.set_timers Node.set_spawned Node.set_debugProcess Node.set_debuggerClient
    Node.set_connecting Node.set_port Node.set_heap Node.set_variables Node.set_breakpoints
    Node.set_currentLine Node.set_isRunning Node.set_scriptId Node.set_connected Node.set_messageId
    Node.set_pendingRequests Node.set_emitted Node.set_completed
    Node.alive Node.url Node.ready Node.sent fst snd] in *.

Ltac node_compute :=
  cbv beta iota delta [Node.raises_on_closed Node.clock Node.timers Node.spawned Node.debugProcess
    Node.debuggerClient Node.connecting Node.port Node.heap Node.variables Node.breakpoints
    Node.currentLine Node.isRunning Node.scriptId Node.connected Node.messageId
    Node.pendingRequests Node.emitted Node.completed Node.set_raises_on_closed Node.set_clock
    Node.set_timers Node.set_spawned Node.set_debugProcess Node.set_debuggerClient
    Node.set_connecting Node.set_port Node.set_heap Node.set_variables Node.set_breakpoints
    Node.set_currentLine Node.set_isRunning Node.set_scriptId Node.set_connected Node.set_messageId
    Node.set_pendingRequests Node.set_emitted Node.set_completed
    Node.alive Node.url Node.ready Node.sent fst snd] in *.

(** * The primitives on examples *)

Example includes_ex :
  Text.includes "Step completed:" "Step completed: thread=main, line=12 bci=3" = true.
Proof. reflexivity. Qed.
Example match_line_ex :
  Text.match_line (Text.chars "Breakpoint hit: Foo.main(), line=12 bci=3") =
  Some (Text.chars "12").
Proof. reflexivity. Qed.
Example match_assignment_ex :
  Text.match_assignment (Text.chars "  count = 5 ") =
  Some (Text.chars "count", Text.chars "5 ").
Proof. reflexivity. Qed.
Example match_assignment_no : Text.match_assignment (Text.chars "Breakpoint hit: line=4") = None.
Proof. reflexivity. Qed.
Example match_listening_ex :
  Text.match_listening (Text.chars "Debugger listening on ws://127.0.0.1:9230/ab-cd") =
  Some (Text.chars "ws://127.0.0.1:9230/ab-cd", Text.chars "9230").
Proof. reflexivity. Qed.
Example is_numeric_ex :
  map Text.is_numeric ["5"; "-1.5e3"; "0x1F"; ""; "abc"; "1e"; "."; "5."; "Infinity"] =
  [true; true; true; true; false; false; false; true; true].
Proof. reflexivity. Qed.
Example basename_ex :
  map (fun p => Text.basename p ".java") ["/tmp/run/Main.java"; "Main.java"; "a/b.txt"; ".java"]
  = ["Main"; "Main"; "b.txt"; ""].
Proof. reflexivity. Qed.

Example formatValue_string :
  Node._formatValue {| Node.ro_type := "string"; Node.ro_value := Node.JString "abc";
                       Node.ro_description := None |}
  = Node.JString (Js.dquote +:+ "abc" +:+ Js.dquote).
Proof. reflexivity. Qed.

Example formatValue_undefined :
  Node._formatValue {| Node.ro_type := "undefined"; Node.ro_value := Node.JUndefined;
                       Node.ro_description := None |}
  = Node.JString "undefined".
Proof. reflexivity. Qed.

Example formatValue_number :
  Node._formatValue {| Node.ro_type := "number"; Node.ro_value := Node.JNumber 5;
                       Node.ro_description := None |}
  = Node.JNumber 5.
Proof. reflexivity. Qed.

Example inferType_ex :
  map Java._inferType ["null"; "true"; "42"; "instance of Foo(id=12)"; "java.lang.Object@1f"]
  = ["null"; "boolean"; "number"; "unknown"; "object"].
Proof. reflexivity. Qed.

(** * Requests of the message-protocol adapter *)

Section Requests.
Import Node.

Lemma sendMessage_connected method args k c s :
  connected s = true -> debuggerClient s = Some c -> ready c = OPEN ->
  _sendMessage method args k s = requested method args k c s.
Proof.
  intros Hc Hd Ho. unfold _sendMessage, requested, send. rewrite Hc. cbn [negb].
  node_fields. by rewrite Hd, Ho.
Qed.

(** [send] leaves the adapter alone, apart from the frame it hands to
    an open client. *)
Lemma send_inv rq s :
  (exists r, send rq s = (r, s))
  \/ (exists c, debuggerClient s <> None /\ send rq s = (Ok tt, set_debuggerClient (Some c) s)).
Proof.
  unfold send. destruct (debuggerClient s) as [c|] eqn:E; [|left; by eexists].
  destruct (ready c); try (left; by eexists).
  - right. eexists. split; [done|reflexivity].
  - destruct (raises_on_closed s); left; by eexists.
  - destruct (raises_on_closed s); left; by eexists.
Qed.

End Requests.

(** * Properties of the REPL adapter *)

Section JavaCompile.
Import Java.

Lemma app_cons (c : ascii) (a b : string) : String c a +:+ b = String c (a +:+ b).
Proof. reflexivity. Qed.

Lemma app_assoc_string (a b c : string) : (a +:+ b) +:+ c = a +:+ (b +:+ c).
Proof. induction a as [|x a IH]; [done|]. by rewrite !app_cons, IH. Qed.

Lemma app_empty_r (a : string) : a +:+ EmptyString = a.
Proof. induction a as [|x a IH]; [done|]. by rewrite app_cons, IH. Qed.

Lemma compile_output_accumulates chunks : forall s out err,
  javac s = Some (out, err) ->
  exists out',
    run s (map javac_output chunks) = set_javac (Some (out', err +:+ captured chunks)) s.
Proof.
  unfold run.
  induction chunks as [|[b d] chunks IH]; intros s out err Hj.
  - exists out. cbn. rewrite app_empty_r, <- Hj. by destruct s.
  - cbn [map fold_left]. destruct b; cbn [javac_output fst snd step captured]; rewrite Hj.
    + destruct (IH (set_javac (Some (out, err +:+ d)) s) out (err +:+ d) eq_refl) as [o Ho].
      exists o. rewrite Ho. by rewrite app_assoc_string.
    + destruct (IH (set_javac (Some (out +:+ d, err)) s) (out +:+ d) err eq_refl) as [o Ho].
      exists o. by rewrite Ho.
Qed.

Lemma javac_close_failure (s : state) out err exit :
  javac s = Some (out, err) -> exit <> Some 0 ->
  step s (JavacClose exit) =
    finish OpStart (start_catch ("Compilation failed: " +:+ err)) (set_javac None s).
Proof.
  intros Hj Hx. simpl. unfold javac_close. rewrite Hj.
  destruct exit as [[| |]|]; congruence.
Qed.

End JavaCompile.

(** C8. REPL adapter, [start()]: when the separately spawned compiler
    exits with a status other than zero (or without one), [start] fails
    with the error [Compilation failed: ] followed by everything the
    compiler wrote to its error stream, and only the compiler has been
    spawned: there is no debugger process and no line reader. *)
Theorem compile_failure_fails_start (raises : bool) (path : string)
    (cls : option string) (chunks : list (bool * string)) (exit : option Z) :
  exit <> Some 0 ->
  let s := Java.run (Java.new raises)
             (Java.CallStart path cls :: map javac_output chunks ++ [Java.JavacClose exit]) in
  Java.completed s = [(Java.OpStart, Thrown ("Compilation failed: " +:+ captured chunks))]
  /\ Java.spawned s = [["javac"; "-g"; path]]
  /\ Java.debugProcess s = None
  /\ Java.rl s = None
  /\ Java.isRunning s = false.
Proof.
  intros Hx. cbn zeta. unfold Java.run. cbn [fold_left]. rewrite fold_left_app.
  destruct (compile_output_accumulates chunks
              (Java.step (Java.new raises) (Java.CallStart path cls))
              EmptyString EmptyString eq_refl) as [out Hout].
  unfold Java.run in Hout. rewrite Hout. cbn [fold_left].
  erewrite javac_close_failure; [|reflexivity|exact Hx].
  by repeat split.
Qed.

Lemma compile_failure_fails_start_witness :
  Some 1 <> Some 0
  /\ Java.completed
       (Java.run (Java.new false)
          (Java.CallStart "/tmp/Main.java" None ::
           map javac_output [(true, "Main.java:3: error: ';' expected")] ++
           [Java.JavacClose (Some 1)]))
     = [(Java.OpStart,
         Thrown ("Compilation failed: " +:+
                 captured [(true, "Main.java:3: error: ';' expected")]))].
Proof.
  assert (Hx : Some 1 <> Some 0) by discriminate.
  split; [exact Hx|].
  exact (proj1 (compile_failure_fails_start false "/tmp/Main.java" None
                  [(true, "Main.java:3: error: ';' expected")] (Some 1) Hx)).
Defined.

Section JavaSnapshot.
Import Java.

Lemma same_store_snapshot s s' : same_store s s' -> snapshot s' = snapshot s.
Proof. intros [Hh Hv]. unfold snapshot, deref, getVariables. by rewrite Hh, Hv. Qed.

Lemma same_store_trans s1 s2 s3 : same_store s1 s2 -> same_store s2 s3 -> same_store s1 s3.
Proof. unfold same_store. intros [] []. split; congruence. Qed.

Lemma reject_same_store w err s : same_store s (reject w err s).
Proof. unfold same_store. destruct w; java_defs; crunch; auto. Qed.

Lemma processNext_same_store s : same_store s (_processNextCommand s).
Proof.
  unfold _processNextCommand.
  destruct (commandQueue s) as [|q rest]; [done|].
  destruct (processingCommand s); [done|].
  destruct (_sendCommand _ _ _ _) as [[[]|err] s2] eqn:E.
  - unfold same_store. java_defs. crunch; auto.
  - eapply same_store_trans; [|eapply same_store_trans; [apply reject_same_store|done]].
    unfold same_store. java_defs. crunch; auto.
Qed.

Lemma queueCommand_same_store c w s : same_store s (_queueCommand c w s).
Proof.
  unfold _queueCommand. cbn [processingCommand set_commandQueue].
  destruct (processingCommand s); [done|].
  eapply same_store_trans; [|apply processNext_same_store]. done.
Qed.

Lemma on_exit_same_store line s : same_store s (on_exit line s).
Proof.
  unfold on_exit. case_match; [|done].
  eapply same_store_trans; [|apply processNext_same_store]. done.
Qed.

Lemma on_error_same_store line s : same_store s (on_error line s).
Proof.
  unfold on_error. case_match; [|done].
  eapply same_store_trans; [|apply processNext_same_store]. done.
Qed.

Lemma on_initialized_same_store line s : same_store s (on_initialized line s).
Proof.
  unfold on_initialized, start_initialized. case_match; [|done].
  eapply same_store_trans; [|apply queueCommand_same_store]. done.
Qed.

End JavaSnapshot.

(** C9, as stated, fails: on a session whose debugger has just been
    spawned, with no dump-locals command written, the line [x = 5] is
    stored into the snapshot. *)
Lemma assignment_captured_outside_dump :
  (dump_in_flight (Java.run (Java.new false) idle_session) = false
   /\ Java.snapshot (Java.run (Java.new false) idle_session) !! "x" = None
   /\ Java.snapshot (Java.step (Java.run (Java.new false) idle_session) (Java.Line "x = 5"))
        !! "x" = Some {| Java.value := "5"; Java.type := "number" |})
  /\ ~ captured_only_during_dump.
Proof.
  assert (H0 : Java.snapshot (Java.run (Java.new false) idle_session) !! "x" = None)
    by (vm_compute; reflexivity).
  assert (H1 : Java.snapshot (Java.step (Java.run (Java.new false) idle_session)
                                (Java.Line "x = 5")) !! "x"
               = Some {| Java.value := "5"; Java.type := "number" |})
    by (vm_compute; reflexivity).
  split; [repeat split; try done|].
  intros H. specialize (H idle_session "x = 5" eq_refl (ex_intro _ _ eq_refl)).
  cbv zeta in H. rewrite H in H1. rewrite H0 in H1. discriminate H1.
Qed.

(** C9, amended. REPL adapter: a line of shape [name = value] read from
    the debugger's output is stored into the current snapshot under
    [name], with the trimmed value and its inferred type, whenever it is
    read; whether the dump-locals command is in flight plays no part. *)
Theorem assignment_line_always_captured (s : Java.state) (line : string)
    (name v : list ascii) :
  Java.listening s = true ->
  (Java.variables s < length (Java.heap s))%nat ->
  Text.match_assignment (Text.chars line) = Some (name, v) ->
  Java.snapshot (Java.step s (Java.Line line)) !! Text.text name =
    Some {| Java.value := Text.trim (Text.text v);
            Java.type := Java._inferType (Text.trim (Text.text v)) |}.
Proof.
  intros Hl Hv Hm. cbn [Java.step]. rewrite Hl. unfold Java.on_line.
  set (s1 := Java.on_landing line s).
  assert (Hv1 : (Java.variables s1 < length (Java.heap s1))%nat).
  { subst s1. unfold Java.on_landing. repeat case_match; try done.
    unfold Java._getVariables. java_defs. crunch; rewrite ?length_app; simpl; lia. }
  clearbody s1.
  set (s2 := Java.on_assignment line s1).
  assert (H2 : Java.snapshot s2 !! Text.text name =
               Some {| Java.value := Text.trim (Text.text v);
                       Java.type := Java._inferType (Text.trim (Text.text v)) |}).
  { subst s2. unfold Java.on_assignment. rewrite Hm.
    unfold Java.snapshot, Java.deref, Java.getVariables, Java.store_variable.
    cbn [Java.heap Java.variables Java.set_heap].
    destruct (lookup_lt_is_Some_2 _ _ Hv1) as [o Ho].
    rewrite list_lookup_alter_eq, Ho. simpl. apply lookup_insert_eq. }
  clearbody s2.
  rewrite (same_store_snapshot s2); [exact H2|].
  eapply same_store_trans; [|eapply same_store_trans; [|apply on_initialized_same_store]].
  - apply on_exit_same_store.
  - apply on_error_same_store.
Qed.

Lemma assignment_line_always_captured_witness :
  Java.snapshot (Java.step (Java.run (Java.new false) idle_session) (Java.Line "  count = 42 "))
    !! "count" = Some {| Java.value := "42"; Java.type := "number" |}.
Proof.
  apply (assignment_line_always_captured (Java.run (Java.new false) idle_session)
           "  count = 42 " (Text.chars "count") (Text.chars "42 ")).
  - reflexivity.
  - vm_compute. lia.
  - reflexivity.
Defined.

(** * Properties of the message-protocol adapter *)

Section NodeConnect.
Import Node.

Lemma elapsed_nonneg l : 0 <= elapsed l.
Proof. induction l as [|[] l IH]; simpl; lia. Qed.

Lemma waiting_invariant d : forall l s,
  Forall (fun i => passive i = true) l ->
  timers s = [(d, StartWait)] ->
  clock s + elapsed l < d ->
  debugProcess s <> None ->
  let s' := run s l in
  timers s' = [(d, StartWait)] /\ clock s' = clock s + elapsed l
  /\ port s' = port_after (port s) l /\ debuggerClient s' = debuggerClient s
  /\ debugProcess s' <> None.
Proof.
  unfold run.
  induction l as [|i l IH]; intros s Hp Ht Hc Hd; cbn [fold_left].
  { simpl. repeat split; auto. lia. }
  inversion Hp as [|? ? Hi Hl]; subst.
  pose proof (elapsed_nonneg l).
  destruct i; try discriminate; cbn [elapsed port_after step] in *.
  - (* diagnostic output *)
    destruct (debugProcess s) as [p|] eqn:E; [|done].
    destruct (IH (on_stderr data s)) as (H1 & H2 & H3 & H4 & H5); auto.
    + unfold on_stderr. case_match; [case_match|]; simpl; done.
    + unfold on_stderr. case_match; [case_match|]; simpl; done.
    + unfold on_stderr. case_match; [case_match|]; simpl; by rewrite E.
    + rewrite H1, H2, H3, H4. repeat split; auto.
      * unfold on_stderr. case_match; [case_match|]; done.
      * unfold on_stderr, announced. case_match; [case_match|]; done.
      * unfold on_stderr. case_match; [case_match|]; done.
  - (* one millisecond *)
    assert (Htick : tick s = set_clock (clock s + 1) s).
    { unfold tick. rewrite Ht. simpl. unfold due. simpl.
      destruct (Z.leb_spec d (clock s + 1)); [lia|]. simpl.
      destruct s; simpl in *; by subst. }
    rewrite Htick.
    destruct (IH (set_clock (clock s + 1) s)) as (H1 & H2 & H3 & H4 & H5); auto.
    { simpl. lia. }
    rewrite H1, H2, H3, H4. simpl. repeat split; auto. lia.
Qed.

Lemma ticks_passive n : Forall (fun i => passive i = true) (ticks n).
Proof. induction n; constructor; auto. Qed.

End NodeConnect.

(** C10, as stated, fails: after the announcement of
    [ws://127.0.0.1:9230/ab-cd] the client is created for
    [ws://localhost:9230/ws]; only the port of the line is used. *)
Lemma connects_to_fixed_host_and_path :
  option_map Node.url
    (Node.debuggerClient
       (Node.run (Node.new false)
          ([Node.CallStart "/tmp/a.js";
            Node.ProcStderr "Debugger listening on ws://127.0.0.1:9230/ab-cd"]
           ++ Node.ticks 1000)))
  = Some "ws://localhost:9230/ws"
  /\ ~ connects_to_announced_endpoint.
Proof.
  split; [vm_compute; reflexivity|].
  intros H.
  specialize (H "Debugger listening on ws://127.0.0.1:9230/ab-cd"
                (Text.chars "ws://127.0.0.1:9230/ab-cd") (Text.chars "9230")
                (Node.ticks 1000)
                {| Node.url := "ws://localhost:9230/ws"; Node.ready := Node.CONNECTING;
                   Node.sent := [] |}).
  assert (E : Node.url {| Node.url := "ws://localhost:9230/ws"; Node.ready := Node.CONNECTING;
                          Node.sent := [] |} = "ws://127.0.0.1:9230/ab-cd").
  { apply H; vm_compute; reflexivity. }
  discriminate E.
Qed.

(** C10, amended. Message-protocol adapter, [start()]: after spawning
    the process it waits a fixed 1000 ms, whatever the diagnostic stream
    carries meanwhile; no client exists before that.  It then creates the
    client for [ws://localhost:<port>/ws], where the port is the one of
    the last diagnostic chunk that matched the announcement pattern, or
    9229 when none did; host and path of the announcement are not used. *)
Theorem start_connects_after_fixed_delay (raises : bool) (path : string)
    (l : list Node.input) :
  Forall (fun i => passive i = true) l ->
  elapsed l < 1000 ->
  let s := Node.run (Node.new raises) (Node.CallStart path :: l) in
  Node.debuggerClient s = None
  /\ (elapsed l = 999 ->
      Node.debuggerClient (Node.step s Node.Tick) =
        Some {| Node.url := "ws://localhost:" +:+ pretty (port_after 9229 l) +:+ "/ws";
                Node.ready := Node.CONNECTING; Node.sent := [] |}).
Proof.
  intros Hp He. cbn zeta. unfold Node.run. cbn [fold_left].
  set (s0 := Node.step (Node.new raises) (Node.CallStart path)).
  destruct (waiting_invariant 1000 l s0) as (H1 & H2 & H3 & H4 & H5); auto; try done.
  unfold Node.run in *.
  set (s := fold_left Node.step l s0) in *.
  split; [by rewrite H4|].
  intros H999. cbn [Node.step]. unfold Node.tick. rewrite H1, H2.
  replace (Node.clock s0 + elapsed l + 1) with 1000 by (subst s0; simpl; lia).
  cbn [List.filter Node.due fst snd Z.leb Z.compare Pos.compare Pos.compare_cont negb
       fold_left Node.fire].
  unfold Node._connectToInspector, Node.inspector_url.
  cbn [Node.debuggerClient Node.set_connecting Node.set_debuggerClient Node.port
       Node.set_timers Node.set_clock].
  by rewrite H3.
Qed.

Lemma start_connects_after_fixed_delay_witness :
  let l := Node.ProcStderr "Debugger listening on ws://127.0.0.1:9230/ab-cd" :: Node.ticks 999 in
  let s := Node.run (Node.new false) (Node.CallStart "/tmp/a.js" :: l) in
  Node.debuggerClient s = None
  /\ Node.debuggerClient (Node.step s Node.Tick) =
       Some {| Node.url := "ws://localhost:" +:+ pretty (port_after 9229 l) +:+ "/ws";
               Node.ready := Node.CONNECTING; Node.sent := [] |}.
Proof.
  intros l s.
  assert (Hp : Forall (fun i => passive i = true) l)
    by (constructor; [reflexivity|apply ticks_passive]).
  assert (He : elapsed l < 1000) by (vm_compute; reflexivity).
  pose proof (start_connects_after_fixed_delay false "/tmp/a.js" l Hp He) as [H1 H2].
  split; [exact H1|]. apply H2. vm_compute. reflexivity.
Defined.

(** * Concrete sessions *)

Section Sessions.

Lemma benign_all l : forallb benign l = true -> Forall (fun i => benign i = true) l.
Proof.
  induction l as [|i l IH]; intros H; [constructor|].
  cbn in H. apply andb_true_iff in H as [H1 H2]. constructor; auto.
Qed.

End Sessions.

(** * Breakpoints *)

Section Ticking.
Import Java.

Lemma set_clock_same s : set_clock (clock s) s = s.
Proof. by destruct s. Qed.

(** While the only pending timer is not due, a tick only advances the clock. *)
Lemma java_idle_ticks d t : forall (n : nat) s,
  timers s = [(d, t)] -> clock s + Z.of_nat n < d ->
  run s (ticks n) = set_clock (clock s + Z.of_nat n) s.
Proof.
  unfold run. induction n as [|n IH]; intros s Ht Hc.
  - simpl. rewrite Z.add_0_r. by rewrite set_clock_same.
  - cbn [ticks repeat fold_left step].
    assert (Htick : tick s = set_clock (clock s + 1) s).
    { unfold tick. rewrite Ht. simpl. unfold due. simpl.
      destruct (Z.leb_spec d (clock s + 1)); [lia|]. simpl.
      destruct s; simpl in *; by subst. }
    rewrite Htick. fold (ticks n). rewrite IH.
    + rewrite Nat2Z.inj_succ. destruct s; unfold set_clock; simpl; f_equal; lia.
    + exact Ht.
    + simpl. lia.
Qed.

(** The tick at which the only pending timer falls due runs its callback. *)
Lemma java_firing_tick d t s :
  timers s = [(d, t)] -> clock s + 1 = d ->
  tick s = fire t (set_timers [] (set_clock d s)).
Proof.
  intros Ht Hc. unfold tick. rewrite Ht, Hc. simpl. unfold due. simpl.
  rewrite Z.leb_refl. reflexivity.
Qed.

Lemma java_run_app s l1 l2 : run s (l1 ++ l2) = run (run s l1) l2.
Proof. apply fold_left_app. Qed.

Lemma java_run_one s i : run s [i] = step s i.
Proof. reflexivity. Qed.

Lemma java_ticks_add a b : ticks (a + b) = ticks a ++ ticks b.
Proof. apply repeat_app. Qed.

(** A lone timer [delay] milliseconds ahead fires after that many ticks. *)
Lemma java_wait (delay : nat) t s :
  timers s = [(clock s + Z.of_nat (S delay), t)] ->
  run s (ticks (S delay)) =
    fire t (set_timers [] (set_clock (clock s + Z.of_nat (S delay)) s)).
Proof.
  intros Ht. unfold ticks.
  replace (S delay) with (delay + 1)%nat at 1 by lia.
  rewrite repeat_app. unfold run. rewrite fold_left_app.
  pose proof (java_idle_ticks _ _ delay s Ht) as Hi. unfold run, ticks in Hi.
  rewrite Hi by lia. cbn [repeat fold_left step].
  erewrite java_firing_tick; [|exact Ht|simpl; lia]. by destruct s.
Qed.

End Ticking.

Section Breakpoints.

Lemma node_setBreakpoint_again s line :
  is_Some (Node.breakpoints s !! line) ->
  Node.step s (Node.CallSetBreakpoint line) =
    Node.complete (Node.OpSetBreakpoint line) (Ok (Some true)) s.
Proof. intros [b Hb]. simpl. unfold Node.setBreakpoint. by rewrite Hb. Qed.

Lemma java_setBreakpoint_again s line :
  is_Some (Java.breakpoints s !! line) ->
  Java.step s (Java.CallSetBreakpoint line) =
    Java.complete (Java.OpSetBreakpoint line) (Ok (Some true)) s.
Proof. intros [b Hb]. simpl. unfold Java.setBreakpoint. by rewrite Hb. Qed.

Lemma node_setBreakpoint_twice (s : Node.state) (line : Z) (c : Node.socket)
    (b : option string) :
  Node.breakpoints s !! line = None ->
  Node.connected s = true -> Node.debuggerClient s = Some c -> Node.ready c = Node.OPEN ->
  Node.messageId s <> 0 ->
  let s1 := Node.step s (Node.CallSetBreakpoint line) in
  let s2 := Node.step s1 (reply (Node.messageId s) (Node.BreakpointSet b)) in
  let s3 := Node.step s2 (Node.CallSetBreakpoint line) in
  Node.completed s3 = Node.completed s ++
    [(Node.OpSetBreakpoint line, Ok (Some true)); (Node.OpSetBreakpoint line, Ok (Some true))]
  /\ node_requests s3 = node_requests s ++
       [{| Node.req_id := Node.messageId s; Node.req_method := "Debugger.setBreakpointByUrl";
           Node.req_params := Node.BreakpointByUrlArgs (line - 1) ".*" 0 |}]
  /\ Node.breakpoints s3 = <[line := b]> (Node.breakpoints s).
Proof.
  intros Hb Hc Hs Ho Hi. cbn zeta.
  assert (E1 : Node.step s (Node.CallSetBreakpoint line) =
    Node.schedule 5000 (Node.RequestTimeout (Node.messageId s) "Debugger.setBreakpointByUrl")
      (Node.set_debuggerClient
         (Some {| Node.url := Node.url c; Node.ready := Node.OPEN;
                  Node.sent := Node.sent c ++
                    [{| Node.req_id := Node.messageId s;
                        Node.req_method := "Debugger.setBreakpointByUrl";
                        Node.req_params := Node.BreakpointByUrlArgs (line - 1) ".*" 0 |}] |})
         (Node.set_pendingRequests
            (<[Node.messageId s := Node.AwaitSetBreakpoint line]> (Node.pendingRequests s))
            (Node.set_messageId (Node.messageId s + 1) s)))).
  { cbn [Node.step]. unfold Node.setBreakpoint. rewrite Hb.
    by rewrite (sendMessage_connected _ _ _ c). }
  rewrite E1. clear E1.
  set (s1 := Node.schedule _ _ _).
  assert (E2 : Node.step s1 (reply (Node.messageId s) (Node.BreakpointSet b)) =
    Node.complete (Node.OpSetBreakpoint line) (Ok (Some true))
      (Node.set_breakpoints (<[line := b]> (Node.breakpoints s))
         (Node.set_pendingRequests (delete (Node.messageId s) (Node.pendingRequests s1)) s1))).
  { subst s1. simpl. unfold Node._handleMessage, Node.answered. simpl.
    destruct (Z.eqb_spec (Node.messageId s) 0) as [|_]; [done|].
    rewrite lookup_insert_eq. reflexivity. }
  rewrite E2. clear E2.
  rewrite node_setBreakpoint_again by (simpl; rewrite lookup_insert_eq; eauto).
  subst s1. unfold node_requests. simpl. rewrite Hs. rewrite <- app_assoc. done.
Qed.

Lemma java_setBreakpoint_first s p line :
  Java.breakpoints s !! line = None ->
  Java.debugProcess s = Some p -> Java.alive p = true ->
  Java.commandQueue s = [] -> Java.processingCommand s = false -> Java.timers s = [] ->
  Java.step s (Java.CallSetBreakpoint line) = java_sent s p line.
Proof.
  intros Hb Hp Ha Hq Hf Ht. unfold java_sent.
  simpl. unfold Java.setBreakpoint. rewrite Hb.
  unfold Java._queueCommand. simpl. rewrite Hf, Hq. simpl.
  unfold Java._processNextCommand. simpl. rewrite Hf.
  unfold Java._sendCommand, Java.write, bind, lift. simpl. rewrite Hp, Ha. simpl.
  unfold Java.schedule. simpl. rewrite Ht.
  destruct s; simpl in *; subst; reflexivity.
Qed.

Lemma java_sent_done s p line :
  Java.run (java_sent s p line) (Java.ticks 100) =
    Java.set_timers [(Java.clock s + 600, Java.Settled (Java.SetBreakpoint line))]
      (Java.set_clock (Java.clock s + 100) (java_sent s p line)).
Proof.
  rewrite (java_wait 99 (Java.SendDone (Java.SetBreakpoint line))) by reflexivity.
  unfold java_sent, Java.fire, Java.schedule. destruct s. java_compute. cbn [app].
  f_equal; try lia. do 2 f_equal; lia.
Qed.

Lemma java_setBreakpoint_settles s p line :
  Java.run (java_sent s p line) (Java.ticks 100 ++ Java.ticks 500) = java_settled s p line.
Proof.
  rewrite java_run_app, java_sent_done.
  rewrite (java_wait 499 (Java.Settled (Java.SetBreakpoint line))).
  - cbn [Java.fire Java.resolve]. java_defs.
    unfold java_settled, java_sent. destruct s. java_compute. cbn [app].
    f_equal; try lia. do 2 f_equal; lia.
  - unfold java_sent. java_compute. do 2 f_equal; lia.
Qed.

Lemma java_setBreakpoint_twice (s : Java.state) (line : Z) :
  Java.breakpoints s !! line = None ->
  at_rest s ->
  let s1 := Java.step s (Java.CallSetBreakpoint line) in
  let s2 := Java.run s1 (Java.ticks 100 ++ Java.ticks 500) in
  let s3 := Java.step s2 (Java.CallSetBreakpoint line) in
  Java.completed s3 = Java.completed s ++
    [(Java.OpSetBreakpoint line, Ok (Some true)); (Java.OpSetBreakpoint line, Ok (Some true))]
  /\ length (java_input s3) = S (length (java_input s))
  /\ Java.breakpoints s3 = <[line := true]> (Java.breakpoints s).
Proof.
  intros Hb ((p & Hp & Ha) & Hq & Hf & Ht). cbn zeta.
  rewrite (java_setBreakpoint_first s p line) by assumption.
  rewrite java_setBreakpoint_settles.
  rewrite java_setBreakpoint_again
    by (unfold java_settled; cbn [Java.breakpoints Java.set_timers Java.set_completed
          Java.set_breakpoints]; rewrite lookup_insert_eq; eauto).
  unfold java_settled, java_sent, java_input. simpl. rewrite Hp.
  repeat split.
  - by rewrite <- app_assoc.
  - rewrite length_app. simpl. lia.
Qed.

End Breakpoints.

(** C3. For every line and for both adapters: when the line has no
    breakpoint yet and the first [setBreakpoint(line)] is accepted (the
    inspector answers the request; the REPL command settles), a second
    [setBreakpoint(line)] returns true as well, exactly one backend
    request or command was issued for the two calls, and the breakpoint
    map is the old one with the single entry for [line] added.  In any
    state that has an entry for [line] the call returns true and changes
    nothing else. *)
Theorem setBreakpoint_twice (line : Z) :
  (forall (s : Node.state) (c : Node.socket) (b : option string),
      Node.breakpoints s !! line = None ->
      Node.connected s = true -> Node.debuggerClient s = Some c -> Node.ready c = Node.OPEN ->
      Node.messageId s <> 0 ->
      let s3 := Node.run s [Node.CallSetBreakpoint line;
                            reply (Node.messageId s) (Node.BreakpointSet b);
                            Node.CallSetBreakpoint line] in
      Node.completed s3 = Node.completed s ++
        [(Node.OpSetBreakpoint line, Ok (Some true)); (Node.OpSetBreakpoint line, Ok (Some true))]
      /\ length (node_requests s3) = S (length (node_requests s))
      /\ Node.breakpoints s3 = <[line := b]> (Node.breakpoints s)
      /\ size (Node.breakpoints s3) = S (size (Node.breakpoints s)))
  /\ (forall s : Java.state,
      Java.breakpoints s !! line = None ->
      at_rest s ->
      let s3 := Java.run s (Java.CallSetBreakpoint line :: Java.ticks 600
                              ++ [Java.CallSetBreakpoint line]) in
      Java.completed s3 = Java.completed s ++
        [(Java.OpSetBreakpoint line, Ok (Some true)); (Java.OpSetBreakpoint line, Ok (Some true))]
      /\ length (java_input s3) = S (length (java_input s))
      /\ Java.breakpoints s3 = <[line := true]> (Java.breakpoints s)
      /\ size (Java.breakpoints s3) = S (size (Java.breakpoints s)))
  /\ (forall s : Node.state,
      is_Some (Node.breakpoints s !! line) ->
      Node.step s (Node.CallSetBreakpoint line) =
        Node.complete (Node.OpSetBreakpoint line) (Ok (Some true)) s)
  /\ (forall s : Java.state,
      is_Some (Java.breakpoints s !! line) ->
      Java.step s (Java.CallSetBreakpoint line) =
        Java.complete (Java.OpSetBreakpoint line) (Ok (Some true)) s).
Proof.
  split; [|split; [|split]].
  - intros s c b Hb Hc Hs Ho Hi.
    destruct (node_setBreakpoint_twice s line c b Hb Hc Hs Ho Hi) as (H1 & H2 & H3).
    cbn zeta. unfold Node.run. cbn [fold_left].
    rewrite H1, H2, H3. repeat split; auto.
    + rewrite length_app. simpl. lia.
    + by apply map_size_insert_None.
  - intros s Hb Hr.
    destruct (java_setBreakpoint_twice s line Hb Hr) as (H1 & H2 & H3).
    cbn zeta in *. change 600%nat with (100 + 500)%nat. rewrite java_ticks_add.
    change (Java.CallSetBreakpoint line :: (Java.ticks 100 ++ Java.ticks 500)
              ++ [Java.CallSetBreakpoint line])
      with ([Java.CallSetBreakpoint line] ++ (Java.ticks 100 ++ Java.ticks 500)
              ++ [Java.CallSetBreakpoint line]).
    rewrite (java_run_app s [Java.CallSetBreakpoint line]).
    rewrite (java_run_app _ (Java.ticks 100 ++ Java.ticks 500)).
    rewrite !java_run_one.
    rewrite H1, H2, H3. repeat split; auto.
    by apply map_size_insert_None.
  - intros s. apply node_setBreakpoint_again.
  - intros s. apply java_setBreakpoint_again.
Qed.

Lemma setBreakpoint_twice_witness :
  let s := Java.run (Java.new false) java_session in
  let s3 := Java.run s (Java.CallSetBreakpoint 7 :: Java.ticks 600
                          ++ [Java.CallSetBreakpoint 7]) in
  Java.completed s3 = Java.completed s ++
    [(Java.OpSetBreakpoint 7, Ok (Some true)); (Java.OpSetBreakpoint 7, Ok (Some true))]
  /\ length (java_input s3) = S (length (java_input s))
  /\ Java.breakpoints s3 = <[7 := true]> (Java.breakpoints s)
  /\ size (Java.breakpoints s3) = S (size (Java.breakpoints s)).
Proof.
  intros s s3.
  refine (proj1 (proj2 (setBreakpoint_twice 7)) s _ _).
  - vm_compute. reflexivity.
  - repeat split; try (vm_compute; reflexivity).
    eexists. split; vm_compute; reflexivity.
Defined.

(** * Stopping *)

Section Stopping.

Lemma node_stop_ok s : fst (Node.stop s) = Ok tt.
Proof.
  destruct s as [r c t sp [[[]]|] [[u [] se]|] cg po h v b cl ir sc [] mi pr em co];
    destruct r; reflexivity.
Qed.

Lemma java_stop_ok s : fst (Java.stop s) = Ok tt.
Proof.
  destruct s as [r c t ja sp [[[] inp]|] [[cl]|] il h v b cu cn fp ir cq pc em co];
    destruct r; reflexivity.
Qed.

Lemma node_stop_twice s : snd (Node.stop (snd (Node.stop s))) = snd (Node.stop s).
Proof.
  destruct s as [r c t sp [[[]]|] [[u [] se]|] cg po h v b cl ir sc [] mi pr em co];
    destruct r; reflexivity.
Qed.

Lemma filter_app_kill (l : list (Z * Java.timer)) (d : Z) :
  List.filter (fun e => negb (is_kill e)) (l ++ [(d, Java.Kill)]) =
  List.filter (fun e => negb (is_kill e)) l.
Proof. rewrite List.filter_app. simpl. apply app_nil_r. Qed.

Lemma existsb_app_kill (l : list (Z * Java.timer)) (d : Z) :
  existsb is_kill (l ++ [(d, Java.Kill)]) = true.
Proof. rewrite existsb_app. simpl. apply orb_true_r. Qed.

Lemma java_stop_twice s :
  java_observation (snd (Java.stop (snd (Java.stop s)))) = java_observation (snd (Java.stop s)).
Proof.
  destruct s as [r c t ja sp [[[] inp]|] [[cl]|] il h v b cu cn fp ir cq pc em co];
    destruct r; unfold java_observation; cbn;
    rewrite ?filter_app_kill, ?existsb_app_kill; reflexivity.
Qed.

Lemma node_stop_closes s :
  let s' := snd (Node.stop s) in
  node_process_gone s' /\ Node.isRunning s' = false
  /\ (Node.connected s = true -> node_connection_closed s').
Proof.
  destruct s as [r c t sp [[[]]|] [[u [] se]|] cg po h v b cl ir sc [] mi pr em co];
    destruct r; cbn; repeat split; congruence.
Qed.

Lemma java_stop_closes s :
  let s' := snd (Java.stop s) in
  java_reader_closed s' /\ Java.isRunning s' = false
  /\ (Java.debugProcess s <> None -> In (Java.clock s + 500, Java.Kill) (Java.timers s'))
  /\ (java_process_gone s -> java_process_gone s').
Proof.
  destruct s as [r c t ja sp [[[] inp]|] [[cl]|] il h v b cu cn fp ir cq pc em co];
    destruct r; cbn; repeat split; try congruence; try tauto;
    intros _; apply in_or_app; right; by left.
Qed.

Lemma java_kill_kills s : java_process_gone (Java.fire Java.Kill s).
Proof.
  destruct s as [r c t ja sp [[[] inp]|] rl il h v b cu cn fp ir cq pc em co];
    destruct r; reflexivity.
Qed.

End Stopping.

(** C6. For both adapters [stop()] never raises, whatever the state and
    whether or not the host raises on resources that are closed already.
    Message-protocol adapter: after [stop()] the process is killed, an
    established connection is no longer open and the running flag is
    cleared, and a second [stop()] leaves the adapter exactly as the
    first left it.  REPL adapter: after [stop()] the line reader is
    closed, the running flag cleared and the kill of the process due 500
    ms later, at which point the process is dead; a second [stop()]
    leaves every field as the first left it, the process as alive as it
    was and a kill pending (the best-effort quit line and the kill are
    issued once more). *)
Theorem stop_never_raises_and_repeats :
  (forall s : Node.state,
      fst (Node.stop s) = Ok tt
      /\ snd (Node.stop (snd (Node.stop s))) = snd (Node.stop s)
      /\ node_process_gone (snd (Node.stop s))
      /\ Node.isRunning (snd (Node.stop s)) = false
      /\ (Node.connected s = true -> node_connection_closed (snd (Node.stop s))))
  /\ (forall s : Java.state,
      fst (Java.stop s) = Ok tt
      /\ java_observation (snd (Java.stop (snd (Java.stop s)))) =
         java_observation (snd (Java.stop s))
      /\ java_reader_closed (snd (Java.stop s))
      /\ Java.isRunning (snd (Java.stop s)) = false
      /\ (Java.debugProcess s <> None ->
          In (Java.clock s + 500, Java.Kill) (Java.timers (snd (Java.stop s))))
      /\ java_process_gone (Java.fire Java.Kill s)).
Proof.
  split; intros s.
  - pose proof (node_stop_closes s) as (H1 & H2 & H3).
    repeat split; auto using node_stop_ok, node_stop_twice.
  - pose proof (java_stop_closes s) as (H1 & H2 & H3 & H4).
    repeat split; auto using java_stop_ok, java_stop_twice, java_kill_kills.
Qed.

Lemma stop_never_raises_and_repeats_witness :
  let s := Node.run (Node.new false) connected_session in
  node_connection_closed (snd (Node.stop s)).
Proof.
  intros s.
  refine (proj2 (proj2 (proj2 (proj2 (proj1 stop_never_raises_and_repeats s)))) _).
  vm_compute. reflexivity.
Defined.

(** * Pauses and snapshots of the message-protocol adapter *)

Section Pauses.
Import Node.

(** A message that answers a pending request settles exactly that one. *)
Lemma message_answers (msg : message) (i : Z) (k : cont) (s : state) :
  debuggerClient s <> None ->
  msg_id msg = Some i -> i <> 0 -> pendingRequests s !! i = Some k ->
  step s (WsMessage (Some msg)) =
    let s1 := set_pendingRequests (delete i (pendingRequests s)) s in
    match msg_error msg with
    | Some err => reject k err s1
    | None => resolve k msg s1
    end.
Proof.
  intros Hd Hi Hz Hp. cbn [step].
  destruct (debuggerClient s); [|done].
  unfold _handleMessage, answered. rewrite Hi.
  destruct (Z.eqb_spec i 0); [done|]. by rewrite Hp.
Qed.

Lemma store_property_refreshing ref out line old p : forall acc s,
  refreshing ref acc out line old s ->
  refreshing ref (add_property acc p) out line old (store_property s p).
Proof.
  intros acc s [].
  unfold store_property, add_property.
  destruct (prop_value p) as [v|]; [|by constructor].
  destruct (negb _); [|by constructor].
  constructor; auto. unfold store_variable. node_fields.
  rewrite rf_ref0, rf_heap0, <- rf_len0.
  replace (length old) with (length old + 0)%nat at 1 by lia.
  by rewrite alter_app_r.
Qed.

Lemma fold_store_property_refreshing ref out line old props : forall acc s,
  refreshing ref acc out line old s ->
  refreshing ref (fold_left add_property props acc) out line old
    (fold_left store_property props s).
Proof.
  induction props as [|p props IH]; intros acc s H; simpl; [done|].
  apply IH. by apply store_property_refreshing.
Qed.

Lemma pause_refresh reason ref out line old : forall scopes replies acc s,
  refreshing ref acc out line old s ->
  length replies = wanted_count scopes ->
  let s' := answer replies (_updateVariables reason scopes s) in
  emitted s' = out ++ pause_events reason line ref
  /\ variables s' = ref
  /\ heap s' = old ++ [fold_left add_property (concat replies) acc].
Proof.
  induction scopes as [|sc scopes IH]; intros replies acc s H Hl; cbn zeta.
  - destruct replies; [|done]. destruct H. simpl.
    unfold notify_pause, pause_events.
    destruct (String.eqb reason "other" || String.eqb reason "ambiguous");
      [|destruct (String.eqb reason "breakpoint")];
      unfold _notifyListeners; node_fields;
      rewrite ?rf_ref0, ?rf_line0, ?rf_out0, ?rf_heap0, <- ?app_assoc; done.
  - cbn [_updateVariables]. unfold wanted_count in Hl. cbn [List.filter] in Hl.
    destruct (wanted sc); [|by apply IH].
    destruct replies as [|props replies]; [done|]. cbn [length] in Hl.
    injection Hl as Hl. cbn [answer concat]. rewrite fold_left_app.
    destruct H. destruct rf_client0 as (c & Ec & Ho).
    rewrite (sendMessage_connected _ _ _ c) by assumption.
    replace (messageId (requested "Runtime.getProperties"
               (GetPropertiesArgs (objectId sc) true) (AwaitProperties reason scopes) c s) - 1)
      with (messageId s) by (unfold requested, schedule; node_fields; lia).
    unfold answer_properties.
    rewrite (message_answers _ (messageId s) (AwaitProperties reason scopes)); try done.
    + cbn [msg_error resolve msg_result].
      apply IH; [|exact Hl].
      apply fold_store_property_refreshing.
      unfold requested, schedule.
      constructor; node_fields; auto; try lia. by eexists.
    + lia.
    + unfold requested, schedule. node_fields. apply lookup_insert_eq.
Qed.

Lemma pause_handled (s : state) (c : socket) (reason : string) (top : frame)
    (frames : list frame) (replies : list (list property)) :
  connected s = true -> debuggerClient s = Some c -> ready c = OPEN -> 0 < messageId s ->
  length replies = wanted_count (scopeChain top) ->
  let ref := length (heap s) in
  let s' := answer replies (step s (paused reason (top :: frames))) in
  emitted s' = emitted s ++ pause_events reason (lineNumber top + 1) ref
  /\ variables s' = ref
  /\ heap s' = heap s ++ [materialized replies].
Proof.
  intros Hc Ec Ho Hi Hl. cbn zeta.
  cbn [step paused]. rewrite Ec.
  unfold _handleMessage, answered. cbn [msg_id msg_method msg_params].
  change (String.eqb "Debugger.paused" "Debugger.paused") with true. cbn iota.
  cbn [_handlePaused].
  apply pause_refresh; [|exact Hl].
  constructor; unfold reset_variables; node_fields; auto. by exists c.
Qed.

End Pauses.



(** C7, as stated, fails: between the reply for the local scope and the
    reply for the global scope of one pause, [getVariables()] returns a
    snapshot that holds the local [i] alone; it is neither empty nor one
    that was delivered for a completed pause. *)
Lemma snapshot_observed_half_refreshed :
  (Node.snapshot (Node.run (Node.new false) half_refreshed) !! "i" =
     Some {| Node.value := Node.JNumber 0; Node.type := "number" |}
   /\ delivered (Node.run (Node.new false) half_refreshed) = [])
  /\ ~ snapshot_always_complete.
Proof.
  assert (Hi : Node.snapshot (Node.run (Node.new false) half_refreshed) !! "i" =
               Some {| Node.value := Node.JNumber 0; Node.type := "number" |})
    by (vm_compute; reflexivity).
  assert (Hd : delivered (Node.run (Node.new false) half_refreshed) = [])
    by (vm_compute; reflexivity).
  split; [by split|].
  intros H. specialize (H half_refreshed).
  set (st := Node.run (Node.new false) half_refreshed) in *. clearbody st.
  cbv zeta in H. rewrite Hd in H. destruct H as [H|[]].
  rewrite H, lookup_empty in Hi. discriminate Hi.
Qed.

(** C7, amended. On every pause the snapshot is rebuilt from scratch: the
    adapter allocates a fresh empty object for [this.variables] and leaves
    every earlier object untouched.  In the message-protocol adapter, when
    the inspector answers the pause's property requests, the object then
    holds exactly the properties of the pause's local and global scopes and
    its reference is handed to the listeners of [variablesUpdated].
    [getVariables()] returns the current object as it is, also while it is
    being filled. *)
Theorem snapshot_rebuilt_on_every_pause :
  (forall (s : Node.state) (c : Node.socket) (reason : string) (top : Node.frame)
          (frames : list Node.frame) (replies : list (list Node.property)),
      Node.connected s = true -> Node.debuggerClient s = Some c -> Node.ready c = Node.OPEN ->
      0 < Node.messageId s ->
      length replies = wanted_count (Node.scopeChain top) ->
      let s' := answer replies (Node.step s (paused reason (top :: frames))) in
      Node.getVariables s' = length (Node.heap s)
      /\ Node.heap s' = Node.heap s ++ [materialized replies]
      /\ In (Node.variablesUpdated (length (Node.heap s))) (Node.emitted s'))
  /\ (forall (s : Java.state) (hit : bool),
      let s' := Java._getVariables hit s in
      Java.getVariables s' = length (Java.heap s)
      /\ Java.heap s' = Java.heap s ++ [∅]).
Proof.
  split.
  - intros s c reason top frames replies Hc Hd Ho Hi Hl. cbn zeta.
    destruct (pause_handled s c reason top frames replies Hc Hd Ho Hi Hl) as (He & Hv & Hh).
    repeat split; auto. rewrite He. apply in_or_app. right. by left.
  - intros s hit. unfold Java._getVariables, Java.getVariables.
    java_defs. crunch; auto.
Qed.

Lemma snapshot_rebuilt_on_every_pause_witness :
  let s := Node.run (Node.new false) connected_session in
  let top := {| Node.lineNumber := 1;
                Node.scopeChain := [{| Node.scope_type := "local"; Node.objectId := "1" |};
                                    {| Node.scope_type := "global"; Node.objectId := "2" |}] |} in
  let s' := answer [[number "i" 0]; [number "g" 7]]
              (Node.step s (paused "breakpoint" [top])) in
  Node.getVariables s' = length (Node.heap s)
  /\ Node.heap s' = Node.heap s ++ [materialized [[number "i" 0]; [number "g" 7]]]
  /\ In (Node.variablesUpdated (length (Node.heap s))) (Node.emitted s').
Proof.
  intros s top s'.
  refine (proj1 snapshot_rebuilt_on_every_pause s open_socket "breakpoint" top []
            [[number "i" 0]; [number "g" 7]] _ _ _ _ _).
  - vm_compute. reflexivity.
  - vm_compute. reflexivity.
  - reflexivity.
  - vm_compute. reflexivity.
  - vm_compute. reflexivity.
Defined.

(** * Request correlation in the message-protocol adapter *)

Section Correlation.
Import Node.

Lemma grows_refl s : grows s s.
Proof. by constructor. Qed.

Lemma grows_trans s1 s2 s3 : grows s1 s2 -> grows s2 s3 -> grows s1 s3.
Proof.
  intros [] []. constructor; [lia| |].
  - intros j Hj. rewrite g_keep1 by lia. by apply g_keep0.
  - intros j Hj Hn. apply g_new1; [done|]. apply g_new0; [lia|done].
Qed.

(** Code that leaves the table and the next id alone. *)
Lemma grows_same s s' :
  messageId s' = messageId s -> pendingRequests s' = pendingRequests s -> grows s s'.
Proof. intros H1 H2. constructor; rewrite ?H1, ?H2; auto; lia. Qed.

Lemma stop_table s :
  messageId (snd (stop s)) = messageId s /\ pendingRequests (snd (stop s)) = pendingRequests s.
Proof.
  destruct s as [r c t sp [[[]]|] [[u [] se]|] cg po h v b cl ir sc [] mi pr em co];
    destruct r; split; reflexivity.
Qed.

Lemma finish_same_table op (m : M state (option bool)) s :
  (forall s0, same_table s0 (snd (m s0))) -> same_table s (finish op m s).
Proof.
  intros H. unfold finish. specialize (H s). destruct (m s) as [r s1]. exact H.
Qed.

Lemma start_catch_same_table err s : same_table s (snd (start_catch err s)).
Proof.
  unfold start_catch, bind, throw. pose proof (stop_table s) as H.
  destruct (stop s) as [[] s1]; exact H.
Qed.

Lemma setBreakpoint_rest_same_table line awaited s :
  same_table s (snd (setBreakpoint_rest line awaited s)).
Proof.
  unfold setBreakpoint_rest, try_catch, bind, await, throw, lift, ret.
  destruct awaited as [msg|e]; [|done]. by destruct (msg_result msg).
Qed.

Lemma resume_rest_same_table awaited s : same_table s (snd (resume_rest awaited s)).
Proof. by destruct awaited. Qed.

Lemma connect_reject_same_table err s : same_table s (connect_reject err s).
Proof.
  unfold connect_reject. destruct (connecting s); [|done].
  destruct (finish_same_table OpStart (start_catch err) (set_connecting false s)
              (start_catch_same_table err)) as [H1 H2].
  split; [rewrite H1|rewrite H2]; done.
Qed.

Lemma reject_same_table k err s : same_table s (reject k err s).
Proof.
  destruct k; cbn [reject]; try done; try apply connect_reject_same_table;
    apply finish_same_table; intros s0;
    auto using setBreakpoint_rest_same_table, resume_rest_same_table.
Qed.

Lemma reject_grows k err s : grows s (reject k err s).
Proof. apply grows_same; apply reject_same_table. Qed.

Lemma sendMessage_grows method args k s : grows s (_sendMessage method args k s).
Proof.
  unfold _sendMessage. destruct (connected s); cbn [negb]; [|apply reject_grows].
  set (s2 := set_pendingRequests _ _).
  assert (H2 : grows s s2).
  { subst s2. constructor; node_fields; [lia| |].
    - intros j Hj. rewrite lookup_insert_ne by lia. done.
    - intros j Hj Hn. rewrite lookup_insert_ne by lia. done. }
  assert (Hi : messageId s2 = messageId s + 1) by reflexivity.
  destruct (send_inv {| req_id := messageId s; req_method := method; req_params := args |} s2)
    as [[r ->]|(c & _ & ->)].
  - destruct r; [eapply grows_trans; [exact H2|]; by apply grows_same|].
    eapply grows_trans; [|apply reject_grows].
    constructor; node_fields; [lia| |].
    + intros j Hj. rewrite lookup_insert_ne by lia. by apply H2.
    + intros j Hj Hn. rewrite lookup_insert_ne by lia. by apply H2.
  - eapply grows_trans; [exact H2|]. by apply grows_same.
Qed.

Lemma store_property_table s p :
  messageId (store_property s p) = messageId s
  /\ pendingRequests (store_property s p) = pendingRequests s.
Proof. unfold store_property, store_variable. by repeat case_match. Qed.

Lemma fold_store_property_grows props : forall s, grows s (fold_left store_property props s).
Proof.
  induction props as [|p props IH]; intros s; simpl; [apply grows_refl|].
  eapply grows_trans; [|apply IH].
  apply grows_same; apply store_property_table.
Qed.

Lemma updateVariables_grows reason scopes : forall s, grows s (_updateVariables reason scopes s).
Proof.
  induction scopes as [|sc scopes IH]; intros s; cbn [_updateVariables].
  - apply grows_same; unfold notify_pause, _notifyListeners; by repeat case_match.
  - destruct (wanted sc); [apply sendMessage_grows|apply IH].
Qed.

Lemma connect_resolve_same_table s : same_table s (connect_resolve s).
Proof. unfold connect_resolve. by destruct (connecting s). Qed.

Lemma resolve_grows k msg s : grows s (resolve k msg s).
Proof.
  destruct k; cbn [resolve]; try apply sendMessage_grows; try apply grows_refl.
  - destruct (msg_result msg); try apply sendMessage_grows.
    apply (reject_grows AwaitIsolateId).
  - apply grows_same; apply (connect_resolve_same_table (set_scriptId (Some "1") s)).
  - apply grows_same; apply finish_same_table; intros s0;
      apply setBreakpoint_rest_same_table.
  - apply grows_same; reflexivity.
  - apply grows_same; reflexivity.
  - apply grows_same; reflexivity.
  - destruct (msg_result msg); try apply grows_refl.
    eapply grows_trans; [apply fold_store_property_grows|apply updateVariables_grows].
Qed.

Lemma grows_fresh s s' : grows s s' -> fresh s -> fresh s'.
Proof.
  intros [] [Hp Hf]. split; [lia|]. intros j k Hj.
  destruct (Z.lt_ge_cases j (messageId s)) as [Hlt|Hge].
  - rewrite g_keep0 in Hj by done. apply Hf in Hj. lia.
  - destruct (Z.lt_ge_cases j (messageId s')) as [Hlt'|Hge']; [lia|].
    rewrite g_new0 in Hj; [done|lia|].
    destruct (pendingRequests s !! j) eqn:E; [|done]. apply Hf in E. lia.
Qed.

Lemma fresh_delete s i :
  fresh s -> fresh (set_pendingRequests (delete i (pendingRequests s)) s).
Proof.
  intros [Hp Hf]. split; [done|]. intros j k. node_fields.
  intros Hj. apply lookup_delete_Some in Hj as [_ Hj]. by apply Hf in Hj.
Qed.

Lemma handleMessage_fresh msg s : fresh s -> fresh (_handleMessage msg s).
Proof.
  intros Hf. unfold _handleMessage.
  destruct (answered msg s) as [[i k]|].
  - destruct (msg_error msg);
      (eapply grows_fresh; [apply reject_grows || apply resolve_grows|by apply fresh_delete]).
  - destruct (msg_method msg) as [m|]; [|done].
    repeat case_match; try done.
    + unfold _handlePaused. case_match; [done|].
      eapply grows_fresh; [apply updateVariables_grows|]. done.
Qed.

Lemma fire_fresh t s : fresh s -> fresh (fire t s).
Proof.
  intros Hf. destruct t; cbn [fire]; [done|].
  destruct (pendingRequests s !! id) eqn:E; [|done].
  eapply grows_fresh; [apply reject_grows|by apply fresh_delete].
Qed.

Lemma tick_fresh s : fresh s -> fresh (tick s).
Proof.
  intros Hf. unfold tick.
  generalize (List.filter (due (clock s + 1)) (timers s)).
  assert (H : fresh (set_timers (List.filter (fun e => negb (due (clock s + 1) e)) (timers s))
                       (set_clock (clock s + 1) s))) by done.
  revert H. generalize (set_timers (List.filter (fun e => negb (due (clock s + 1) e)) (timers s))
                          (set_clock (clock s + 1) s)).
  intros s0 H0 l. revert s0 H0.
  induction l as [|e l IH]; intros s0 H0; simpl; [done|].
  apply IH. by apply fire_fresh.
Qed.

Lemma step_fresh s i : fresh s -> fresh (step s i).
Proof.
  intros Hf. destruct i; cbn [step].
  - done.
  - by case_match.
  - case_match; [|done]. unfold on_stderr. by repeat case_match.
  - by case_match.
  - repeat case_match; try done.
    eapply grows_fresh; [apply sendMessage_grows|]. unfold set_ready. by case_match.
  - repeat case_match; try done. by apply handleMessage_fresh.
  - case_match; [|done].
    eapply grows_fresh; [apply (reject_grows AwaitRuntimeEnable)|].
    unfold set_ready. by case_match.
  - case_match; [|done]. unfold set_ready. by case_match.
  - unfold setBreakpoint. case_match; [done|].
    eapply grows_fresh; [apply sendMessage_grows|done].
  - eapply grows_fresh; [apply sendMessage_grows|done].
  - eapply grows_fresh; [apply sendMessage_grows|done].
  - eapply grows_fresh; [apply sendMessage_grows|done].
  - unfold finish, bind, ret. destruct (stop s) as [[] s1] eqn:E;
      pose proof (stop_table s) as [H1 H2]; rewrite E in H1, H2; cbn [snd] in H1, H2;
      destruct Hf as [Hp Hf]; split; unfold complete; node_fields;
      rewrite ?H1, ?H2; auto.
  - by apply tick_fresh.
Qed.

Lemma run_fresh l : forall s, fresh s -> fresh (run s l).
Proof.
  unfold run. induction l as [|i l IH]; intros s Hf; simpl; [done|].
  apply IH. by apply step_fresh.
Qed.

Lemma new_fresh raises : fresh (new raises).
Proof. split; [done|]. intros j k. cbn. by rewrite lookup_empty. Qed.





Lemma settle_grows k msg s : grows s (settle k msg s).
Proof. unfold settle. destruct (msg_error msg); [apply reject_grows|apply resolve_grows]. Qed.








End Correlation.



(** * Failure propagation *)

Section Propagation.

(** ** REPL adapter *)

















(** ** Message-protocol adapter *)

Lemma node_stop_completed s : Node.completed (snd (Node.stop s)) = Node.completed s.
Proof.
  destruct s as [r c t sp [[[]]|] [[u [] se]|] cg po h v b cl ir sc [] mi pr em co];
    destruct r; reflexivity.
Qed.

















Lemma node_start_catch_spec err s :
  Node.start_catch err s = (Thrown err, snd (Node.stop s)).
Proof.
  unfold Node.start_catch, bind, throw.
  pose proof (node_stop_ok s) as H. destruct (Node.stop s) as [[[]|e] s1]; [done|].
  discriminate H.
Qed.

Lemma java_start_catch_spec err s :
  Java.start_catch err s = (Thrown err, snd (Java.stop s)).
Proof.
  unfold Java.start_catch, bind, throw.
  pose proof (java_stop_ok s) as H. destruct (Java.stop s) as [[[]|e] s1]; [done|].
  discriminate H.
Qed.


End Propagation.



(** * Command ordering in the REPL adapter *)

Section Ordering.
Import Java.

Lemma spaced_snoc gap l x :
  spaced gap l -> Forall (fun w => w + gap <= x) l -> spaced gap (l ++ [x]).
Proof.
  intros Hs Hf i j a b Hij Hi Hj.
  assert (Hil : (i < length l)%nat).
  { apply lookup_lt_Some in Hj. rewrite length_app in Hj. simpl in Hj. lia. }
  rewrite lookup_app_l in Hi by done.
  destruct (decide (j < length l)%nat) as [Hjl|Hjl].
  - rewrite lookup_app_l in Hj by done. eauto.
  - rewrite lookup_app_r in Hj by lia.
    destruct (j - length l)%nat; [|done]. simpl in Hj. simplify_eq.
    rewrite Forall_forall in Hf. apply Hf. eapply list_elem_of_lookup_2. exact Hi.
Qed.

Lemma spaced_nil gap : spaced gap [].
Proof. intros i j a b _ Hi. done. Qed.

Lemma spaced_weaken g1 g2 l : g2 <= g1 -> spaced g1 l -> spaced g2 l.
Proof. intros Hg Hs i j a b Hij Hi Hj. specialize (Hs i j a b Hij Hi Hj). lia. Qed.

Lemma harmless_refl s : harmless s s.
Proof. constructor; auto. exists []. by rewrite app_nil_r. Qed.

Lemma harmless_trans s1 s2 s3 : harmless s1 s2 -> harmless s2 s3 -> harmless s1 s3.
Proof.
  intros [H1 H2 H3 (x1 & H4 & H5)] [G1 G2 G3 (x2 & G4 & G5)].
  constructor; try congruence.
  exists (x1 ++ x2). rewrite G4, H4, app_assoc. split; [done|]. by apply Forall_app.
Qed.

(** Code that leaves process, timers, flag and clock alone. *)
Lemma harmless_same s s' :
  debugProcess s' = debugProcess s -> timers s' = timers s ->
  processingCommand s' = processingCommand s -> clock s' = clock s -> harmless s s'.
Proof.
  intros H1 H2 H3 H4. constructor; auto.
  - unfold queue_writes. by rewrite H1.
  - exists []. by rewrite app_nil_r.
Qed.

Lemma filter_chain_extra l extra :
  Forall (fun e => chain e = false /\ refresh e = false) extra ->
  List.filter chain (l ++ extra) = List.filter chain l.
Proof.
  intros H. rewrite List.filter_app.
  assert (E : List.filter chain extra = []).
  { induction H as [|e extra [He _] _ IH]; simpl; [done|]. by rewrite He. }
  rewrite E. apply app_nil_r.
Qed.

Lemma harmless_ordered pend s s' : harmless s s' -> ordered pend s -> ordered pend s'.
Proof.
  intros [H1 H2 H3 (extra & H4 & H5)] [O1 O2 O3 O4 O5].
  constructor; rewrite ?H1, ?H2, ?H3, ?H4, ?app_assoc; auto.
  - apply Forall_app. split; [done|]. eapply Forall_impl; [exact H5|]. by intros e [].
  - by rewrite filter_chain_extra.
  - intros e He Hc. apply O4; [|done].
    apply in_app_or in He as [He|He]; [done|].
    rewrite Forall_forall in H5. apply list_elem_of_In, H5 in He. destruct He. congruence.
Qed.

Lemma stop_harmless s : harmless s (snd (stop s)).
Proof.
  destruct s as [r c t ja sp [[[] inp]|] [[cl]|] il h v b cu cn fp ir cq pc em co];
    destruct r; constructor; try reflexivity;
    try (exists []; by rewrite app_nil_r);
    try (eexists; split; [reflexivity|]; by repeat constructor).
  all: unfold queue_writes; cbn; rewrite List.filter_app, map_app; cbn; by rewrite app_nil_r.
Qed.

Lemma finish_harmless op (m : M state (option bool)) s :
  (forall s0, harmless s0 (snd (m s0))) -> harmless s (finish op m s).
Proof.
  intros H. unfold finish. specialize (H s). destruct (m s) as [r s1].
  eapply harmless_trans; [exact H|]. by apply harmless_same.
Qed.

Lemma start_catch_harmless err s : harmless s (snd (start_catch err s)).
Proof.
  unfold start_catch, bind, throw. pose proof (stop_harmless s) as H.
  by destruct (stop s) as [[] s1].
Qed.

Lemma setBreakpoint_rest_harmless line awaited s :
  harmless s (snd (setBreakpoint_rest line awaited s)).
Proof. destruct awaited; by apply harmless_same. Qed.

Lemma resume_rest_harmless awaited s : harmless s (snd (resume_rest awaited s)).
Proof. destruct awaited; by apply harmless_same. Qed.

Lemma reject_harmless w err s : harmless s (reject w err s).
Proof.
  destruct w; cbn [reject]; apply finish_harmless; intros s0;
    auto using start_catch_harmless, setBreakpoint_rest_harmless, resume_rest_harmless.
Qed.

Lemma no_chain l : length (List.filter chain l) = 0%nat ->
  forall e, In e l -> chain e = true -> False.
Proof.
  intros H e He Hc. apply length_zero_iff_nil in H.
  assert (In e (List.filter chain l)) as Hin by (apply List.filter_In; auto).
  rewrite H in Hin. destruct Hin.
Qed.

Lemma filter_chain_snoc l e :
  length (List.filter chain (l ++ [e])) =
  (length (List.filter chain l) + (if chain e then 1 else 0))%nat.
Proof. rewrite List.filter_app, length_app. simpl. by destruct (chain e). Qed.

Lemma queue_writes_timers t s : queue_writes (set_timers t s) = queue_writes s.
Proof. reflexivity. Qed.
Lemma queue_writes_queue q s : queue_writes (set_commandQueue q s) = queue_writes s.
Proof. reflexivity. Qed.
Lemma queue_writes_flag f s : queue_writes (set_processingCommand f s) = queue_writes s.
Proof. reflexivity. Qed.

(** Dispatching from an idle queue. *)
Lemma processNext_ordered pend s : ordered pend s -> ordered pend (_processNextCommand s).
Proof.
  intros O. unfold _processNextCommand.
  destruct (commandQueue s) as [|q rest]; [done|].
  destruct (processingCommand s) eqn:Ef; [done|].
  destruct O as [O1 O2 O3 O4 O5]. rewrite Ef in O3. specialize (O5 Ef).
  unfold _sendCommand, bind, lift, write. java_fields.
  destruct (debugProcess s) as [p|] eqn:Ep.
  - destruct (alive p) eqn:Ea; [|destruct (raises_on_closed s) eqn:Er].
    + (* the command is written *)
      unfold schedule. constructor; java_fields.
      * unfold queue_writes in *. java_fields. rewrite Ep in *.
        rewrite List.filter_app, map_app. cbn. apply spaced_snoc; [done|].
        eapply Forall_impl; [exact O5|]. cbn. lia.
      * rewrite app_assoc. apply Forall_app. split; [done|]. by repeat constructor.
      * rewrite app_assoc, filter_chain_snoc, O3. reflexivity.
      * intros e He Hc. rewrite app_assoc in He. apply in_app_or in He as [He|He].
        { destruct (no_chain _ O3 e He Hc). }
        destruct He as [<-|[]]. unfold release. cbn.
        unfold queue_writes in *. java_fields. rewrite Ep in *.
        rewrite List.filter_app, map_app. cbn. apply Forall_app. split.
        -- eapply Forall_impl; [exact O5|]. cbn. lia.
        -- repeat constructor. lia.
      * done.
    + (* the write raises: [catch(reject)], then [finally] *)
      unfold schedule.
      pose proof (reject_harmless (awaiting q) "write after end"
                    (set_commandQueue rest (set_processingCommand true s)))
        as [H1 H2 H3 (extra & H4 & H5)].
      java_fields.
      constructor; java_fields;
        rewrite ?queue_writes_timers, ?H1, ?H2, ?H3, ?H4,
          ?queue_writes_queue, ?queue_writes_flag.
      * done.
      * rewrite !app_assoc. apply Forall_app. split; [|by repeat constructor].
        apply Forall_app. split; [done|]. eapply Forall_impl; [exact H5|]. by intros e [].
      * rewrite !app_assoc, filter_chain_snoc, filter_chain_extra, O3 by done. reflexivity.
      * intros e He Hc. rewrite !app_assoc in He. apply in_app_or in He as [He|He].
        { apply in_app_or in He as [He|He]; [destruct (no_chain _ O3 e He Hc)|].
          rewrite Forall_forall in H5. apply list_elem_of_In, H5 in He.
          destruct He. congruence. }
        destruct He as [<-|[]]. unfold release. cbn.
        eapply Forall_impl; [exact O5|]. cbn. lia.
      * done.
    + (* the write is dropped *)
      unfold schedule. constructor; java_fields.
      * done.
      * rewrite app_assoc. apply Forall_app. split; [done|]. by repeat constructor.
      * rewrite app_assoc, filter_chain_snoc, O3. reflexivity.
      * intros e He Hc. rewrite app_assoc in He. apply in_app_or in He as [He|He].
        { destruct (no_chain _ O3 e He Hc). }
        destruct He as [<-|[]]. unfold release. cbn.
        eapply Forall_impl; [exact O5|]. cbn. lia.
      * done.
  - (* no process: the write raises *)
    unfold schedule.
    pose proof (reject_harmless (awaiting q) "TypeError: Cannot read properties of null"
                  (set_commandQueue rest (set_processingCommand true s)))
      as [H1 H2 H3 (extra & H4 & H5)].
    java_fields.
    constructor; java_fields;
      rewrite ?queue_writes_timers, ?H1, ?H2, ?H3, ?H4,
        ?queue_writes_queue, ?queue_writes_flag.
    * done.
    * rewrite !app_assoc. apply Forall_app. split; [|by repeat constructor].
      apply Forall_app. split; [done|]. eapply Forall_impl; [exact H5|]. by intros e [].
    * rewrite !app_assoc, filter_chain_snoc, filter_chain_extra, O3 by done. reflexivity.
    * intros e He Hc. rewrite !app_assoc in He. apply in_app_or in He as [He|He].
      { apply in_app_or in He as [He|He]; [destruct (no_chain _ O3 e He Hc)|].
        rewrite Forall_forall in H5. apply list_elem_of_In, H5 in He.
        destruct He. congruence. }
      destruct He as [<-|[]]. unfold release. cbn.
      eapply Forall_impl; [exact O5|]. cbn. lia.
    * done.
Qed.

Lemma queueCommand_ordered pend c w s :
  ordered pend s -> ordered pend (_queueCommand c w s).
Proof.
  intros O. unfold _queueCommand. java_fields.
  assert (O' : ordered pend (set_commandQueue
                 (commandQueue s ++ [{| command := c; awaiting := w |}]) s)).
  { eapply harmless_ordered; [|exact O]. by apply harmless_same. }
  destruct (processingCommand s); [done|]. by apply processNext_ordered.
Qed.

(** While a command is in flight, settling its waiter is harmless. *)
Lemma resolve_harmless w s : processingCommand s = true -> harmless s (resolve w s).
Proof.
  intros Hf. destruct w; cbn [resolve].
  - unfold _queueCommand. java_fields. rewrite Hf. by apply harmless_same.
  - apply finish_harmless. intros s0. by apply harmless_same.
  - apply finish_harmless. intros s0. apply setBreakpoint_rest_harmless.
  - apply finish_harmless. intros s0. apply resume_rest_harmless.
  - apply finish_harmless. intros s0. apply resume_rest_harmless.
  - apply finish_harmless. intros s0. apply resume_rest_harmless.
Qed.

(** A timer leaves the list of those that are due. *)
Lemma ordered_drop e pend s :
  chain e = false -> ordered (e :: pend) s -> ordered pend s.
Proof.
  intros Hc [O1 O2 O3 O4 O5]. constructor; auto.
  - by inversion O2.
  - cbn in O3. by rewrite Hc in O3.
  - intros e' He'. apply O4. by right.
Qed.

Lemma busy_when_chain e pend s :
  chain e = true -> ordered (e :: pend) s ->
  processingCommand s = true /\ length (List.filter chain (pend ++ timers s)) = 0%nat.
Proof.
  intros Hc [O1 O2 O3 O4 O5]. cbn in O3. rewrite Hc in O3. cbn in O3.
  destruct (processingCommand s); [split; [done|lia]|lia].
Qed.

Lemma fire_ordered e pend s :
  fst e <= clock s -> ordered (e :: pend) s -> ordered pend (fire (snd e) s).
Proof.
  intros Hdue O. destruct e as [d t]. cbn [fst snd] in *.
  destruct t; cbn [fire].
  - (* SendDone *)
    destruct (busy_when_chain (d, SendDone w) pend s eq_refl O) as [Hf H0].
    destruct O as [O1 O2 O3 O4 O5]. unfold schedule.
    constructor; java_fields; rewrite ?queue_writes_timers.
    + exact O1.
    + rewrite app_assoc. apply Forall_app. split; [by inversion O2|by repeat constructor].
    + rewrite app_assoc, filter_chain_snoc, H0, Hf. reflexivity.
    + intros e He Hc. rewrite app_assoc in He. apply in_app_or in He as [He|He].
      { destruct (no_chain _ H0 e He Hc). }
      destruct He as [<-|[]]. unfold release. cbn.
      specialize (O4 (d, SendDone w) (or_introl eq_refl) eq_refl).
      eapply Forall_impl; [exact O4|]. unfold release. cbn. lia.
    + congruence.
  - (* Settled *)
    destruct (busy_when_chain (d, Settled w) pend s eq_refl O) as [Hf H0].
    destruct O as [O1 O2 O3 O4 O5]. unfold schedule.
    destruct (resolve_harmless w s Hf) as [H1 H2 H3 (extra & H4 & H5)].
    constructor; java_fields; rewrite ?queue_writes_timers, ?H1, ?H2, ?H3, ?H4.
    + exact O1.
    + rewrite !app_assoc. apply Forall_app. split; [|by repeat constructor].
      apply Forall_app. split; [by inversion O2|].
      eapply Forall_impl; [exact H5|]. by intros e [].
    + rewrite !app_assoc, filter_chain_snoc, filter_chain_extra, H0, Hf by done. reflexivity.
    + intros e He Hc. rewrite !app_assoc in He. apply in_app_or in He as [He|He].
      { apply in_app_or in He as [He|He]; [destruct (no_chain _ H0 e He Hc)|].
        rewrite Forall_forall in H5. apply list_elem_of_In, H5 in He.
        destruct He. congruence. }
      destruct He as [<-|[]]. unfold release. cbn.
      specialize (O4 (d, Settled w) (or_introl eq_refl) eq_refl).
      eapply Forall_impl; [exact O4|]. unfold release. cbn. lia.
    + congruence.
  - (* ClearFlag *)
    destruct (busy_when_chain (d, ClearFlag) pend s eq_refl O) as [Hf H0].
    destruct O as [O1 O2 O3 O4 O5].
    apply processNext_ordered.
    constructor; java_fields; rewrite ?queue_writes_flag.
    + exact O1.
    + by inversion O2.
    + exact H0.
    + intros e He Hc. destruct (no_chain _ H0 e He Hc).
    + intros _. specialize (O4 (d, ClearFlag) (or_introl eq_refl) eq_refl).
      eapply Forall_impl; [exact O4|]. unfold release. cbn. lia.
  - (* LocalsSent *)
    destruct O as [O1 O2 O3 O4 O5]. inversion O2 as [|? ? Hr]. discriminate Hr.
  - (* LocalsSettled *)
    destruct O as [O1 O2 O3 O4 O5]. inversion O2 as [|? ? Hr]. discriminate Hr.
  - (* ProcessNext *)
    apply processNext_ordered. by apply (ordered_drop (d, ProcessNext)).
  - (* InitTimeout *)
    apply (ordered_drop (d, InitTimeout)) in O; [|done].
    destruct (initListener s); [|done].
    unfold start_initialized. apply queueCommand_ordered.
    eapply harmless_ordered; [|exact O]. by apply harmless_same.
  - (* Kill *)
    apply (ordered_drop (d, Kill)) in O; [|done].
    eapply harmless_ordered; [|exact O].
    unfold try_catch, kill, ret.
    destruct (debugProcess s) as [[[] inp]|] eqn:Ep; try apply harmless_refl.
    + constructor; java_fields; auto.
      * unfold queue_writes. java_fields. by rewrite Ep.
      * exists []. by rewrite app_nil_r.
    + destruct (raises_on_closed s); apply harmless_refl.
Qed.

(** No callback moves the clock. *)
Lemma processNext_clock s : clock (_processNextCommand s) = clock s.
Proof.
  unfold _processNextCommand.
  destruct (commandQueue s) as [|q rest]; [done|].
  destruct (processingCommand s); [done|].
  unfold _sendCommand, bind, lift, write, schedule. java_fields.
  destruct (debugProcess s) as [p|]; [destruct (alive p); [done|]|].
  - destruct (raises_on_closed s); [|done]. java_fields.
    by rewrite (h_clock _ _ (reject_harmless _ _ _)).
  - java_fields. by rewrite (h_clock _ _ (reject_harmless _ _ _)).
Qed.

Lemma queueCommand_clock c w s : clock (_queueCommand c w s) = clock s.
Proof.
  unfold _queueCommand. java_fields. destruct (processingCommand s); [done|].
  by rewrite processNext_clock.
Qed.

Lemma resolve_clock w s : clock (resolve w s) = clock s.
Proof.
  destruct w; cbn [resolve]; try apply queueCommand_clock.
  - reflexivity.
  - apply (h_clock _ _ (finish_harmless _ _ _ (setBreakpoint_rest_harmless line (Ok tt)))).
  - reflexivity.
  - reflexivity.
  - reflexivity.
Qed.

Lemma fire_clock t s : clock (fire t s) = clock s.
Proof.
  destruct t; cbn [fire]; unfold schedule, landed, start_initialized; java_fields;
    try reflexivity.
  - apply resolve_clock.
  - by rewrite processNext_clock.
  - apply processNext_clock.
  - destruct (initListener s); [|done]. by rewrite queueCommand_clock.
  - unfold try_catch, kill, ret.
    destruct (debugProcess s) as [[[] inp]|]; try reflexivity.
    by destruct (raises_on_closed s).
Qed.

Lemma fold_fire_ordered due : forall pend s,
  Forall (fun e => fst e <= clock s) due ->
  ordered (due ++ pend) s ->
  ordered pend (fold_left (fun s (e : Z * timer) => fire (snd e) s) due s).
Proof.
  induction due as [|e due IH]; intros pend s Hd O; cbn [fold_left]; [done|].
  inversion Hd as [|? ? He Hd']; subst. apply IH.
  - eapply Forall_impl; [exact Hd'|]. intros e' He'. cbn in He'. by rewrite fire_clock.
  - by apply fire_ordered.
Qed.

Lemma filter_partition_length {A} (f p : A -> bool) (l : list A) :
  length (List.filter f (List.filter p l ++ List.filter (fun e => negb (p e)) l)) =
  length (List.filter f l).
Proof.
  rewrite List.filter_app, length_app.
  induction l as [|x l IH]; [done|]. cbn.
  destruct (p x); cbn; destruct (f x); cbn in *; lia.
Qed.

Lemma tick_ordered s : ordered [] s -> ordered [] (tick s).
Proof.
  intros [O1 O2 O3 O4 O5]. unfold tick. cbn [app] in *.
  set (t := clock s + 1).
  apply (fold_fire_ordered (List.filter (due t) (timers s)) []).
  - apply Forall_forall. intros e He. apply list_elem_of_In, List.filter_In in He as [_ He].
    java_fields. unfold due in He. subst t. lia.
  - rewrite app_nil_r. constructor; java_fields; rewrite ?queue_writes_timers; auto.
    + apply Forall_forall. intros e He. rewrite Forall_forall in O2. apply O2.
      apply list_elem_of_In. apply list_elem_of_In in He.
      apply in_app_or in He as [He|He]; apply List.filter_In in He; tauto.
    + rewrite filter_partition_length. exact O3.
    + intros e He. apply O4.
      apply in_app_or in He as [He|He]; apply List.filter_In in He; tauto.
    + intros Hf. specialize (O5 Hf). eapply Forall_impl; [exact O5|].
      cbn. subst t. lia.
Qed.

Lemma unremarkable_line line s :
  unremarkable line = true ->
  on_error line (on_exit line (on_assignment line (on_landing line s))) =
    on_assignment line s.
Proof.
  unfold unremarkable, on_error, on_exit, on_landing. intros H.
  apply negb_true_iff in H. repeat (apply orb_false_iff in H as [H ?]).
  by repeat match goal with E : _ = false |- _ => rewrite E; clear E end.
Qed.

Lemma step_ordered s i : benign i = true -> ordered [] s -> ordered [] (step s i).
Proof.
  intros Hb O. destruct i; cbn [step].
  - eapply harmless_ordered; [|exact O]. by apply harmless_same.
  - destruct (javac s) as [[out err]|]; [|done].
    eapply harmless_ordered; [|exact O]. by apply harmless_same.
  - destruct (javac s) as [[out err]|]; [|done].
    eapply harmless_ordered; [|exact O]. by apply harmless_same.
  - unfold javac_close. destruct (javac s) as [[out err]|]; [|done].
    destruct exit as [[| |]|].
    + (* a new process: nothing written yet *)
      destruct O as [O1 O2 O3 O4 O5]. unfold start_compiled, schedule.
      constructor; java_fields; cbn [app] in *.
      * apply spaced_nil.
      * apply Forall_app. split; [done|]. by repeat constructor.
      * by rewrite filter_chain_snoc, Nat.add_0_r.
      * intros e He Hc. constructor.
      * intros _. constructor.
    + eapply harmless_ordered; [|exact O].
      eapply harmless_trans; [|apply finish_harmless; intros; apply start_catch_harmless].
      by apply harmless_same.
    + eapply harmless_ordered; [|exact O].
      eapply harmless_trans; [|apply finish_harmless; intros; apply start_catch_harmless].
      by apply harmless_same.
    + eapply harmless_ordered; [|exact O].
      eapply harmless_trans; [|apply finish_harmless; intros; apply start_catch_harmless].
      by apply harmless_same.
  - destruct (listening s); [|done]. unfold on_line.
    rewrite unremarkable_line by exact Hb.
    assert (O' : ordered [] (on_assignment line s)).
    { eapply harmless_ordered; [|exact O]. unfold on_assignment, store_variable.
      repeat case_match; try apply harmless_refl. by apply harmless_same. }
    unfold on_initialized. case_match; [|done].
    unfold start_initialized. apply queueCommand_ordered.
    eapply harmless_ordered; [|exact O']. by apply harmless_same.
  - destruct (debugProcess s); [|done].
    eapply harmless_ordered; [|exact O]. by apply harmless_same.
  - destruct (debugProcess s) as [p|] eqn:Ep; [|done].
    eapply harmless_ordered; [|exact O].
    constructor; java_fields; auto.
    + unfold queue_writes. java_fields. by rewrite Ep.
    + exists []. by rewrite app_nil_r.
  - unfold setBreakpoint. case_match.
    + eapply harmless_ordered; [|exact O]. by apply harmless_same.
    + by apply queueCommand_ordered.
  - by apply queueCommand_ordered.
  - by apply queueCommand_ordered.
  - by apply queueCommand_ordered.
  - eapply harmless_ordered; [|exact O]. apply finish_harmless. intros s0.
    unfold bind, ret. pose proof (stop_harmless s0) as H.
    by destruct (stop s0) as [[] s1].
  - by apply tick_ordered.
Qed.

Lemma run_ordered l : forall s,
  Forall (fun i => benign i = true) l -> ordered [] s -> ordered [] (run s l).
Proof.
  unfold run. induction l as [|i l IH]; intros s Hb O; cbn [fold_left]; [done|].
  inversion Hb; subst. apply IH; [done|]. by apply step_ordered.
Qed.

Lemma new_ordered raises : ordered [] (new raises).
Proof.
  constructor; cbn; auto.
  apply spaced_nil.
Qed.

End Ordering.

(** C1, as stated, fails: with [cont] in flight and [next] queued behind
    it, an error line read 10 ms after [cont] was written clears the flag
    and [next] is written at once, 10 ms after [cont]. *)
Lemma settle_window_cut_short :
  queue_writes (Java.run (Java.new false) early_dispatch) = [0; 700; 1500; 1510]
  /\ ~ settle_window_respected.
Proof.
  assert (E : queue_writes (Java.run (Java.new false) early_dispatch) = [0; 700; 1500; 1510])
    by (vm_compute; reflexivity).
  split; [exact E|].
  intros H. specialize (H early_dispatch). rewrite E in H.
  assert (C : 1500 + 600 <= 1510) by (apply (H 2%nat 3%nat); [lia|reflexivity|reflexivity]).
  lia.
Qed.

(** C1, amended. REPL adapter: [_processNextCommand] dispatches nothing
    while the in-flight flag is set.  As long as the debugger prints no
    landing line ([Breakpoint hit:], [Step completed:]), no exit marker
    and no error marker, any two commands taken from the queue are written
    to the process at least 700 ms apart: 100 ms after the write, 500 ms of
    settle delay, and 100 ms more before the flag is cleared and the next
    command dispatched.  (An exit or error marker clears the flag and
    dispatches at once; a landing line clears it when its variable refresh
    ends.) *)
Theorem queued_commands_wait_for_settle (raises : bool) (l : list Java.input) :
  Forall (fun i => benign i = true) l ->
  spaced 700 (queue_writes (Java.run (Java.new raises) l))
  /\ forall s : Java.state,
       Java.processingCommand s = true -> Java._processNextCommand s = s.
Proof.
  intros Hb. split.
  - apply (o_spaced []). apply run_ordered; [exact Hb|apply new_ordered].
  - intros s Hf. unfold Java._processNextCommand. rewrite Hf. by destruct (Java.commandQueue s).
Qed.

Lemma queued_commands_wait_for_settle_witness :
  spaced 700
    (queue_writes
       (Java.run (Java.new false)
          (java_session ++ [Java.CallSetBreakpoint 3; Java.CallSetBreakpoint 5;
                            Java.Line "Set breakpoint Main:3"] ++ Java.ticks 2000))).
Proof.
  refine (proj1 (queued_commands_wait_for_settle false _ _)).
  apply benign_all. vm_compute. reflexivity.
Defined.

(** * Further properties of the message-protocol adapter *)

Section NodeRequests.
Import Node.

Lemma sendMessage_disconnected method args k s :
  connected s = false ->
  _sendMessage method args k s = reject k "Not connected to debugger" s.
Proof. intros Hc. unfold _sendMessage. by rewrite Hc. Qed.

Lemma finish_complete op r (m : M state (option bool)) s :
  m s = (r, s) -> finish op m s = complete op r s.
Proof. intros Hm. unfold finish. by rewrite Hm. Qed.

(** What a failed [setBreakpoint] leaves: the result false. *)
Lemma setBreakpoint_rest_thrown line e s :
  setBreakpoint_rest line (Thrown e) s = (Ok (Some false), s).
Proof. reflexivity. Qed.

Lemma resume_rest_thrown e s : resume_rest (Thrown e) s = (Ok (Some false), s).
Proof. reflexivity. Qed.

Lemma requested_answered method args k c s msg :
  0 < messageId s -> msg_id msg = Some (messageId s) ->
  step (requested method args k c s) (WsMessage (Some msg)) =
    let s1 := set_pendingRequests
                (delete (messageId s) (pendingRequests (requested method args k c s)))
                (requested method args k c s) in
    match msg_error msg with
    | Some err => reject k err s1
    | None => resolve k msg s1
    end.
Proof.
  intros Hi Hm. apply (message_answers msg (messageId s) k); auto.
  - lia.
  - unfold requested, schedule. node_fields. apply lookup_insert_eq.
Qed.

End NodeRequests.

(** X1. Message-protocol adapter: while the adapter is not connected
    (before the connection opens, or after it has closed) [continue],
    [stepOver], [stepInto], and [setBreakpoint] on a line without
    breakpoint, return false at once; no id is consumed, nothing is sent,
    no timeout is scheduled and no breakpoint recorded: the adapter is
    left as it was, apart from the returned result. *)
Theorem disconnected_operations_return_false (s : Node.state) (line : Z) :
  Node.connected s = false ->
  (Node.breakpoints s !! line = None ->
   Node.step s (Node.CallSetBreakpoint line) =
     Node.complete (Node.OpSetBreakpoint line) (Ok (Some false)) s)
  /\ Node.step s Node.CallContinue = Node.complete Node.OpContinue (Ok (Some false)) s
  /\ Node.step s Node.CallStepOver = Node.complete Node.OpStepOver (Ok (Some false)) s
  /\ Node.step s Node.CallStepInto = Node.complete Node.OpStepInto (Ok (Some false)) s.
Proof.
  intros Hc. repeat split.
  - intros Hb. cbn [Node.step]. unfold Node.setBreakpoint. rewrite Hb.
    by rewrite sendMessage_disconnected.
  - cbn [Node.step]. unfold Node.continue. by rewrite sendMessage_disconnected.
  - cbn [Node.step]. unfold Node.stepOver. by rewrite sendMessage_disconnected.
  - cbn [Node.step]. unfold Node.stepInto. by rewrite sendMessage_disconnected.
Qed.

Lemma disconnected_operations_return_false_witness :
  Node.step (Node.new false) (Node.CallSetBreakpoint 3) =
    Node.complete (Node.OpSetBreakpoint 3) (Ok (Some false)) (Node.new false).
Proof.
  refine (proj1 (disconnected_operations_return_false (Node.new false) 3 _) _);
    reflexivity.
Defined.

(** X2. Message-protocol adapter: a [setBreakpoint(line)] that the
    inspector rejects, or answers without a result, returns false and
    records no breakpoint for the line; a later [setBreakpoint(line)]
    therefore sends a new request, under the next id. *)
Theorem rejected_breakpoint_is_not_recorded (s : Node.state) (c : Node.socket)
    (line : Z) (e : string) :
  Node.breakpoints s !! line = None ->
  Node.connected s = true -> Node.debuggerClient s = Some c -> Node.ready c = Node.OPEN ->
  0 < Node.messageId s ->
  let i := Node.messageId s in
  (let s2 := Node.run s [Node.CallSetBreakpoint line; error_reply i e] in
   Node.completed s2 = Node.completed s ++ [(Node.OpSetBreakpoint line, Ok (Some false))]
   /\ Node.breakpoints s2 = Node.breakpoints s
   /\ node_requests (Node.step s2 (Node.CallSetBreakpoint line)) =
        node_requests s ++ [breakpoint_request i line; breakpoint_request (i + 1) line])
  /\ (let s2 := Node.run s [Node.CallSetBreakpoint line; reply i Node.NoResult] in
      Node.completed s2 = Node.completed s ++ [(Node.OpSetBreakpoint line, Ok (Some false))]
      /\ Node.breakpoints s2 = Node.breakpoints s
      /\ node_requests (Node.step s2 (Node.CallSetBreakpoint line)) =
           node_requests s ++ [breakpoint_request i line; breakpoint_request (i + 1) line]).
Proof.
  intros Hb Hc Hs Ho Hi. cbn zeta.
  assert (E1 : Node.step s (Node.CallSetBreakpoint line) =
               requested "Debugger.setBreakpointByUrl"
                 (Node.BreakpointByUrlArgs (line - 1) ".*" 0) (Node.AwaitSetBreakpoint line) c s).
  { cbn [Node.step]. unfold Node.setBreakpoint. rewrite Hb.
    by apply sendMessage_connected. }
  unfold Node.run. cbn [fold_left]. rewrite E1.
  unfold error_reply, reply.
  rewrite !requested_answered by (auto; reflexivity).
  cbn [Node.msg_error error_message Node.reject Node.resolve].
  unfold Node.finish.
  cbn [Node.setBreakpoint_rest Js.try_catch Js.bind Js.await Js.throw Js.ret Node.msg_result].
  unfold Node.setBreakpoint_rest, Js.try_catch, Js.bind, Js.await, Js.throw, Js.ret.
  cbn [Node.msg_result].
  set (s1 := Node.set_pendingRequests _ _).
  assert (Hb1 : Node.breakpoints (Node.complete (Node.OpSetBreakpoint line) (Ok (Some false)) s1)
                !! line = None) by exact Hb.
  assert (E3 : Node.step (Node.complete (Node.OpSetBreakpoint line) (Ok (Some false)) s1)
                 (Node.CallSetBreakpoint line) =
               requested "Debugger.setBreakpointByUrl"
                 (Node.BreakpointByUrlArgs (line - 1) ".*" 0) (Node.AwaitSetBreakpoint line)
                 {| Node.url := Node.url c; Node.ready := Node.OPEN;
                    Node.sent := Node.sent c ++ [breakpoint_request (Node.messageId s) line] |}
                 (Node.complete (Node.OpSetBreakpoint line) (Ok (Some false)) s1)).
  { cbn [Node.step]. unfold Node.setBreakpoint. rewrite Hb1.
    apply sendMessage_connected; [exact Hc|reflexivity|reflexivity]. }
  rewrite E3.
  repeat split; try reflexivity.
  all: unfold node_requests, requested, Node.schedule; node_fields; rewrite Hs;
    rewrite <- app_assoc; reflexivity.
Qed.

Lemma rejected_breakpoint_is_not_recorded_witness :
  let s := Node.run (Node.new false) connected_session in
  let s2 := Node.run s [Node.CallSetBreakpoint 7; error_reply 5 "No script"] in
  Node.completed s2 = Node.completed s ++ [(Node.OpSetBreakpoint 7, Ok (Some false))]
  /\ Node.breakpoints s2 = Node.breakpoints s
  /\ node_requests (Node.step s2 (Node.CallSetBreakpoint 7)) =
       node_requests s ++ [breakpoint_request 5 7; breakpoint_request (5 + 1) 7].
Proof.
  intros s s2.
  refine (proj1 (rejected_breakpoint_is_not_recorded s open_socket 7 "No script" _ _ _ _ _)).
  - vm_compute. reflexivity.
  - vm_compute. reflexivity.
  - vm_compute. reflexivity.
  - reflexivity.
  - vm_compute. reflexivity.
Defined.

(** * Replies, timeouts and the handshake of the message-protocol adapter *)

Section NodeReplies.
Import Node.

(** A message without method whose id is not pending changes nothing. *)
Lemma unmatched_message_ignored msg s :
  msg_method msg = None ->
  (forall i, msg_id msg = Some i -> pendingRequests s !! i = None) ->
  step s (WsMessage (Some msg)) = s.
Proof.
  intros Hm Hp. cbn [step]. destruct (debuggerClient s); [|done].
  unfold _handleMessage, answered.
  destruct (msg_id msg) as [i|]; [|by rewrite Hm].
  rewrite (Hp i eq_refl). destruct (Z.eqb i 0); by rewrite Hm.
Qed.

Lemma timeout_clears_entry i m s :
  pendingRequests (fire (RequestTimeout i m) s) !! i = None.
Proof.
  cbn [fire]. destruct (pendingRequests s !! i) as [k|] eqn:E; [|done].
  destruct (reject_same_table k ("Request timed out: " +:+ m)
              (set_pendingRequests (delete i (pendingRequests s)) s)) as [_ ->].
  node_fields. apply lookup_delete_eq.
Qed.

Lemma node_set_clock_same s : set_clock (clock s) s = s.
Proof. by destruct s. Qed.

(** While the only pending timer is not due, a tick only advances the
    clock. *)
Lemma node_idle_ticks d t : forall (n : nat) s,
  timers s = [(d, t)] -> clock s + Z.of_nat n < d ->
  run s (ticks n) = set_clock (clock s + Z.of_nat n) s.
Proof.
  unfold run. induction n as [|n IH]; intros s Ht Hc.
  - simpl. rewrite Z.add_0_r. by rewrite node_set_clock_same.
  - cbn [ticks repeat fold_left step].
    assert (Htick : tick s = set_clock (clock s + 1) s).
    { unfold tick. rewrite Ht. simpl. unfold due. simpl.
      destruct (Z.leb_spec d (clock s + 1)); [lia|]. simpl.
      destruct s; simpl in *; by subst. }
    rewrite Htick. fold (ticks n). rewrite IH.
    + rewrite Nat2Z.inj_succ. destruct s; unfold set_clock; simpl; f_equal; lia.
    + exact Ht.
    + simpl. lia.
Qed.

Lemma node_firing_tick d t s :
  timers s = [(d, t)] -> clock s + 1 = d ->
  tick s = fire t (set_timers [] (set_clock d s)).
Proof.
  intros Ht Hc. unfold tick. rewrite Ht, Hc. simpl. unfold due. simpl.
  rewrite Z.leb_refl. reflexivity.
Qed.

(** A lone timer fires after as many ticks as it lies ahead. *)
Lemma node_wait (delay : nat) t s :
  timers s = [(clock s + Z.of_nat (S delay), t)] ->
  run s (ticks (S delay)) =
    fire t (set_timers [] (set_clock (clock s + Z.of_nat (S delay)) s)).
Proof.
  intros Ht. unfold ticks.
  replace (S delay) with (delay + 1)%nat at 1 by lia.
  rewrite repeat_app. unfold run. rewrite fold_left_app.
  pose proof (node_idle_ticks _ _ delay s Ht) as Hi. unfold run, ticks in Hi.
  rewrite Hi by lia. cbn [repeat fold_left step].
  erewrite node_firing_tick; [|exact Ht|simpl; lia]. by destruct s.
Qed.

Lemma control_requested i op k method args c s :
  control i = Some (op, k, method, args) -> sends_request s i ->
  connected s = true -> debuggerClient s = Some c -> ready c = OPEN ->
  step s i = requested method args k c s.
Proof.
  intros Hi Hs Hc Hd Ho.
  destruct i; try discriminate; cbn in Hi; simplify_eq; cbn [step].
  - cbn in Hs. unfold setBreakpoint. rewrite Hs. by apply sendMessage_connected.
  - by apply sendMessage_connected.
  - by apply sendMessage_connected.
  - by apply sendMessage_connected.
Qed.

Lemma control_rejected i op k method args err s :
  control i = Some (op, k, method, args) ->
  reject k err s = complete op (Ok (Some false)) s.
Proof.
  intros Hi. destruct i; try discriminate; cbn in Hi; simplify_eq; reflexivity.
Qed.

End NodeReplies.

(** X3. Message-protocol adapter: a reply that arrives after the timeout
    of its request has fired is dropped, and so is a second reply to a
    request that was answered already: the adapter is left exactly as it
    was (no promise is settled twice, no operation completes again). *)
Theorem late_and_duplicate_replies_are_dropped :
  (forall (i : Z) (method : string) (msg : Node.message) (s : Node.state),
      Node.msg_id msg = Some i -> Node.msg_method msg = None ->
      let s1 := Node.fire (Node.RequestTimeout i method) s in
      Node.step s1 (Node.WsMessage (Some msg)) = s1)
  /\ (forall (i : Z) (k : Node.cont) (msg again : Node.message) (s : Node.state),
      Node.debuggerClient s <> None -> fresh s ->
      Node.pendingRequests s !! i = Some k ->
      Node.msg_id msg = Some i -> Node.msg_id again = Some i ->
      Node.msg_method again = None ->
      let s1 := Node.step s (Node.WsMessage (Some msg)) in
      Node.step s1 (Node.WsMessage (Some again)) = s1).
Proof.
  split.
  - intros i method msg s Hi Hm. cbn zeta.
    apply unmatched_message_ignored; [exact Hm|].
    intros j Hj. rewrite Hi in Hj. injection Hj as <-. apply timeout_clears_entry.
  - intros i k msg again s Hd Hf Hp Hi Ha Hm. cbn zeta.
    apply unmatched_message_ignored; [exact Hm|].
    intros j Hj. rewrite Ha in Hj. injection Hj as <-.
    pose proof (proj2 Hf _ _ Hp) as Hrange.
    rewrite (message_answers msg i k) by (auto; lia). cbn zeta. fold (settle k msg).
    set (s0 := Node.set_pendingRequests (delete i (Node.pendingRequests s)) s).
    pose proof (settle_grows k msg s0) as [G1 G2 G3].
    rewrite G2 by (subst s0; node_fields; lia).
    subst s0. node_fields. apply lookup_delete_eq.
Qed.

Lemma late_and_duplicate_replies_are_dropped_witness :
  let s := Node.run (Node.new false) (connected_session ++ [Node.CallContinue]) in
  let s1 := Node.step s (Node.WsMessage (Some (ok_message 5))) in
  Node.step s1 (Node.WsMessage (Some (ok_message 5))) = s1.
Proof.
  intros s s1.
  refine (proj2 late_and_duplicate_replies_are_dropped 5 Node.AwaitResume
            (ok_message 5) (ok_message 5) s _ _ _ _ _ _).
  - vm_compute. discriminate.
  - apply run_fresh, new_fresh.
  - vm_compute. reflexivity.
  - reflexivity.
  - reflexivity.
  - reflexivity.
Defined.

(** X4. Message-protocol adapter: no request hangs.  When the adapter is
    connected and no other timer is pending, a [continue], [stepOver],
    [stepInto] or [setBreakpoint] (on a line without breakpoint) that the
    inspector never answers stays pending for 5000 ms, completing
    nothing before, and then returns false; the pending entry is removed,
    no breakpoint is recorded and no timer is left. *)
Theorem unanswered_request_times_out (s : Node.state) (c : Node.socket) (i : Node.input)
    (op : Node.operation) (k : Node.cont) (method : string) (args : Node.arguments) :
  control i = Some (op, k, method, args) -> sends_request s i ->
  Node.connected s = true -> Node.debuggerClient s = Some c -> Node.ready c = Node.OPEN ->
  Node.timers s = [] ->
  (forall n : nat, (n < 5000)%nat ->
     Node.completed (Node.run s (i :: Node.ticks n)) = Node.completed s
     /\ Node.pendingRequests (Node.run s (i :: Node.ticks n)) !! Node.messageId s = Some k)
  /\ (let s' := Node.run s (i :: Node.ticks 5000) in
      Node.completed s' = Node.completed s ++ [(op, Ok (Some false))]
      /\ Node.pendingRequests s' !! Node.messageId s = None
      /\ Node.breakpoints s' = Node.breakpoints s
      /\ Node.timers s' = []
      /\ Node.clock s' = Node.clock s + 5000).
Proof.
  intros Hi Hs Hc Hd Ho Ht.
  assert (E : forall l, Node.run s (i :: l) = Node.run (requested method args k c s) l).
  { intros l. unfold Node.run. cbn [fold_left].
    by rewrite (control_requested i op k method args c s). }
  assert (Htm : Node.timers (requested method args k c s) =
                [(Node.clock (requested method args k c s) + Z.of_nat (S 4999),
                  Node.RequestTimeout (Node.messageId s) method)]).
  { unfold requested, Node.schedule. node_fields. rewrite Ht. reflexivity. }
  split.
  - intros n Hn. rewrite E.
    rewrite (node_idle_ticks _ _ n _ Htm) by lia.
    unfold requested, Node.schedule. node_fields. split; [done|apply lookup_insert_eq].
  - cbn zeta. rewrite E. rewrite (node_wait 4999 _ _ Htm).
    cbn [Node.fire].
    replace (Node.pendingRequests (Node.set_timers [] _) !! Node.messageId s)
      with (Some k)
      by (unfold requested, Node.schedule; node_fields; by rewrite lookup_insert_eq).
    rewrite (control_rejected i op k method args) by exact Hi.
    unfold Node.complete, requested, Node.schedule. node_fields.
    repeat split; try done. apply lookup_delete_eq.
Qed.

Lemma unanswered_request_times_out_witness :
  let s := Node.run (Node.new false) (connected_session ++ Node.ticks 5000) in
  let s' := Node.run s (Node.CallStepOver :: Node.ticks 5000) in
  Node.completed s' = Node.completed s ++ [(Node.OpStepOver, Ok (Some false))].
Proof.
  intros s s'.
  refine (proj1 (proj2 (unanswered_request_times_out s open_socket Node.CallStepOver
                          Node.OpStepOver Node.AwaitStepOver "Debugger.stepOver"
                          Node.NoArguments _ _ _ _ _ _))).
  - reflexivity.
  - exact I.
  - vm_compute. reflexivity.
  - vm_compute. reflexivity.
  - reflexivity.
  - vm_compute. reflexivity.
Defined.

(** * The handshake of the message-protocol adapter *)

Section NodeHandshake.
Import Node.

Lemma requested_accepted method args k c s i :
  i = messageId s -> 0 < i ->
  step (requested method args k c s) (ok_reply i) =
    resolve k (ok_message i) (acknowledged method args k c s).
Proof. intros -> Hi. unfold ok_reply. by rewrite requested_answered. Qed.

Lemma requested_refused method args k c s i e :
  i = messageId s -> 0 < i ->
  step (requested method args k c s) (error_reply i e) =
    reject k e (acknowledged method args k c s).
Proof. intros -> Hi. unfold error_reply. by rewrite requested_answered. Qed.

Lemma requested_unanswerable method args k c s i :
  i = messageId s -> 0 < i ->
  step (requested method args k c s) (reply i NoResult) =
    resolve k {| msg_id := Some i; msg_method := None; msg_error := None;
                 msg_result := NoResult; msg_params := NoParams |}
      (acknowledged method args k c s).
Proof. intros -> Hi. unfold reply. by rewrite requested_answered. Qed.

(** One request and its reply. *)
Lemma round s0 u snt m method args k s :
  between s0 u snt m s -> 0 < m ->
  let rq := {| req_id := m; req_method := method; req_params := args |} in
  completed (_sendMessage method args k s) = completed s0
  /\ node_requests (_sendMessage method args k s) = snt ++ [rq]
  /\ exists s',
      between s0 u (snt ++ [rq]) (m + 1) s'
      /\ forall msg, msg_id msg = Some m ->
           step (_sendMessage method args k s) (WsMessage (Some msg)) =
             match msg_error msg with
             | Some err => reject k err s'
             | None => resolve k msg s'
             end.
Proof.
  intros [] Hm. cbn zeta.
  rewrite (sendMessage_connected _ _ _ _ _ bt_connected0 bt_client0 eq_refl).
  split; [|split].
  - unfold requested, schedule. node_fields. done.
  - unfold node_requests, requested, schedule. node_fields. by rewrite bt_id0.
  - exists (acknowledged method args k {| url := u; ready := OPEN; sent := snt |} s).
    split.
    + unfold acknowledged, requested, schedule.
      constructor; node_fields; try done; rewrite ?bt_id0; done.
    + intros msg Hi. rewrite <- bt_id0 in Hi, Hm.
      by rewrite requested_answered.
Qed.

(** The ['open'] event of a connecting client. *)
Lemma opened s c :
  debuggerClient s = Some c -> ready c = CONNECTING ->
  let s0 := set_connected true
              (set_debuggerClient (Some {| url := url c; ready := OPEN; sent := sent c |}) s) in
  step s WsOpen = _sendMessage "Runtime.enable" NoArguments AwaitRuntimeEnable s0
  /\ between s (url c) (sent c) (messageId s) s0.
Proof.
  intros Hd Hr. cbn zeta. split.
  - cbn [step]. rewrite Hd, Hr. unfold on_open, set_ready. by rewrite Hd.
  - by constructor.
Qed.

(** The failure of [start()]: the error is raised after [stop()]. *)
Lemma connect_reject_fails e s :
  connecting s = true ->
  let s' := connect_reject e s in
  completed s' = completed s ++ [(OpStart, Thrown e)]
  /\ connecting s' = false
  /\ node_process_gone s'
  /\ (connected s = true -> node_connection_closed s')
  /\ node_requests s' = node_requests s.
Proof.
  intros Hc. cbn zeta. unfold connect_reject. rewrite Hc. unfold finish.
  rewrite node_start_catch_spec. unfold complete.
  pose proof (node_stop_closes (set_connecting false s)) as (H1 & H2 & H3).
  pose proof (node_stop_completed (set_connecting false s)) as H4.
  assert (H5 : connecting (snd (stop (set_connecting false s))) = false
               /\ node_requests (snd (stop (set_connecting false s))) = node_requests s).
  { destruct s as [r c t sp [[[]]|] [[u [] se]|] cg po h v b cl ir sc [] mi pr em co];
      destruct r; split; reflexivity. }
  destruct H5 as [H5 H6].
  cbn zeta in *. unfold node_requests in *. node_fields. rewrite H4. repeat split; auto.
Qed.

End NodeHandshake.

(** X5. Message-protocol adapter, [start()]: once the connection opens
    the adapter sends [Runtime.enable], [Debugger.enable],
    [Runtime.getIsolateId] and [Debugger.getScriptSource] for script
    ["1"], one at a time under consecutive ids, each only after the
    previous one was answered; [start()] returns true when the fourth is
    answered and not before, with the script id set to ["1"].  The
    running flag is not touched. *)
Theorem handshake_completes_start (s : Node.state) (c : Node.socket) :
  Node.debuggerClient s = Some c -> Node.ready c = Node.CONNECTING ->
  Node.connecting s = true -> 0 < Node.messageId s ->
  let m := Node.messageId s in
  (forall n : nat, (n < 4)%nat ->
     let s' := Node.run s (Node.WsOpen :: accepted m n) in
     Node.completed s' = Node.completed s
     /\ node_requests s' = Node.sent c ++ take (S n) (handshake_requests m))
  /\ (let s' := Node.run s (Node.WsOpen :: accepted m 4) in
      Node.completed s' = Node.completed s ++ [(Node.OpStart, Ok (Some true))]
      /\ node_requests s' = Node.sent c ++ handshake_requests m
      /\ Node.scriptId s' = Some "1"
      /\ Node.connected s' = true /\ Node.connecting s' = false
      /\ Node.isRunning s' = Node.isRunning s).
Proof.
  intros Hd Hr Hc Hi. cbn zeta.
  pose proof (opened s c Hd Hr) as [Ho Hb0].
  remember (Node.messageId s) as m eqn:Em.
  assert (E : forall l, Node.run s (Node.WsOpen :: l) =
                        Node.run (Node.step s Node.WsOpen) l) by reflexivity.
  setoid_rewrite E. rewrite Ho. clear E Ho.
  set (s0 := Node.set_connected _ _) in *. clearbody s0.
  destruct (round s c.(Node.url) _ _ "Runtime.enable" Node.NoArguments
              Node.AwaitRuntimeEnable s0 Hb0 Hi) as (C0 & R0 & s1 & Hb1 & A0).
  destruct (round s c.(Node.url) _ _ "Debugger.enable" Node.NoArguments
              Node.AwaitDebuggerEnable s1 Hb1 ltac:(lia)) as (C1 & R1 & s2 & Hb2 & A1).
  destruct (round s c.(Node.url) _ _ "Runtime.getIsolateId" Node.NoArguments
              Node.AwaitIsolateId s2 Hb2 ltac:(lia)) as (C2 & R2 & s3 & Hb3 & A2).
  replace (m + 1 + 1) with (m + 2) in * by lia.
  destruct (round s c.(Node.url) _ _ "Debugger.getScriptSource" (Node.ScriptSourceArgs "1")
              Node.AwaitScriptSource s3 Hb3 ltac:(lia)) as (C3 & R3 & s4 & Hb4 & A3).
  replace (m + 2 + 1) with (m + 3) in * by lia.
  assert (F1 : Node.run (Node._sendMessage "Runtime.enable" Node.NoArguments
                           Node.AwaitRuntimeEnable s0) (accepted m 1) =
               Node._sendMessage "Debugger.enable" Node.NoArguments
                 Node.AwaitDebuggerEnable s1).
  { unfold accepted, Node.run. cbn [seq map fold_left Z.of_nat]. rewrite Z.add_0_r.
    unfold ok_reply. by rewrite A0. }
  assert (F2 : Node.run (Node._sendMessage "Runtime.enable" Node.NoArguments
                           Node.AwaitRuntimeEnable s0) (accepted m 2) =
               Node._sendMessage "Runtime.getIsolateId" Node.NoArguments
                 Node.AwaitIsolateId s2).
  { change (accepted m 2) with (accepted m 1 ++ [ok_reply (m + 1)]).
    unfold Node.run in *. rewrite fold_left_app, F1. cbn [fold_left].
    unfold ok_reply. by rewrite A1. }
  assert (F3 : Node.run (Node._sendMessage "Runtime.enable" Node.NoArguments
                           Node.AwaitRuntimeEnable s0) (accepted m 3) =
               Node._sendMessage "Debugger.getScriptSource" (Node.ScriptSourceArgs "1")
                 Node.AwaitScriptSource s3).
  { change (accepted m 3) with (accepted m 2 ++ [ok_reply (m + 2)]).
    unfold Node.run in *. rewrite fold_left_app, F2. cbn [fold_left].
    unfold ok_reply. by rewrite A2. }
  split.
  - intros n Hn. destruct n as [|[|[|[|n]]]]; [| | | |lia].
    + unfold accepted. cbn [seq map Node.run fold_left]. by split.
    + rewrite F1. split; [done|]. rewrite R1, <- app_assoc. done.
    + rewrite F2. split; [done|]. rewrite R2, <- !app_assoc.
      unfold handshake_requests, plain. cbn [take app]. repeat f_equal; lia.
    + rewrite F3. split; [done|]. rewrite R3, <- !app_assoc.
      unfold handshake_requests, plain. cbn [take app]. repeat f_equal; lia.
  - change (accepted m 4) with (accepted m 3 ++ [ok_reply (m + 3)]).
    unfold Node.run in *. rewrite fold_left_app, F3. cbn [fold_left].
    unfold ok_reply. rewrite A3 by reflexivity.
    cbn [Node.msg_error ok_message Node.resolve].
    destruct Hb4. unfold Node.connect_resolve. node_fields.
    rewrite bt_connecting0, Hc. unfold Node.finish, Js.ret, Node.complete, node_requests.
    node_fields. rewrite bt_completed0, bt_client0, bt_connected0, bt_isRunning0.
    repeat split; try done. rewrite <- !app_assoc.
    unfold handshake_requests, plain. cbn [app]. repeat f_equal; lia.
Qed.

Lemma handshake_completes_start_witness :
  let s := Node.run (Node.new false) (Node.CallStart "/tmp/a.js" :: Node.ticks 1000) in
  let s' := Node.run s (Node.WsOpen :: accepted 1 4) in
  Node.completed s' = Node.completed s ++ [(Node.OpStart, Ok (Some true))]
  /\ node_requests s' = [] ++ handshake_requests 1.
Proof.
  intros s s'.
  pose proof (proj2 (handshake_completes_start s
                       {| Node.url := "ws://localhost:9229/ws"; Node.ready := Node.CONNECTING;
                          Node.sent := [] |}
                       ltac:(vm_compute; reflexivity) eq_refl
                       ltac:(vm_compute; reflexivity) ltac:(vm_compute; reflexivity)))
    as (H1 & H2 & _).
  split; [exact H1|exact H2].
Defined.

(** X6. Message-protocol adapter, [start()]: when the inspector rejects
    one of the four requests of the handshake, [start()] fails with the
    error message of that reply, after [stop()]: the process is killed
    and the connection no longer open; no further request of the
    handshake is sent.  The same happens, with a type error, when the
    reply to [Runtime.getIsolateId] carries no result. *)
Theorem handshake_failure_fails_start (s : Node.state) (c : Node.socket) (n : nat)
    (e : string) :
  Node.debuggerClient s = Some c -> Node.ready c = Node.CONNECTING ->
  Node.connecting s = true -> 0 < Node.messageId s -> (n < 4)%nat ->
  let m := Node.messageId s in
  (let s' := Node.run s (Node.WsOpen :: accepted m n ++ [error_reply (m + Z.of_nat n) e]) in
   Node.completed s' = Node.completed s ++ [(Node.OpStart, Thrown e)]
   /\ node_process_gone s' /\ node_connection_closed s' /\ Node.connecting s' = false
   /\ node_requests s' = Node.sent c ++ take (S n) (handshake_requests m))
  /\ (let s' := Node.run s (Node.WsOpen :: accepted m 2 ++ [reply (m + 2) Node.NoResult]) in
      Node.completed s' = Node.completed s ++
        [(Node.OpStart, Thrown "TypeError: Cannot read properties of undefined")]
      /\ node_process_gone s' /\ node_connection_closed s' /\ Node.connecting s' = false
      /\ node_requests s' = Node.sent c ++ take 3 (handshake_requests m)).
Proof.
  intros Hd Hr Hc Hi Hn. cbn zeta.
  pose proof (opened s c Hd Hr) as [Ho Hb0].
  remember (Node.messageId s) as m eqn:Em.
  assert (E : forall l, Node.run s (Node.WsOpen :: l) =
                        Node.run (Node.step s Node.WsOpen) l) by reflexivity.
  setoid_rewrite E. rewrite Ho. clear E Ho.
  set (s0 := Node.set_connected _ _) in *. clearbody s0.
  destruct (round s c.(Node.url) _ _ "Runtime.enable" Node.NoArguments
              Node.AwaitRuntimeEnable s0 Hb0 Hi) as (C0 & R0 & s1 & Hb1 & A0).
  destruct (round s c.(Node.url) _ _ "Debugger.enable" Node.NoArguments
              Node.AwaitDebuggerEnable s1 Hb1 ltac:(lia)) as (C1 & R1 & s2 & Hb2 & A1).
  destruct (round s c.(Node.url) _ _ "Runtime.getIsolateId" Node.NoArguments
              Node.AwaitIsolateId s2 Hb2 ltac:(lia)) as (C2 & R2 & s3 & Hb3 & A2).
  replace (m + 1 + 1) with (m + 2) in * by lia.
  destruct (round s c.(Node.url) _ _ "Debugger.getScriptSource" (Node.ScriptSourceArgs "1")
              Node.AwaitScriptSource s3 Hb3 ltac:(lia)) as (C3 & R3 & s4 & Hb4 & A3).
  replace (m + 2 + 1) with (m + 3) in * by lia.
  assert (F1 : Node.run (Node._sendMessage "Runtime.enable" Node.NoArguments
                           Node.AwaitRuntimeEnable s0) (accepted m 1) =
               Node._sendMessage "Debugger.enable" Node.NoArguments
                 Node.AwaitDebuggerEnable s1).
  { unfold accepted, Node.run. cbn [seq map fold_left Z.of_nat]. rewrite Z.add_0_r.
    unfold ok_reply. by rewrite A0. }
  assert (F2 : Node.run (Node._sendMessage "Runtime.enable" Node.NoArguments
                           Node.AwaitRuntimeEnable s0) (accepted m 2) =
               Node._sendMessage "Runtime.getIsolateId" Node.NoArguments
                 Node.AwaitIsolateId s2).
  { change (accepted m 2) with (accepted m 1 ++ [ok_reply (m + 1)]).
    unfold Node.run in *. rewrite fold_left_app, F1. cbn [fold_left].
    unfold ok_reply. by rewrite A1. }
  assert (F3 : Node.run (Node._sendMessage "Runtime.enable" Node.NoArguments
                           Node.AwaitRuntimeEnable s0) (accepted m 3) =
               Node._sendMessage "Debugger.getScriptSource" (Node.ScriptSourceArgs "1")
                 Node.AwaitScriptSource s3).
  { change (accepted m 3) with (accepted m 2 ++ [ok_reply (m + 2)]).
    unfold Node.run in *. rewrite fold_left_app, F2. cbn [fold_left].
    unfold ok_reply. by rewrite A2. }
  assert (Fail : forall k err sk snt mk,
            List.In k [Node.AwaitRuntimeEnable; Node.AwaitDebuggerEnable;
                       Node.AwaitIsolateId; Node.AwaitScriptSource] ->
            between s (Node.url c) snt mk sk ->
            let s' := Node.reject k err sk in
            Node.completed s' = Node.completed s ++ [(Node.OpStart, Thrown err)]
            /\ node_process_gone s' /\ node_connection_closed s'
            /\ Node.connecting s' = false /\ node_requests s' = snt).
  { intros k err sk snt mk Hk [] . cbn zeta.
    assert (Hr' : Node.reject k err sk = Node.connect_reject err sk).
    { cbn in Hk. destruct Hk as [<-|[<-|[<-|[<-|[]]]]]; reflexivity. }
    rewrite Hr'.
    destruct (connect_reject_fails err sk) as (G1 & G2 & G3 & G4 & G5);
      [by rewrite bt_connecting0|].
    rewrite G1, G5, bt_completed0. unfold node_requests. rewrite bt_client0.
    repeat split; auto. }
  split.
  - destruct n as [|[|[|[|n]]]]; [| | | |lia];
      cbn [Z.of_nat Pos.of_succ_nat Pos.succ]; rewrite ?Z.add_0_r.
    + unfold accepted, Node.run. cbn [seq map app fold_left].
      unfold error_reply. rewrite A0 by reflexivity. cbn [Node.msg_error error_message].
      apply (Fail _ _ _ _ _ ltac:(cbn; tauto) Hb1).
    + unfold Node.run in *. rewrite fold_left_app, F1. cbn [fold_left].
      unfold error_reply. rewrite A1 by reflexivity. cbn [Node.msg_error error_message].
      destruct (Fail Node.AwaitDebuggerEnable e _ _ _ ltac:(cbn; tauto) Hb2)
        as (G1 & G2 & G3 & G4 & G5).
      rewrite G5, <- app_assoc. done.
    + unfold Node.run in *. rewrite fold_left_app, F2. cbn [fold_left].
      unfold error_reply. rewrite A2 by reflexivity. cbn [Node.msg_error error_message].
      destruct (Fail Node.AwaitIsolateId e _ _ _ ltac:(cbn; tauto) Hb3)
        as (G1 & G2 & G3 & G4 & G5).
      rewrite G5, <- !app_assoc. repeat split; auto;
        try (unfold handshake_requests, plain; cbn [take app]; repeat f_equal; lia).
    + unfold Node.run in *. rewrite fold_left_app, F3. cbn [fold_left].
      unfold error_reply. rewrite A3 by reflexivity. cbn [Node.msg_error error_message].
      destruct (Fail Node.AwaitScriptSource e _ _ _ ltac:(cbn; tauto) Hb4)
        as (G1 & G2 & G3 & G4 & G5).
      rewrite G5, <- !app_assoc. repeat split; auto;
        try (unfold handshake_requests, plain; cbn [take app]; repeat f_equal; lia).
  - unfold Node.run in *. rewrite fold_left_app, F2. cbn [fold_left].
    unfold reply. rewrite A2 by reflexivity. cbn [Node.msg_error Node.resolve Node.msg_result].
    destruct (Fail Node.AwaitIsolateId "TypeError: Cannot read properties of undefined"
                _ _ _ ltac:(cbn; tauto) Hb3) as (G1 & G2 & G3 & G4 & G5).
    cbn [Node.reject] in *.
    rewrite G5, <- !app_assoc. repeat split; auto;
      try (unfold handshake_requests, plain; cbn [take app]; repeat f_equal; lia).
Qed.

Lemma handshake_failure_fails_start_witness :
  let s := Node.run (Node.new false) (Node.CallStart "/tmp/a.js" :: Node.ticks 1000) in
  let s' := Node.run s (Node.WsOpen :: accepted 1 1 ++ [error_reply (1 + 1) "not supported"]) in
  Node.completed s' = Node.completed s ++ [(Node.OpStart, Thrown "not supported")]
  /\ node_process_gone s'.
Proof.
  intros s s'.
  pose proof (proj1 (handshake_failure_fails_start s
                       {| Node.url := "ws://localhost:9229/ws"; Node.ready := Node.CONNECTING;
                          Node.sent := [] |} 1 "not supported"
                       ltac:(vm_compute; reflexivity) eq_refl
                       ltac:(vm_compute; reflexivity) ltac:(vm_compute; reflexivity)
                       ltac:(lia)))
    as (H1 & H2 & _).
  split; [exact H1|exact H2].
Defined.

(** X7. Message-protocol adapter: an ['error'] event of the socket while
    [start()] still awaits the connection makes [start()] fail with that
    error, after [stop()] (the process is killed).  Once the promise of
    the connection is settled, an ['error'] event completes nothing and
    raises nothing: it is only logged. *)
Theorem socket_error_fails_pending_start (s : Node.state) (e : string) :
  (Node.connecting s = true -> Node.debuggerClient s <> None ->
   let s' := Node.step s (Node.WsError e) in
   Node.completed s' = Node.completed s ++ [(Node.OpStart, Thrown e)]
   /\ node_process_gone s' /\ Node.connecting s' = false)
  /\ (Node.connecting s = false ->
      let s' := Node.step s (Node.WsError e) in
      Node.completed s' = Node.completed s /\ Node.connected s' = Node.connected s
      /\ Node.debugProcess s' = Node.debugProcess s
      /\ Node.pendingRequests s' = Node.pendingRequests s).
Proof.
  split.
  - intros Hc Hd. cbn zeta. cbn [Node.step].
    destruct (Node.debuggerClient s) as [c|] eqn:E; [|done].
    assert (Hs : Node.completed (Node.set_ready Node.CLOSING s) = Node.completed s
                 /\ Node.connecting (Node.set_ready Node.CLOSING s) = true).
    { unfold Node.set_ready. rewrite E. by split. }
    destruct Hs as [Hs1 Hs2].
    destruct (connect_reject_fails e (Node.set_ready Node.CLOSING s) Hs2)
      as (G1 & G2 & G3 & G4 & G5).
    rewrite G1, Hs1. by repeat split.
  - intros Hc. cbn zeta. cbn [Node.step].
    destruct (Node.debuggerClient s) as [c|] eqn:E; [|done].
    unfold Node.connect_reject, Node.set_ready. rewrite E. node_fields. by rewrite Hc.
Qed.

Lemma socket_error_fails_pending_start_witness :
  let s := Node.run (Node.new false) (Node.CallStart "/tmp/a.js" :: Node.ticks 1000) in
  Node.completed (Node.step s (Node.WsError "ECONNREFUSED")) =
    Node.completed s ++ [(Node.OpStart, Thrown "ECONNREFUSED")].
Proof.
  intros s.
  refine (proj1 (proj1 (socket_error_fails_pending_start s "ECONNREFUSED") _ _)).
  - vm_compute. reflexivity.
  - vm_compute. discriminate.
Defined.

(** * Line numbers of the message-protocol adapter *)

Section NodeLines.
Import Node.


End NodeLines.



(** * Landing lines of the REPL adapter *)

Section JavaLanding.
Import Java.



Lemma unremarkable_parts line :
  unremarkable line = true ->
  Text.includes "Breakpoint hit:" line = false
  /\ Text.includes "Step completed:" line = false
  /\ Text.includes "The application exited" line = false
  /\ Text.includes "Exception occurred" line = false
  /\ Text.startsWith "ERROR:" line = false.
Proof.
  unfold unremarkable. intros H. apply negb_true_iff in H.
  repeat (apply orb_false_iff in H as [H ?]). by repeat split.
Qed.












End JavaLanding.



(** * Control operations of the REPL adapter *)

Section JavaControl.
Import Java.



Lemma control_rejected_java i op w cmd err s :
  java_control i = Some (op, w, cmd) ->
  reject w err s = complete op (Ok (Some false)) s.
Proof. intros Hi. destruct i; try discriminate; cbn in Hi; by simplify_eq. Qed.






End JavaControl.



(** * The start of the REPL adapter *)

Section JavaStart.
Import Java.

Lemma compiled_waits raises path cls (t : nat) :
  (t < 3000)%nat ->
  compiled raises path cls t =
    set_clock (Z.of_nat t) (compiled raises path cls 0).
Proof.
  intros Ht. unfold compiled.
  change (CallStart path cls :: JavacClose (Some 0) :: ticks t)
    with ([CallStart path cls; JavacClose (Some 0)] ++ ticks t).
  rewrite java_run_app.
  rewrite (java_idle_ticks 3000 InitTimeout t) by (try reflexivity; cbn; lia).
  reflexivity.
Qed.

End JavaStart.

(** X11. REPL adapter, [start()] after a successful compilation: the
    adapter waits for the banner [Initializing jdb] for at most 3000 ms.
    When the debugger prints nothing, nothing is written before 3000 ms;
    then [stop in <Class>.main] is written, [run] 700 ms after it, and
    [start()] returns true at 4300 ms with the running flag set.  When
    the banner is read before the timeout, the first command is written
    at that moment.  Once the wait is over, neither the timeout nor
    another banner line starts the sequence again. *)
Theorem start_waits_for_banner_at_most_3000 (raises : bool) (path : string)
    (cls : option string) :
  (forall t : nat, (t < 3000)%nat -> java_input (compiled raises path cls t) = [])
  /\ (let s' := compiled raises path cls 4300 in
      Java.completed s' = [(Java.OpStart, Ok (Some true))]
      /\ Java.isRunning s' = true
      /\ java_input s' = [command_written 3000 (stop_in_main path cls);
                          command_written 3700 "run"])
  /\ Java.completed (compiled raises path cls 4299) = []
  /\ (forall (t : nat) (line : string),
        (t < 3000)%nat -> banner line ->
        let s' := Java.step (compiled raises path cls t) (Java.Line line) in
        java_input s' = [command_written (Z.of_nat t) (stop_in_main path cls)]
        /\ Java.initListener s' = false)
  /\ (forall (s : Java.state) (line : string),
        Java.initListener s = false ->
        Java.fire Java.InitTimeout s = s /\ Java.on_initialized line s = s).
Proof.
  split; [|split; [|split; [|split]]].
  - intros t Ht. by rewrite compiled_waits.
  - cbn zeta. repeat split; vm_compute; reflexivity.
  - vm_compute. reflexivity.
  - intros t line Ht (B1 & B2 & B3). cbn zeta. rewrite compiled_waits by exact Ht.
    destruct (unremarkable_parts line B2) as (H1 & H2 & H3 & H4 & H5).
    set (s0 := Java.set_clock _ _).
    assert (Hl : Java.listening s0 = true) by reflexivity.
    assert (Hi : Java.initListener s0 = true) by reflexivity.
    cbn [Java.step]. rewrite Hl.
    unfold Java.on_line, Java.on_landing. rewrite H1, H2. cbn [orb].
    unfold Java.on_assignment. rewrite B3.
    unfold Java.on_exit. rewrite H3. unfold Java.on_error. rewrite H4, H5. cbn [orb].
    unfold Java.on_initialized. rewrite B1, Hi. cbn [andb].
    split; reflexivity.
  - intros s line Hi. unfold Java.on_initialized. cbn [Java.fire]. by rewrite Hi.
Qed.

Lemma start_waits_for_banner_at_most_3000_witness :
  let s' := Java.step (compiled false "/tmp/Main.java" None 250)
              (Java.Line "Initializing jdb ...") in
  java_input s' = [command_written (Z.of_nat 250) (stop_in_main "/tmp/Main.java" None)]
  /\ Java.initListener s' = false.
Proof.
  refine (proj1 (proj2 (proj2 (proj2
            (start_waits_for_banner_at_most_3000 false "/tmp/Main.java" None))))
            250%nat "Initializing jdb ..." _ _).
  - lia.
  - repeat split; vm_compute; reflexivity.
Defined.

(** * What the snapshots hold *)

Section JavaEntries.
Import Java.

Lemma span_all f l : forall a b, Text.span f l = (a, b) -> forallb f a = true.
Proof.
  induction l as [|c l IH]; intros a b; cbn [Text.span].
  - intros H. by simplify_eq.
  - destruct (f c) eqn:E; [|intros H; by simplify_eq].
    destruct (Text.span f l) as [a' b'] eqn:E'. intros H. injection H as <- <-.
    cbn. rewrite E. exact (IH a' b' eq_refl).
Qed.

Lemma match_assignment_name l name v :
  Text.match_assignment l = Some (name, v) ->
  name <> [] /\ forallb Text.is_word name = true.
Proof.
  unfold Text.match_assignment.
  destruct (Text.span Text.is_word (Text.skip Text.is_space l)) as [a b] eqn:E.
  intros H. pose proof (span_all _ _ _ _ E) as Ha.
  destruct a as [|c a]; [done|]. repeat case_match; simplify_eq. by split.
Qed.

Lemma on_assignment_ok line s : java_heap_ok s -> java_heap_ok (on_assignment line s).
Proof.
  intros Hs. unfold on_assignment.
  destruct (Text.match_assignment (Text.chars line)) as [[name v]|] eqn:E; [|done].
  destruct (match_assignment_name _ _ _ E) as [H1 H2].
  unfold java_heap_ok, store_variable. java_fields.
  apply Forall_alter; [exact Hs|]. intros o _ Ho.
  apply map_Forall_insert_2; [|exact Ho]. split; [by exists name|reflexivity].
Qed.

Lemma getVariables_ok hit s : java_heap_ok s -> java_heap_ok (_getVariables hit s).
Proof.
  intros Hs. unfold java_heap_ok, _getVariables.
  assert (E : heap (snd (_sendCommand false "locals" (LocalsSent hit) (reset_variables s)))
              = heap s ++ [∅]).
  { java_defs. crunch; auto. }
  rewrite E. apply Forall_app. split; [exact Hs|].
  constructor; [apply map_Forall_empty|constructor].
Qed.

Lemma heap_ok_same s s' : heap s' = heap s -> java_heap_ok s -> java_heap_ok s'.
Proof. unfold java_heap_ok. by intros ->. Qed.

Lemma stop_heap s : heap (snd (stop s)) = heap s.
Proof.
  destruct s as [r c t ja sp [[[] inp]|] [[cl]|] il h v b cu cn fp ir cq pc em co];
    destruct r; reflexivity.
Qed.

Lemma resolve_heap w s : heap (resolve w s) = heap s.
Proof.
  destruct w; cbn [resolve]; try reflexivity.
  apply queueCommand_same_store.
Qed.

Lemma on_line_ok line s : java_heap_ok s -> java_heap_ok (on_line line s).
Proof.
  intros Hs. unfold on_line.
  eapply heap_ok_same; [apply on_initialized_same_store|].
  eapply heap_ok_same; [apply on_error_same_store|].
  eapply heap_ok_same; [apply on_exit_same_store|].
  apply on_assignment_ok.
  unfold on_landing. repeat case_match; try done. by apply getVariables_ok.
Qed.

Lemma fire_ok t s : java_heap_ok s -> java_heap_ok (fire t s).
Proof.
  intros Hs. destruct t; cbn [fire]; try done.
  - eapply heap_ok_same; [|exact Hs]. unfold schedule. java_fields. apply resolve_heap.
  - eapply heap_ok_same; [apply processNext_same_store|done].
  - eapply heap_ok_same; [apply processNext_same_store|done].
  - case_match; [|done]. unfold start_initialized.
    eapply heap_ok_same; [apply queueCommand_same_store|done].
  - eapply heap_ok_same; [|exact Hs].
    destruct s as [r c t ja sp [[[] inp]|] rl il h v b cu cn fp ir cq pc em co];
      destruct r; reflexivity.
Qed.

Lemma fold_fire_ok l : forall s,
  java_heap_ok s -> java_heap_ok (fold_left (fun s (e : Z * timer) => fire (snd e) s) l s).
Proof.
  induction l as [|e l IH]; intros s Hs; simpl; [done|]. apply IH. by apply fire_ok.
Qed.

Lemma step_ok s i : java_heap_ok s -> java_heap_ok (step s i).
Proof.
  intros Hs. destruct i; cbn [step]; try done.
  - by repeat case_match.
  - by repeat case_match.
  - unfold javac_close. repeat case_match; try done.
    + unfold finish. rewrite java_start_catch_spec. unfold complete.
      eapply heap_ok_same; [|exact Hs]. java_fields. by rewrite stop_heap.
    + unfold finish. rewrite java_start_catch_spec. unfold complete.
      eapply heap_ok_same; [|exact Hs]. java_fields. by rewrite stop_heap.
    + unfold finish. rewrite java_start_catch_spec. unfold complete.
      eapply heap_ok_same; [|exact Hs]. java_fields. by rewrite stop_heap.
  - case_match; [|done]. by apply on_line_ok.
  - by case_match.
  - by case_match.
  - unfold setBreakpoint. case_match; [done|].
    eapply heap_ok_same; [apply queueCommand_same_store|done].
  - eapply heap_ok_same; [apply queueCommand_same_store|done].
  - eapply heap_ok_same; [apply queueCommand_same_store|done].
  - eapply heap_ok_same; [apply queueCommand_same_store|done].
  - unfold finish, Js.bind, Js.ret. pose proof (stop_heap s) as H.
    pose proof (java_stop_ok s) as Ho.
    destruct (stop s) as [[[]|e] s1]; [|discriminate Ho].
    eapply heap_ok_same; [|exact Hs]. exact H.
  - unfold tick. by apply fold_fire_ok.
Qed.

Lemma run_ok l : forall s, java_heap_ok s -> java_heap_ok (run s l).
Proof.
  unfold run. induction l as [|i l IH]; intros s Hs; simpl; [done|].
  apply IH. by apply step_ok.
Qed.

End JavaEntries.

(** X12. REPL adapter: in every run, every entry of every snapshot the
    adapter has ever created is named by a non-empty word (letters,
    digits, underscore) and carries, as its type, what [_inferType] gives
    for its value. *)
Theorem java_snapshots_hold_typed_words (raises : bool) (l : list Java.input)
    (ref : nat) (name : string) (e : Java.variable) :
  Java.deref (Java.run (Java.new raises) l) ref !! name = Some e ->
  (exists w, name = Text.text w /\ w <> [] /\ forallb Text.is_word w = true)
  /\ Java.type e = Java._inferType (Java.value e).
Proof.
  intros H. unfold Java.deref in H.
  assert (Hok : java_heap_ok (Java.run (Java.new raises) l)).
  { apply run_ok. constructor; [apply map_Forall_empty|constructor]. }
  destruct (Java.heap (Java.run (Java.new raises) l) !! ref) as [o|] eqn:E.
  - cbn in H. unfold java_heap_ok in Hok. rewrite Forall_lookup in Hok.
    exact (Hok ref o E name e H).
  - cbn in H. by rewrite lookup_empty in H.
Qed.

Lemma java_snapshots_hold_typed_words_witness :
  (exists w, "count" = Text.text w /\ w <> [] /\ forallb Text.is_word w = true)
  /\ Java.type {| Java.value := "42"; Java.type := "number" |} =
     Java._inferType (Java.value {| Java.value := "42"; Java.type := "number" |}).
Proof.
  apply (java_snapshots_hold_typed_words false (idle_session ++ [Java.Line "count = 42"])
           0 "count" {| Java.value := "42"; Java.type := "number" |}).
  vm_compute. reflexivity.
Defined.

Section NodeEntries.
Import Node.

Lemma node_heap_ok_same s s' : heap s' = heap s -> node_heap_ok s -> node_heap_ok s'.
Proof. unfold node_heap_ok. by intros ->. Qed.

Lemma node_stop_heap s : heap (snd (stop s)) = heap s.
Proof.
  destruct s as [r c t sp [[[]]|] [[u [] se]|] cg po h v b cl ir sc [] mi pr em co];
    destruct r; reflexivity.
Qed.

Lemma node_finish_heap op (m : M state (option bool)) s :
  (forall s0, heap (snd (m s0)) = heap s0) -> heap (finish op m s) = heap s.
Proof.
  intros H. unfold finish. specialize (H s). by destruct (m s) as [r s1].
Qed.

Lemma node_start_catch_heap err s : heap (snd (start_catch err s)) = heap s.
Proof. rewrite node_start_catch_spec. apply node_stop_heap. Qed.

Lemma node_setBreakpoint_rest_heap line awaited s :
  heap (snd (setBreakpoint_rest line awaited s)) = heap s.
Proof.
  unfold setBreakpoint_rest, try_catch, bind, await, throw, lift, ret.
  destruct awaited as [msg|e]; [|done]. by destruct (msg_result msg).
Qed.

Lemma node_resume_rest_heap awaited s : heap (snd (resume_rest awaited s)) = heap s.
Proof. by destruct awaited. Qed.

Lemma node_connect_reject_heap err s : heap (connect_reject err s) = heap s.
Proof.
  unfold connect_reject. destruct (connecting s); [|done].
  rewrite node_finish_heap; [done|]. apply node_start_catch_heap.
Qed.

Lemma node_reject_heap k err s : heap (reject k err s) = heap s.
Proof.
  destruct k; cbn [reject]; try done; try apply node_connect_reject_heap;
    apply node_finish_heap; intros s0;
    auto using node_setBreakpoint_rest_heap, node_resume_rest_heap.
Qed.

Lemma node_sendMessage_heap method args k s : heap (_sendMessage method args k s) = heap s.
Proof.
  unfold _sendMessage. destruct (connected s); cbn [negb]; [|apply node_reject_heap].
  set (s2 := set_pendingRequests _ _).
  destruct (send_inv {| req_id := messageId s; req_method := method; req_params := args |} s2)
    as [[r ->]|(c & _ & ->)].
  - destruct r; [done|]. by rewrite node_reject_heap.
  - done.
Qed.

Lemma store_property_ok s p : node_heap_ok s -> node_heap_ok (store_property s p).
Proof.
  intros Hs. unfold store_property.
  destruct (prop_value p) as [v|]; [|done].
  destruct (Text.startsWith "__" (name p)) eqn:E; [done|]. cbn [negb].
  unfold node_heap_ok, store_variable. node_fields.
  apply Forall_alter; [exact Hs|]. intros o _ Ho.
  apply map_Forall_insert_2; [|exact Ho]. split; [exact E|by exists v].
Qed.

Lemma fold_store_property_ok props : forall s,
  node_heap_ok s -> node_heap_ok (fold_left store_property props s).
Proof.
  induction props as [|p props IH]; intros s Hs; simpl; [done|].
  apply IH. by apply store_property_ok.
Qed.

Lemma updateVariables_heap reason scopes : forall s,
  heap (_updateVariables reason scopes s) = heap s.
Proof.
  induction scopes as [|sc scopes IH]; intros s; cbn [_updateVariables].
  - unfold notify_pause, _notifyListeners. by repeat case_match.
  - destruct (wanted sc); [apply node_sendMessage_heap|apply IH].
Qed.

Lemma node_resolve_ok k msg s : node_heap_ok s -> node_heap_ok (resolve k msg s).
Proof.
  intros Hs. destruct k; cbn [resolve]; try done;
    try (eapply node_heap_ok_same; [apply node_sendMessage_heap|done]).
  - destruct (msg_result msg);
      try (eapply node_heap_ok_same; [apply node_sendMessage_heap|done]).
    eapply node_heap_ok_same; [apply node_connect_reject_heap|done].
  - unfold connect_resolve. node_fields. destruct (connecting s); [|done].
    eapply node_heap_ok_same; [|exact Hs]. by rewrite node_finish_heap.
  - eapply node_heap_ok_same; [|exact Hs].
    apply node_finish_heap. intros; apply node_setBreakpoint_rest_heap.
  - destruct (msg_result msg); try done.
    eapply node_heap_ok_same; [apply updateVariables_heap|].
    by apply fold_store_property_ok.
Qed.

Lemma node_handleMessage_ok msg s : node_heap_ok s -> node_heap_ok (_handleMessage msg s).
Proof.
  intros Hs. unfold _handleMessage.
  destruct (answered msg s) as [[i k]|].
  - destruct (msg_error msg).
    + eapply node_heap_ok_same; [apply node_reject_heap|done].
    + by apply node_resolve_ok.
  - destruct (msg_method msg) as [m|]; [|done].
    repeat case_match; try done.
    unfold _handlePaused. case_match; [done|].
    eapply node_heap_ok_same; [apply updateVariables_heap|].
    unfold node_heap_ok, reset_variables. node_fields.
    apply Forall_app. split; [exact Hs|]. constructor; [apply map_Forall_empty|constructor].
Qed.

Lemma node_fire_ok t s : node_heap_ok s -> node_heap_ok (fire t s).
Proof.
  intros Hs. destruct t; cbn [fire]; [done|].
  case_match; [|done]. eapply node_heap_ok_same; [apply node_reject_heap|done].
Qed.

Lemma node_fold_fire_ok l : forall s,
  node_heap_ok s -> node_heap_ok (fold_left (fun s (e : Z * timer) => fire (snd e) s) l s).
Proof.
  induction l as [|e l IH]; intros s Hs; simpl; [done|]. apply IH. by apply node_fire_ok.
Qed.

Lemma node_step_ok s i : node_heap_ok s -> node_heap_ok (step s i).
Proof.
  intros Hs. destruct i; cbn [step]; try done.
  - by case_match.
  - case_match; [|done]. unfold on_stderr. by repeat case_match.
  - by case_match.
  - repeat case_match; try done. unfold on_open.
    eapply node_heap_ok_same; [apply node_sendMessage_heap|].
    unfold set_ready. by case_match.
  - repeat case_match; try done. by apply node_handleMessage_ok.
  - case_match; [|done]. eapply node_heap_ok_same; [apply node_connect_reject_heap|].
    unfold set_ready. by case_match.
  - case_match; [|done]. unfold set_ready. by case_match.
  - unfold setBreakpoint. case_match; [done|].
    eapply node_heap_ok_same; [apply node_sendMessage_heap|done].
  - eapply node_heap_ok_same; [apply node_sendMessage_heap|done].
  - eapply node_heap_ok_same; [apply node_sendMessage_heap|done].
  - eapply node_heap_ok_same; [apply node_sendMessage_heap|done].
  - eapply node_heap_ok_same; [|exact Hs]. apply node_finish_heap.
    intros s0. unfold bind, ret. pose proof (node_stop_heap s0) as H.
    by destruct (stop s0) as [[] s1].
  - unfold tick. by apply node_fold_fire_ok.
Qed.

Lemma node_run_ok l : forall s, node_heap_ok s -> node_heap_ok (run s l).
Proof.
  unfold run. induction l as [|i l IH]; intros s Hs; simpl; [done|].
  apply IH. by apply node_step_ok.
Qed.

End NodeEntries.

(** X13. Message-protocol adapter: in every run, no snapshot the adapter
    has ever created holds a variable whose name starts with two
    underscores, and every entry carries the formatted value and the type
    of one and the same remote object. *)
Theorem node_snapshots_hold_no_internal_names (raises : bool) (l : list Node.input)
    (ref : nat) (name : string) (e : Node.variable) :
  Node.deref (Node.run (Node.new raises) l) ref !! name = Some e ->
  Text.startsWith "__" name = false
  /\ exists v : Node.remote,
       e = {| Node.value := Node._formatValue v; Node.type := Node.ro_type v |}.
Proof.
  intros H. unfold Node.deref in H.
  assert (Hok : node_heap_ok (Node.run (Node.new raises) l)).
  { apply node_run_ok. constructor; [apply map_Forall_empty|constructor]. }
  destruct (Node.heap (Node.run (Node.new raises) l) !! ref) as [o|] eqn:E.
  - cbn in H. unfold node_heap_ok in Hok. rewrite Forall_lookup in Hok.
    exact (Hok ref o E name e H).
  - cbn in H. by rewrite lookup_empty in H.
Qed.

Lemma node_snapshots_hold_no_internal_names_witness :
  Text.startsWith "__" "i" = false
  /\ exists v : Node.remote,
       {| Node.value := Node.JNumber 0; Node.type := "number" |} =
       {| Node.value := Node._formatValue v; Node.type := Node.ro_type v |}.
Proof.
  apply (node_snapshots_hold_no_internal_names false half_refreshed 1 "i"
           {| Node.value := Node.JNumber 0; Node.type := "number" |}).
  vm_compute. reflexivity.
Defined.

(** * The types inferred for echoed values *)

Section Inference.
Import Text.

Lemma chars_text l : chars (text l) = l.
Proof. apply list_ascii_of_string_of_list_ascii. Qed.

Lemma skip_stop f c l : f c = false -> skip f (c :: l) = c :: l.
Proof. intros H. unfold skip. cbn. by rewrite H. Qed.

Lemma skip_snoc_stop f c : forall l, f c = false -> skip f (l ++ [c]) = skip f l ++ [c].
Proof.
  intros l H. induction l as [|a l IH].
  - cbn. unfold skip. cbn. by rewrite H.
  - unfold skip in *. cbn. destruct (f a) eqn:E; [|done].
    destruct (span f (l ++ [c])) as [x y] eqn:E1.
    destruct (span f l) as [x' y'] eqn:E2. cbn in *. exact IH.
Qed.

(** A string that starts with a character other than white space keeps
    it as its first character when trimmed. *)
Lemma trim_chars_head c l :
  is_space c = false -> exists l', trim_chars (c :: l) = c :: l'.
Proof.
  intros H. unfold trim_chars. rewrite (skip_stop _ _ _ H).
  cbn [rev]. rewrite (skip_snoc_stop _ _ _ H), rev_app_distr. cbn. by eexists.
Qed.

Lemma span_all_true f l : forallb f l = true -> span f l = (l, []).
Proof.
  induction l as [|c l IH]; cbn; [done|].
  intros H. apply andb_true_iff in H as [H1 H2]. by rewrite H1, (IH H2).
Qed.

Lemma digit_not_space c : is_digit c = true -> is_space c = false.
Proof.
  destruct c as [[] [] [] [] [] [] [] []]; vm_compute; congruence.
Qed.

(** A string of digits has nothing to trim. *)
Lemma trim_chars_digits ds : forallb is_digit ds = true -> trim_chars ds = ds.
Proof.
  intros H. unfold trim_chars.
  assert (Hs : forall l, forallb is_digit l = true -> skip is_space l = l).
  { intros [|c l] Hl; [done|]. cbn in Hl. apply andb_true_iff in Hl as [Hc _].
    apply skip_stop. by apply digit_not_space. }
  rewrite (Hs ds H). rewrite Hs; [apply rev_involutive|].
  rewrite forallb_forall in *. intros c Hc. apply H. by apply in_rev.
Qed.

Lemma trim_chars_signed ds :
  ds <> [] -> forallb is_digit ds = true -> trim_chars ("-"%char :: ds) = "-"%char :: ds.
Proof.
  intros Hne H. unfold trim_chars. rewrite skip_stop by reflexivity.
  cbn [rev].
  assert (Hr : skip is_space (rev ds ++ ["-"%char]) = rev ds ++ ["-"%char]).
  { destruct (rev ds) as [|c l] eqn:E.
    - apply (f_equal (@rev ascii)) in E. rewrite rev_involutive in E. done.
    - cbn. apply skip_stop. apply digit_not_space.
      rewrite forallb_forall in H. apply H. apply in_rev. rewrite E. by left. }
  rewrite Hr, rev_app_distr, rev_involutive. reflexivity.
Qed.

Lemma digit_first c : is_digit c = true ->
  forall x, In x ["n"; "t"; "f"; "I"; "+"; "-"; "."]%char -> Ascii.eqb c x = false.
Proof.
  intros H x Hx. destruct (Ascii.eqb_spec c x) as [->|]; [|done].
  cbn in Hx. repeat (destruct Hx as [<-|Hx]; [vm_compute in H; discriminate|]). done.
Qed.

Lemma unsigned_decimal_digits ds :
  ds <> [] -> forallb is_digit ds = true -> unsigned_decimal ds = true.
Proof.
  intros Hne H. unfold unsigned_decimal.
  destruct ds as [|c l]; [done|]. pose proof H as H'. cbn in H'.
  apply andb_true_iff in H' as [Hc _].
  cbn [text string_of_list_ascii String.eqb].
  rewrite (digit_first c Hc "I"%char) by (cbn; tauto).
  by rewrite (span_all_true _ _ H).
Qed.

Lemma skip_all f l : forallb f l = true -> skip f l = [].
Proof. intros H. unfold skip. by rewrite (span_all_true _ _ H). Qed.

Lemma trim_blank v : forallb is_space v = true -> trim (text v) = EmptyString.
Proof.
  intros H. unfold trim, trim_chars. rewrite chars_text, (skip_all _ _ H). reflexivity.
Qed.

(** An assignment line stores its entry into the current snapshot. *)
Lemma line_stores_assignment (s : Java.state) (line : string) (name v : list ascii) :
  Java.listening s = true ->
  (Java.variables s < length (Java.heap s))%nat ->
  match_assignment (chars line) = Some (name, v) ->
  Java.snapshot (Java.step s (Java.Line line)) !! text name =
    Some {| Java.value := trim (text v); Java.type := Java._inferType (trim (text v)) |}.
Proof.
  intros Hl Hv Hm. cbn [Java.step]. rewrite Hl. unfold Java.on_line.
  set (s1 := Java.on_landing line s).
  assert (Hv1 : (Java.variables s1 < length (Java.heap s1))%nat).
  { subst s1. unfold Java.on_landing. repeat case_match; try done.
    unfold Java._getVariables. java_defs. crunch; rewrite ?length_app; simpl; lia. }
  clearbody s1.
  set (s2 := Java.on_assignment line s1).
  assert (H2 : Java.snapshot s2 !! text name =
               Some {| Java.value := trim (text v);
                       Java.type := Java._inferType (trim (text v)) |}).
  { subst s2. unfold Java.on_assignment. rewrite Hm.
    unfold Java.snapshot, Java.deref, Java.getVariables, Java.store_variable.
    cbn [Java.heap Java.variables Java.set_heap].
    destruct (lookup_lt_is_Some_2 _ _ Hv1) as [o Ho].
    rewrite list_lookup_alter_eq, Ho. simpl. apply lookup_insert_eq. }
  clearbody s2.
  rewrite (same_store_snapshot s2); [exact H2|].
  eapply same_store_trans; [|eapply same_store_trans; [|apply on_initialized_same_store]].
  - apply on_exit_same_store.
  - apply on_error_same_store.
Qed.

End Inference.

(** X14. REPL adapter, [_inferType]: a value that starts and ends with a
    double quote is typed [string], whatever lies between the quotes
    (digits, an [@]); a non-empty string of decimal digits, with or
    without a minus sign, is typed [number]; and an assignment line
    whose right-hand side is blank is stored with the empty value and
    the type [number]. *)
Theorem inferType_of_literals :
  (forall v : string,
      Text.startsWith dquote v = true -> Text.endsWith dquote v = true ->
      Java._inferType v = "string")
  /\ (forall ds : list ascii,
        ds <> [] -> forallb Text.is_digit ds = true ->
        Java._inferType (Text.text ds) = "number"
        /\ Java._inferType (Text.text ("-"%char :: ds)) = "number")
  /\ (forall (s : Java.state) (line : string) (name v : list ascii),
        Java.listening s = true -> (Java.variables s < length (Java.heap s))%nat ->
        Text.match_assignment (Text.chars line) = Some (name, v) ->
        forallb Text.is_space v = true ->
        Java.snapshot (Java.step s (Java.Line line)) !! Text.text name =
          Some {| Java.value := EmptyString; Java.type := "number" |}).
Proof.
  split; [|split].
  - intros v Hs He. unfold Java._inferType. rewrite Hs, He.
    destruct v as [|c v]; [discriminate Hs|].
    assert (Hc : c = ascii_of_nat 34).
    { unfold Text.startsWith in Hs. cbn in Hs.
      destruct (Ascii.eqb_spec (ascii_of_nat 34) c); [done|discriminate]. }
    subst c.
    assert (Hn : Text.is_numeric (String (ascii_of_nat 34) v) = false).
    { unfold Text.is_numeric. cbn [Text.chars list_ascii_of_string].
      destruct (trim_chars_head (ascii_of_nat 34) (list_ascii_of_string v) eq_refl)
        as [l' ->].
      destruct l' as [|r ds]; reflexivity. }
    rewrite Hn. reflexivity.
  - intros ds Hne Hd. pose proof (unsigned_decimal_digits ds Hne Hd) as Hu.
    destruct ds as [|c l]; [done|]. pose proof Hd as Hd'. cbn in Hd'.
    apply andb_true_iff in Hd' as [Hc _].
    split.
    + unfold Java._inferType. cbn [Text.text string_of_list_ascii String.eqb].
      rewrite (digit_first c Hc "n"%char), (digit_first c Hc "t"%char),
        (digit_first c Hc "f"%char) by (cbn; tauto).
      cbn [orb andb].
      replace (Text.is_numeric (String c (string_of_list_ascii l))) with true; [done|].
      unfold Text.is_numeric.
      change (Text.chars (String c (string_of_list_ascii l)))
        with (Text.chars (Text.text (c :: l))).
      rewrite chars_text, (trim_chars_digits _ Hd).
      unfold Text.is_sign.
      rewrite (digit_first c Hc "+"%char), (digit_first c Hc "-"%char) by (cbn; tauto).
      cbn [orb]. rewrite Hu. by rewrite orb_true_r.
    + unfold Java._inferType. cbn [Text.text string_of_list_ascii String.eqb Ascii.eqb].
      cbn [Bool.eqb orb andb].
      replace (Text.is_numeric (String "-" (String c (string_of_list_ascii l)))) with true;
        [done|].
      unfold Text.is_numeric.
      change (Text.chars (String "-" (String c (string_of_list_ascii l))))
        with (Text.chars (Text.text ("-"%char :: c :: l))).
      rewrite chars_text, (trim_chars_signed _ Hne Hd).
      change (Text.is_sign "-") with true. cbn iota. rewrite Hu. by rewrite orb_true_r.
  - intros s line name v Hl Hv Hm Hb.
    rewrite (line_stores_assignment s line name v Hl Hv Hm), (trim_blank v Hb).
    reflexivity.
Qed.

Lemma inferType_of_literals_witness :
  Java._inferType (dquote +:+ "42" +:+ dquote) = "string"
  /\ Java._inferType (Text.text (Text.chars "42")) = "number"
  /\ Java.snapshot (Java.step (Java.run (Java.new false) idle_session) (Java.Line "x =  "))
       !! Text.text (Text.chars "x") =
     Some {| Java.value := EmptyString; Java.type := "number" |}.
Proof.
  destruct inferType_of_literals as (H1 & H2 & H3).
  split; [|split].
  - apply H1; reflexivity.
  - apply (H2 (Text.chars "42")); [discriminate|reflexivity].
  - apply (H3 _ "x =  " (Text.chars "x") (Text.chars " ")); try reflexivity.
    vm_compute. lia.
Defined.

(** * The class name and the file of a debug session *)

Section RouteNames.
Import Text Routes.

Lemma word_is_name l w rest : word l = Some (w, rest) -> is_name w.
Proof.
  unfold word. destruct (span is_word l) as [a b] eqn:E.
  pose proof (span_all _ _ _ _ E) as Ha.
  destruct a as [|c a]; [done|]. intros H. by simplify_eq.
Qed.

Lemma class_here_is_name l w rest : class_here l = Some (w, rest) -> is_name w.
Proof.
  unfold class_here. repeat case_match; try done. apply word_is_name.
Qed.

Lemma public_class_here_is_name l w : public_class_here l = Some w -> is_name w.
Proof.
  unfold public_class_here.
  destruct (literal "public" l) as [l1|]; [|done].
  destruct (spaces l1) as [l2|]; [|done].
  destruct (class_here l2) as [[w' rest]|] eqn:E; [|done].
  cbn. intros Hw. simplify_eq. by apply (class_here_is_name _ _ _ E).
Qed.

Lemma take_is_name (k : nat) w : is_name w -> (0 < k)%nat -> is_name (take k w).
Proof.
  intros [Hn Hw] Hk. split.
  - destruct w; [done|]. by destruct k; [lia|].
  - rewrite <- (take_drop k w), forallb_app in Hw.
    by apply andb_true_iff in Hw as [Ht _].
Qed.

Lemma longest_before_main_is_name w rest : forall k r,
  is_name w -> longest_before_main k w rest = Some r -> is_name r.
Proof.
  induction k as [|k IH]; intros r Hw; cbn [longest_before_main]; [done|].
  destruct (has_main _).
  - intros H. simplify_eq. apply take_is_name; [done|lia].
  - by apply IH.
Qed.

Lemma class_with_main_here_is_name l w : class_with_main_here l = Some w -> is_name w.
Proof.
  unfold class_with_main_here. destruct (class_here l) as [[w' rest]|] eqn:E; [|done].
  apply longest_before_main_is_name. by apply (class_here_is_name _ _ _ E).
Qed.

(** A leftmost match is a match at some position. *)
Lemma first_match_here {A} (here : list ascii -> option A) l a :
  first_match here l = Some a -> exists l', l' `suffix_of` l /\ here l' = Some a.
Proof.
  induction l as [|c l IH]; cbn [first_match].
  - destruct (here []) eqn:E; [|done]. intros H. simplify_eq. by exists [].
  - destruct (here (c :: l)) eqn:E.
    + intros H. simplify_eq. by exists (c :: l).
    + intros H. destruct (IH H) as (l' & Hs & Hl). exists l'. split; [|done].
      by apply suffix_cons_r.
Qed.

Lemma first_match_none {A} (here : list ascii -> option A) l :
  first_match here l = None -> forall l', l' `suffix_of` l -> here l' = None.
Proof.
  induction l as [|c l IH]; cbn [first_match].
  - destruct (here []) eqn:E; [done|]. intros _ l' Hs.
    apply suffix_nil_inv in Hs. by subst.
  - destruct (here (c :: l)) eqn:E; [done|]. intros H l' Hs.
    destruct Hs as [[|d k] Hk]; cbn in Hk; simplify_eq; [done|].
    apply IH; [done|]. by exists k.
Qed.

Lemma literal_suffix p l l1 : literal p l = Some l1 -> l1 `suffix_of` l.
Proof.
  unfold literal. case_match; [|done]. intros Hx. simplify_eq. apply suffix_drop.
Qed.

Lemma skip_suffix f l : skip f l `suffix_of` l.
Proof.
  unfold skip. induction l as [|c l IH]; cbn; [done|].
  destruct (f c); [|done]. destruct (span f l) as [a b]. cbn in *.
  by apply suffix_cons_r.
Qed.

Lemma spaces_suffix l l1 : spaces l = Some l1 -> l1 `suffix_of` l.
Proof.
  unfold spaces. destruct l as [|c l]; [done|]. case_match; [|done].
  intros Hx. simplify_eq. apply suffix_cons_r, skip_suffix.
Qed.

Lemma public_class_has_class l w :
  public_class_here l = Some w -> exists l', l' `suffix_of` l /\ is_Some (class_here l').
Proof.
  unfold public_class_here.
  destruct (literal "public" l) as [l1|] eqn:E1; [|done].
  destruct (spaces l1) as [l2|] eqn:E2; [|done].
  destruct (class_here l2) as [m|] eqn:E3; [|done]. intros _.
  exists l2. split; [|by rewrite E3].
  etrans; [apply (spaces_suffix _ _ E2)|apply (literal_suffix _ _ _ E1)].
Qed.

Lemma class_with_main_has_class l w :
  class_with_main_here l = Some w -> is_Some (class_here l).
Proof. unfold class_with_main_here. by destruct (class_here l). Qed.

(** A name holds no path separator, and neither does a file named by it. *)
Lemma no_separator l :
  forallb (fun c => negb (Ascii.eqb c "/")) l = true -> infix_of (chars "/") l = false.
Proof.
  induction l as [|c l IH]; [done|]. cbn [forallb]. intros H.
  apply andb_true_iff in H as [Hc Hl].
  cbn [infix_of chars list_ascii_of_string prefix_of] in *.
  rewrite (IH Hl). apply negb_true_iff in Hc. rewrite Ascii.eqb_sym, Hc.
  by destruct l.
Qed.

Lemma word_not_separator c : is_word c = true -> negb (Ascii.eqb c "/") = true.
Proof. destruct c as [[] [] [] [] [] [] [] []]; vm_compute; congruence. Qed.

Lemma extract_is_name code n :
  extractJavaClassName code = Some n -> exists w, n = text w /\ is_name w.
Proof.
  unfold extractJavaClassName.
  destruct (first_match public_class_here (chars code)) as [w|] eqn:E1.
  { intros H. simplify_eq. exists w. split; [done|].
    destruct (first_match_here _ _ _ E1) as (l' & _ & Hl).
    by apply (public_class_here_is_name l'). }
  destruct (first_match class_with_main_here (chars code)) as [w|] eqn:E2.
  { intros H. simplify_eq. exists w. split; [done|].
    destruct (first_match_here _ _ _ E2) as (l' & _ & Hl).
    by apply (class_with_main_here_is_name l'). }
  destruct (first_match class_here (chars code)) as [[w rest]|] eqn:E3; [|done].
  cbn. intros H. simplify_eq. exists w. split; [done|].
  destruct (first_match_here _ _ _ E3) as (l' & _ & Hl).
  by apply (class_here_is_name l' w rest).
Qed.

Lemma name_file_no_separator w :
  is_name w -> includes "/" (text w +:+ ".java") = false.
Proof.
  intros [_ Hw]. unfold includes.
  assert (chars (text w +:+ ".java") = w ++ chars ".java") as ->.
  { clear Hw. induction w as [|c w IH]; [done|].
    change (c :: chars (text w +:+ ".java") = c :: (w ++ chars ".java")). by rewrite IH. }
  apply no_separator. rewrite forallb_app. apply andb_true_iff. split; [|done].
  rewrite forallb_forall in *. intros c Hc. by apply word_not_separator, Hw.
Qed.

Lemma name_text_nonempty w : is_name w -> String.eqb (text w) EmptyString = false.
Proof. intros [Hn _]. by destruct w. Qed.

Lemma infix_of_none p l :
  infix_of p l = false -> forall l', l' `suffix_of` l -> prefix_of p l' = false.
Proof.
  induction l as [|c l IH]; cbn [infix_of]; intros H l' Hs.
  - destruct Hs as [k Hk]. symmetry in Hk. apply app_eq_nil in Hk as [_ ->].
    by apply orb_false_iff in H as [H _].
  - apply orb_false_iff in H as [H1 H2].
    destruct Hs as [[|d k] Hk]; cbn in Hk; simplify_eq; [done|].
    apply IH; [done|]. by exists k.
Qed.

Lemma first_class_none l :
  first_match class_here l = None ->
  first_match public_class_here l = None /\ first_match class_with_main_here l = None.
Proof.
  intros H. pose proof (first_match_none _ _ H) as Hn. split.
  - destruct (first_match public_class_here l) as [w|] eqn:E; [|done].
    destruct (first_match_here _ _ _ E) as (l1 & Hs1 & Hl1).
    destruct (public_class_has_class _ _ Hl1) as (l2 & Hs2 & [m Hm]).
    rewrite Hn in Hm; [done|]. by etrans.
  - destruct (first_match class_with_main_here l) as [w|] eqn:E; [|done].
    destruct (first_match_here _ _ _ E) as (l1 & Hs1 & Hl1).
    destruct (class_with_main_has_class _ _ Hl1) as [m Hm].
    by rewrite Hn in Hm.
Qed.

Lemma first_class_with_main l w rest :
  first_match class_here l = Some (w, rest) -> has_main rest = true ->
  first_match class_with_main_here l = Some w.
Proof.
  intros H Hm. induction l as [|c l IH]; cbn [first_match] in *.
  - destruct (class_here []) eqn:E; [by vm_compute in E|done].
  - unfold class_with_main_here at 1.
    destruct (class_here (c :: l)) as [[w' rest']|] eqn:E.
    + simplify_eq. destruct (class_here_is_name _ _ _ E) as [Hn _].
      destruct w as [|a w]; [done|]. cbn [length longest_before_main].
      change (S (length w)) with (length (a :: w)).
      rewrite drop_all, firstn_all. cbn [app]. by rewrite Hm.
    + by apply IH.
Qed.

(** X15. When [extractJavaClassName] finds a name in the submitted code,
    the name is a non-empty run of word characters; [POST /start] then
    names the file [<name>.java] whatever the session id is, and that
    file name holds no path separator. *)
Theorem java_file_is_named_by_a_class_word code n :
  extractJavaClassName code = Some n ->
  (exists w, n = text w /\ w <> [] /\ forallb is_word w = true) /\
  (forall sessionId, fileName "java" code sessionId = n +:+ ".java") /\
  (forall sessionId, includes "/" (fileName "java" code sessionId) = false).
Proof.
  intros H. destruct (extract_is_name _ _ H) as (w & -> & Hw).
  assert (forall sessionId, fileName "java" code sessionId = text w +:+ ".java") as Hf.
  { intros sessionId. unfold fileName. cbn [String.eqb Ascii.eqb Bool.eqb].
    by rewrite H, (name_text_nonempty _ Hw). }
  split; [by exists w|]. split; [done|].
  intros sessionId. rewrite Hf. by apply name_file_no_separator.
Qed.

Lemma java_file_is_named_by_a_class_word_witness :
  let code := "public class Main { }" in
  (exists w, "Main" = text w /\ w <> [] /\ forallb is_word w = true) /\
  (forall sessionId, fileName "java" code sessionId = "Main" +:+ ".java") /\
  (forall sessionId, includes "/" (fileName "java" code sessionId) = false).
Proof.
  apply (java_file_is_named_by_a_class_word "public class Main { }" "Main").
  vm_compute. reflexivity.
Defined.

(** X16. [extractJavaClassName] returns [null] exactly when
    [/class\s+(\w+)/] matches nowhere in the code, in particular when
    the code does not contain the text [class]; the Java file of the
    session is then named after the session id. *)
Theorem no_class_name_iff_no_class code :
  (extractJavaClassName code = None <-> first_match class_here (chars code) = None) /\
  (includes "class" code = false -> extractJavaClassName code = None) /\
  (extractJavaClassName code = None ->
   forall sessionId, fileName "java" code sessionId = sessionId +:+ ".java").
Proof.
  assert (first_match class_here (chars code) = None -> extractJavaClassName code = None)
    as Hnone.
  { intros H. unfold extractJavaClassName.
    destruct (first_class_none _ H) as [-> ->]. by rewrite H. }
  split; [split; [|done]|split].
  - unfold extractJavaClassName.
    destruct (first_match public_class_here _); [done|].
    destruct (first_match class_with_main_here _); [done|].
    by destruct (first_match class_here _).
  - intros H. apply Hnone.
    destruct (first_match class_here (chars code)) as [m|] eqn:E; [|done].
    destruct (first_match_here _ _ _ E) as (l' & Hs & Hl).
    unfold class_here, literal in Hl.
    by rewrite (infix_of_none _ _ H _ Hs) in Hl.
  - intros H sessionId. unfold fileName. cbn [String.eqb Ascii.eqb Bool.eqb].
    by rewrite H.
Qed.

Lemma no_class_name_iff_no_class_witness :
  extractJavaClassName "int x = 1;" = None
  /\ forall sessionId, fileName "java" "int x = 1;" sessionId = sessionId +:+ ".java".
Proof.
  destruct (no_class_name_iff_no_class "int x = 1;") as (_ & Hi & Hf).
  assert (extractJavaClassName "int x = 1;" = None) as H
    by (apply Hi; vm_compute; reflexivity).
  split; [exact H | exact (Hf H)].
Defined.

(** X17. In code without a [public class], the name returned is that of
    the first class of the text as soon as a [public static void main]
    follows it anywhere, also when a later class declares that method. *)
Theorem first_class_wins_over_main_class code w rest :
  first_match public_class_here (chars code) = None ->
  first_match class_here (chars code) = Some (w, rest) ->
  has_main rest = true ->
  extractJavaClassName code = Some (text w).
Proof.
  intros Hp Hc Hm. unfold extractJavaClassName.
  by rewrite Hp, (first_class_with_main _ _ _ Hc Hm).
Qed.

Lemma first_class_wins_over_main_class_witness :
  extractJavaClassName "class A { } class B { public static void main(String[] a) { } }"
  = Some "A".
Proof.
  apply (first_class_wins_over_main_class
           "class A { } class B { public static void main(String[] a) { } }"
           (chars "A")
           (chars " { } class B { public static void main(String[] a) { } }"));
    vm_compute; reflexivity.
Defined.

End RouteNames.
